(** * Channel launchers of the Kolibri desktop XDG plugin

    A shallow embedding of [kolibri_app_desktop_xdg_plugin/channel_launchers.py]:
    the launcher entities (from the database and from disk), the version
    comparison, the writing and deleting of desktop entries and icons, and
    the reconciliation pass [update_channel_launchers]; and of the two
    helpers of [pillow_utils.py] that place one image on another.

    Python text is [string] (ASCII); a Python exception is a [Raise] result;
    the file system is a finite table from paths to file contents; logging
    and the spawned icon-cache command append to an event log.  What lives
    outside the repository's two source files (configparser's reader, the
    PIL image pipeline, [path_utils], the files the system refuses to
    remove) is gathered in an [environment]. *)

From Stdlib Require Import String Ascii List ZArith Lia Bool DecimalString.
Import ListNotations.
Open Scope string_scope.
Open Scope Z_scope.

(** ** Python values and exceptions *)

(** The exception classes the code can meet.  [FileNotFoundError] is a
    subclass of [OSError]; [ConfigParserError] stands for configparser's
    [Error] family (raised by [read] and [items]). *)
Inductive exn : Set :=
| ValueError
| TypeError
| AttributeError
| NotImplementedError
| OSError
| FileNotFoundError
| ConfigParserError
| ImageError.

Inductive result (A : Type) : Type :=
| Ok (a : A)
| Raise (e : exn).
Arguments Ok {A} a.
Arguments Raise {A} e.

(** [except OSError] also catches [FileNotFoundError]. *)
Definition isinstance_OSError (e : exn) : bool :=
  match e with
  | OSError | FileNotFoundError => true
  | _ => false
  end.

Definition isinstance_ValueError (e : exn) : bool :=
  match e with
  | ValueError => true
  | _ => false
  end.

(** [except Exception]: every exception of the model. *)
Definition isinstance_Exception (e : exn) : bool := true.

(** The values the functions return: [None], a [bool] or an [int]. *)
Inductive pyval : Set :=
| PyNone
| PyBool (b : bool)
| PyInt (n : Z).

(** Truth value testing, as [any] and [or] apply it. *)
Definition truthy (v : pyval) : bool :=
  match v with
  | PyNone => false
  | PyBool b => b
  | PyInt n => negb (n =? 0)
  end.

(** [a or b] on integers. *)
Definition int_or (a b : Z) : Z := if a =? 0 then b else a.

(** ** Strings *)

Definition option_string_eqb (a b : option string) : bool :=
  match a, b with
  | Some x, Some y => String.eqb x y
  | None, None => true
  | _, _ => false
  end.

(** [str(x)] under [format]: [None] prints as the text None. *)
Definition format_str (x : option string) : string :=
  match x with
  | Some s => s
  | None => "None"
  end.

(** [s.split(sep)] for a one-character separator. *)
Fixpoint str_split (sep : ascii) (s : string) : list string :=
  match s with
  | EmptyString => [EmptyString]
  | String c r =>
      if Ascii.eqb c sep then EmptyString :: str_split sep r
      else match str_split sep r with
           | h :: t => String c h :: t
           | [] => [String c EmptyString]
           end
  end.

(** ASCII whitespace that [int] skips on both ends: tab, LF, VT, FF, CR, space. *)
Definition is_space (c : ascii) : bool :=
  let n := nat_of_ascii c in
  (((9 <=? n) && (n <=? 13)) || (n =? 32))%nat.

Definition is_digit (c : ascii) : bool :=
  let n := nat_of_ascii c in
  ((48 <=? n) && (n <=? 57))%nat.

Definition digit_value (c : ascii) : Z := Z.of_nat (nat_of_ascii c) - 48.

Fixpoint lstrip (s : string) : string :=
  match s with
  | String c r => if is_space c then lstrip r else s
  | EmptyString => EmptyString
  end.

Fixpoint rstrip (s : string) : string :=
  match s with
  | EmptyString => EmptyString
  | String c r =>
      match rstrip r with
      | EmptyString => if is_space c then EmptyString else String c EmptyString
      | r' => String c r'
      end
  end.

(** Decimal digits, a single underscore allowed between two digits. *)
Fixpoint int_digits (s : string) (acc : Z) (after_digit : bool) : option Z :=
  match s with
  | EmptyString => if after_digit then Some acc else None
  | String c r =>
      if is_digit c then int_digits r (10 * acc + digit_value c) true
      else if Ascii.eqb c "_" && after_digit then int_digits r acc false
      else None
  end.

(** [int(s)] on text: surrounding whitespace, an optional sign, decimal
    digits.  [None] is the [ValueError]. *)
Definition py_int (s : string) : option Z :=
  match rstrip (lstrip s) with
  | String "+" r => int_digits r 0 false
  | String "-" r => option_map Z.opp (int_digits r 0 false)
  | r => int_digits r 0 false
  end.

(** [str(n)] for an integer. *)
Definition str_int (n : Z) : string := NilZero.string_of_int (Z.to_int n).

(** [s.startswith(p)], returning what follows the prefix. *)
Fixpoint strip_prefix (p s : string) : option string :=
  match p, s with
  | EmptyString, _ => Some s
  | String a p', String b s' => if Ascii.eqb a b then strip_prefix p' s' else None
  | String _ _, EmptyString => None
  end.

(** The longest prefix of characters satisfying [f], and the rest. *)
Fixpoint span (f : ascii -> bool) (s : string) : string * string :=
  match s with
  | EmptyString => (EmptyString, EmptyString)
  | String c r =>
      if f c then let (a, b) := span f r in (String c a, b)
      else (EmptyString, s)
  end.

Definition newline : ascii := "010"%char.
Definition tab : ascii := "009"%char.

(** ** The data URI pattern *)

Definition is_alpha (c : ascii) : bool :=
  let n := nat_of_ascii c in
  (((65 <=? n) && (n <=? 90)) || ((97 <=? n) && (n <=? 122)))%nat.

(** The character class of the mimetype group on ASCII text: word
    characters, slash, plus and minus. *)
Definition mimetype_char (c : ascii) : bool :=
  is_alpha c || is_digit c || Ascii.eqb c "_"
  || Ascii.eqb c "/" || Ascii.eqb c "+" || Ascii.eqb c "-".

(** [DATA_URI_PATTERN.match(s)] for the pattern that reads: start of text,
    the literal data and a colon, a greedy run of the class above (group
    [mimetype]), the literal ;base64 and a comma, then any characters
    (group [data_b64]).  The result is the two named groups, or [None] when
    the text does not match.  The class excludes the semicolon, so the
    greedy run is the only candidate; the dot stops at a line feed, and
    [match] does not ask the pattern to reach the end of the text. *)
Definition DATA_URI_PATTERN_match (s : string) : option (string * string) :=
  match strip_prefix "data:" s with
  | None => None
  | Some r =>
      let (mimetype, r') := span mimetype_char r in
      match strip_prefix ";base64," r' with
      | None => None
      | Some payload =>
          Some (mimetype, fst (span (fun c => negb (Ascii.eqb c newline)) payload))
      end
  end.

Definition LAUNCHER_CATEGORIES : list string := ["Education"; "X-Kolibri-Channel"].
Definition LAUNCHER_PREFIX : string := "org.learningequality.Kolibri.Channel.".

(** [sep.join(l)]. *)
Fixpoint join (sep : string) (l : list string) : string :=
  match l with
  | [] => EmptyString
  | [x] => x
  | x :: r => x ++ sep ++ join sep r
  end.

(** ** Paths *)

Fixpoint endswith_slash (s : string) : bool :=
  match s with
  | EmptyString => false
  | String c EmptyString => Ascii.eqb c "/"
  | String _ r => endswith_slash r
  end.

(** [os.path.join(a, b)] on POSIX paths. *)
Definition path_join (a b : string) : string :=
  match b with
  | String "/" _ => b
  | _ =>
      match a with
      | EmptyString => b
      | _ => if endswith_slash a then a ++ b else a ++ "/" ++ b
      end
  end.

Fixpoint has_slash (s : string) : bool :=
  match s with
  | EmptyString => false
  | String c r => Ascii.eqb c "/" || has_slash r
  end.

(** [os.path.basename(p)]: what follows the last slash. *)
Fixpoint basename (p : string) : string :=
  match p with
  | EmptyString => EmptyString
  | String c r =>
      if has_slash r then basename r
      else if Ascii.eqb c "/" then r else p
  end.

(** ** configparser: building and writing a parser

    A parser holds its sections in order, each with its options in order
    ([optionxform = str] keeps the keys as given). *)

Definition config : Type := list (string * list (string * string)).

(** [value.replace('%%', '')]. *)
Fixpoint remove_escaped_percent (s : string) : string :=
  match s with
  | String "%" (String "%" r) => remove_escaped_percent r
  | String c r => String c (remove_escaped_percent r)
  | EmptyString => EmptyString
  end.

(** After an opening percent and parenthesis: a non-empty run of characters
    other than the closing parenthesis, then that parenthesis and an s.
    Returns what follows the key. *)
Fixpoint interpolation_key_end (s : string) (nonempty : bool) : option string :=
  match s with
  | EmptyString => None
  | String ")" r =>
      if nonempty then
        match r with
        | String "s" r' => Some r'
        | _ => None
        end
      else None
  | String _ r => interpolation_key_end r true
  end.

(** [_KEYCRE.sub('', s)]: every interpolation key is removed, scanning
    from the left; [fuel] bounds the scan by the length of the text. *)
Fixpoint remove_interpolation_keys (fuel : nat) (s : string) : string :=
  match fuel with
  | O => s
  | S fuel' =>
      match s with
      | EmptyString => EmptyString
      | String c r =>
          let key :=
            if Ascii.eqb c "%" then
              match r with
              | String "(" r' => interpolation_key_end r' false
              | _ => None
              end
            else None in
          match key with
          | Some rest => remove_interpolation_keys fuel' rest
          | None => String c (remove_interpolation_keys fuel' r)
          end
      end
  end.

Fixpoint contains (c : ascii) (s : string) : bool :=
  match s with
  | EmptyString => false
  | String d r => Ascii.eqb d c || contains c r
  end.

(** [BasicInterpolation.before_set]: [true] when the value is accepted,
    [false] when [set] raises [ValueError] (a percent sign that is neither
    doubled nor the start of a key). *)
Definition before_set (value : string) : bool :=
  let tmp_value := remove_escaped_percent value in
  let tmp_value := remove_interpolation_keys (String.length tmp_value) tmp_value in
  negb (contains "%" tmp_value).

Fixpoint dict_set {V : Type} (k : string) (v : V) (d : list (string * V))
  : list (string * V) :=
  match d with
  | [] => [(k, v)]
  | (k', v') :: r => if String.eqb k' k then (k, v) :: r else (k', v') :: dict_set k v r
  end.

(** [d.get(k)] on a dictionary kept as its items. *)
Fixpoint dict_get {V : Type} (k : string) (d : list (string * V)) : option V :=
  match d with
  | [] => None
  | (k', v) :: r => if String.eqb k' k then Some v else dict_get k r
  end.

Definition has_section (section : string) (parser : config) : bool :=
  match dict_get section parser with
  | Some _ => true
  | None => false
  end.

(** [parser.add_section(section)]; a second section of the same name is
    refused. *)
Definition add_section (section : string) (parser : config) : result config :=
  if has_section section parser then Raise ConfigParserError
  else Ok (parser ++ [(section, [])])%list.

(** [parser.set(section, option, value)]: the value is validated first,
    then the section is looked up. *)
Definition set_option (section option value : string) (parser : config)
  : result config :=
  if before_set value then
    match dict_get section parser with
    | None => Raise ConfigParserError
    | Some options => Ok (dict_set section (dict_set option value options) parser)
    end
  else Raise ValueError.

(** [str(value).replace('\n', '\n\t')]. *)
Fixpoint indent_newlines (s : string) : string :=
  match s with
  | EmptyString => EmptyString
  | String c r =>
      if Ascii.eqb c newline
      then String newline (String tab (indent_newlines r))
      else String c (indent_newlines r)
  end.

Definition nl : string := String newline EmptyString.

Definition write_option (kv : string * string) : string :=
  fst kv ++ "=" ++ indent_newlines (snd kv) ++ nl.

Definition write_section (sec : string * list (string * string)) : string :=
  "[" ++ fst sec ++ "]" ++ nl ++ String.concat EmptyString (map write_option (snd sec)) ++ nl.

(** [parser.write(fp, space_around_delimiters=False)]: the text sent to
    the file. *)
Definition ConfigParser_write (parser : config) : string :=
  String.concat EmptyString (map write_section parser).

(** ** configparser: a reader for plain files

    The reading side of configparser is a parameter of the model (see
    [environment]).  [plain_configparser_read] is the instance used by the
    worked examples: it reads section headers, blank lines, comment lines
    and single-line options that start in the first column and are
    delimited by [=] or [:]; any other line, an empty name and a repeated
    section or option are parsing errors.  On files made of such lines
    only, with no percent sign in a value, this is what configparser
    returns. *)

Definition strip (s : string) : string := rstrip (lstrip s).

Definition is_delimiter (c : ascii) : bool := Ascii.eqb c "=" || Ascii.eqb c ":".

Fixpoint plain_read_lines (lines : list string) (current : option string)
  (parser : config) : result config :=
  match lines with
  | [] => Ok parser
  | line :: rest =>
      match line with
      | EmptyString => plain_read_lines rest current parser
      | String "#" _ => plain_read_lines rest current parser
      | String ";" _ => plain_read_lines rest current parser
      | String "[" r =>
          let (section, tail) := span (fun c => negb (Ascii.eqb c "]")) r in
          match tail with
          | String "]" EmptyString =>
              match section, add_section section parser with
              | String _ _, Ok parser' => plain_read_lines rest (Some section) parser'
              | _, _ => Raise ConfigParserError
              end
          | _ => Raise ConfigParserError
          end
      | String c _ =>
          if is_space c then Raise ConfigParserError else
          let (key, tail) := span (fun c => negb (is_delimiter c)) line in
          match tail, current with
          | String _ value, Some section =>
              match dict_get section parser with
              | Some options =>
                  match strip key, dict_get (strip key) options with
                  | String _ _, None =>
                      plain_read_lines rest current
                        (dict_set section
                           (options ++ [(strip key, strip value)])%list parser)
                  | _, _ => Raise ConfigParserError
                  end
              | None => Raise ConfigParserError
              end
          | _, _ => Raise ConfigParserError
          end
      end
  end.

Definition plain_configparser_read (text : string) : result config :=
  plain_read_lines (str_split newline text) None [].

(** ** The world the code runs in *)

(** A channel record of the metadata provider ([ChannelMetadata] of
    Kolibri), with the fields the launchers read.  [version] is the text
    that [format] prints for the record's version. *)
Module ChannelMetadata.
Record t : Type := {
  id : string;
  version : string;
  name : string;
  tagline : option string;
  thumbnail : option string;
  root_available : bool
}.
End ChannelMetadata.

(** What the logger and the process spawner receive. *)
Inductive event : Type :=
| info_Removing (launcher : string)
| info_Creating (launcher : string)
| info_Updating (launcher : string)
| warning_icon_file (channel_id : option string) (error : exn)
| warning_desktop_file (channel_id : option string) (error : exn)
| info_icon_cache (error : exn)
| subprocess (args : list string).

(** The mutable state: the provider's records, the files by path, the
    paths that cannot be opened for writing, and the events so far. *)
Record world : Type := {
  database : list ChannelMetadata.t;
  files : list (string * string);
  unwritable : list string;
  log : list event
}.

(** The collaborators outside the two source files. *)
Record environment : Type := {
  (** [path_utils.get_content_share_dir_path()] *)
  get_content_share_dir_path : string;
  (** [ConfigParser.read] followed by [items]: the sections of a file with
      their options, or the error raised on the way. *)
  configparser_read : string -> result config;
  (** [ChannelIcon.write]: the PNG bytes composed from the groups
      [mimetype] and [data_b64] of the thumbnail (base64 decoding, PIL and
      the [pillow_utils] helpers), or the error raised on the way. *)
  icon_image_save : string -> string -> result string;
  (** [subprocess.run(args)]: [OSError] when the program cannot be started. *)
  subprocess_run : list string -> result unit;
  (** The existing files that [os.remove] refuses to remove, with
      [PermissionError] or another [OSError]. *)
  remove_denied : string -> bool
}.

(** ** Effects: a state and exception monad *)

Definition IO (A : Type) : Type := world -> result A * world.

Definition ret {A : Type} (a : A) : IO A := fun w => (Ok a, w).

Definition raise {A : Type} (e : exn) : IO A := fun w => (Raise e, w).

Definition bind {A B : Type} (m : IO A) (k : A -> IO B) : IO B :=
  fun w =>
    match m w with
    | (Ok a, w') => k a w'
    | (Raise e, w') => (Raise e, w')
    end.

(** [try: m  except <class> as error: handler error]. *)
Definition try_except {A : Type} (m : IO A) (class : exn -> bool)
  (handler : exn -> IO A) : IO A :=
  fun w =>
    match m w with
    | (Ok a, w') => (Ok a, w')
    | (Raise e, w') => if class e then handler e w' else (Raise e, w')
    end.

Definition lift {A : Type} (r : result A) : IO A := fun w => (r, w).

Notation "x <- m ;; k" := (bind m (fun x => k))
  (at level 61, m at next level, right associativity).
Notation "m ;;; k" := (bind m (fun _ => k))
  (at level 61, right associativity).

Definition logger (e : event) : IO unit :=
  fun w => (Ok tt, {| database := database w; files := files w;
                      unwritable := unwritable w; log := (log w ++ [e])%list |}).

Definition set_files (fs : list (string * string)) (w : world) : world :=
  {| database := database w; files := fs; unwritable := unwritable w; log := log w |}.

(** ** Files *)

Definition fs_remove (path : string) (fs : list (string * string))
  : list (string * string) :=
  filter (fun entry => negb (String.eqb (fst entry) path)) fs.

Definition fs_write (path data : string) (fs : list (string * string))
  : list (string * string) :=
  (fs_remove path fs ++ [(path, data)])%list.

Definition mem (x : string) (l : list string) : bool := existsb (String.eqb x) l.

(** [open(path, 'w')]: the file is created or emptied; [OSError] when the
    path cannot be opened for writing.  The directory of the path is taken
    to exist: the code calls [ensure_dir] before each [open] of its own. *)
Definition open_w (path : string) : IO unit :=
  fun w =>
    if mem path (unwritable w) then (Raise OSError, w)
    else (Ok tt, set_files (fs_write path EmptyString (files w)) w).

(** [file.write(data)] on a file just opened at [path]. *)
Definition file_write (path data : string) : IO unit :=
  fun w => (Ok tt, set_files (fs_write path data (files w)) w).

Definition os_path_isfile (path : string) : IO bool :=
  fun w => (Ok (match dict_get path (files w) with Some _ => true | None => false end), w).

(** [os.remove(path)]: [FileNotFoundError] for a missing file, [OSError]
    (its subclass [PermissionError] and the like) for a file the system
    refuses to remove. *)
Definition os_remove (E : environment) (path : string) : IO unit :=
  fun w =>
    match dict_get path (files w) with
    | Some _ =>
        if remove_denied E path then (Raise OSError, w)
        else (Ok tt, set_files (fs_remove path (files w)) w)
    | None => (Raise FileNotFoundError, w)
    end.

(** A directory path with its trailing slash. *)
Definition dir_prefix (dir : string) : string :=
  if endswith_slash dir then dir else dir ++ "/".

(** The name of [path] inside [dir] when it lies directly in it. *)
Definition child_name (dir path : string) : option string :=
  match strip_prefix (dir_prefix dir) path with
  | Some (String c r) => if has_slash (String c r) then None else Some (String c r)
  | _ => None
  end.

(** [os.path.isdir(dir)]: some file lies below [dir]. *)
Definition os_path_isdir (dir : string) : IO bool :=
  fun w =>
    (Ok (existsb (fun entry =>
                    match strip_prefix (dir_prefix dir) (fst entry) with
                    | Some _ => true
                    | None => false
                    end) (files w)), w).

Fixpoint children (dir : string) (fs : list (string * string)) : list string :=
  match fs with
  | [] => []
  | (path, _) :: rest =>
      match child_name dir path with
      | Some file_name => file_name :: children dir rest
      | None => children dir rest
      end
  end.

(** [os.listdir(dir)]: the names of the files directly in [dir]. *)
Definition os_listdir (dir : string) : IO (list string) :=
  fun w => (Ok (children dir (files w)), w).

(** The directory part of a path, up to its last slash. *)
Fixpoint dir_part (path : string) : string :=
  match path with
  | EmptyString => EmptyString
  | String c r => if has_slash path then String c (dir_part r) else EmptyString
  end.

(** Directories are implicit in the table of files: the directory of
    [path] exists when some file lies in it or below it. *)
Definition parent_exists (path : string) (fs : list (string * string)) : bool :=
  existsb (fun entry =>
             match strip_prefix (dir_part path) (fst entry) with
             | Some _ => true
             | None => false
             end) fs.

(** [shutil.copyfile(src, dst)]: [FileNotFoundError] when the source is
    missing, and also when the directory of [dst] does not exist, since
    nothing creates it here. *)
Definition shutil_copyfile (src dst : string) : IO unit :=
  fun w =>
    match dict_get src (files w) with
    | None => (Raise FileNotFoundError, w)
    | Some data =>
        if parent_exists dst (files w) then (open_w dst ;;; file_write dst data) w
        else (Raise FileNotFoundError, w)
    end.

(** Modelled from the spec: [path_utils.ensure_dir], which prepares the
    directory of a path about to be written.  Directories are implicit in
    the table of files, so nothing changes. *)
Definition ensure_dir (path : string) : IO unit := ret tt.

(** Modelled from the spec: [path_utils.try_remove], the best-effort
    removal of a file, for which a missing file is not an error; neither
    is a file that cannot be removed. *)
Definition try_remove (E : environment) (path : string) : IO unit :=
  try_except (os_remove E path) isinstance_OSError (fun _ => ret tt).

(** [ConfigParser.read(path)] and the sections it then holds: a file that
    cannot be opened is skipped and leaves the parser empty. *)
Definition ConfigParser_read (reader : string -> result config) (path : string)
  : IO config :=
  fun w =>
    match dict_get path (files w) with
    | Some text => (reader text, w)
    | None => (Ok [], w)
    end.

(** [dict(items)]: a later item replaces an earlier one of the same key. *)
Definition dict (items : list (string * string)) : list (string * string) :=
  fold_left (fun d kv => dict_set (fst kv) (snd kv) d) items [].

(** ** Launchers *)

(** The two kinds of launcher: [ChannelLauncher_FromDatabase] holds a
    channel record, [ChannelLauncher_FromDisk] the path of a desktop file
    and the options of its Desktop Entry section. *)
Inductive ChannelLauncher : Type :=
| ChannelLauncher_FromDatabase (channelmetadata : ChannelMetadata.t)
| ChannelLauncher_FromDisk (desktop_file_path : string)
    (desktop_entry_data : list (string * string)).

Definition FORMAT_VERSION : Z := 5.

Definition channel_id (self : ChannelLauncher) : option string :=
  match self with
  | ChannelLauncher_FromDatabase channelmetadata =>
      Some (ChannelMetadata.id channelmetadata)
  | ChannelLauncher_FromDisk _ desktop_entry_data =>
      dict_get "X-Kolibri-Channel-Id" desktop_entry_data
  end.

Definition channel_version (self : ChannelLauncher) : option string :=
  match self with
  | ChannelLauncher_FromDatabase channelmetadata =>
      Some (ChannelMetadata.version channelmetadata ++ "~" ++ str_int FORMAT_VERSION)
  | ChannelLauncher_FromDisk _ desktop_entry_data =>
      dict_get "X-Kolibri-Channel-Version" desktop_entry_data
  end.

Definition is_same_channel (self other : ChannelLauncher) : bool :=
  option_string_eqb (channel_id self) (channel_id other).

(** [a, b = map(int, version.split("~"))]: [AttributeError] when the
    version is [None], [ValueError] when there are not exactly two
    components or one of them is not an integer. *)
Definition version_components (version : option string) : result (Z * Z) :=
  match version with
  | None => Raise AttributeError
  | Some v =>
      match map py_int (str_split "~" v) with
      | [Some a; Some b] => Ok (a, b)
      | _ => Raise ValueError
      end
  end.

Definition compare (self other : ChannelLauncher) : result pyval :=
  if negb (is_same_channel self other) then Ok PyNone
  else
    match version_components (channel_version self) with
    | Raise e => Raise e
    | Ok (self_channel, self_format) =>
        match version_components (channel_version other) with
        | Raise e => Raise e
        | Ok (other_channel, other_format) =>
            Ok (PyInt (int_or (self_channel - other_channel)
                              (self_format - other_format)))
        end
    end.

(** [any(map(launcher.is_same_channel, launchers))]. *)
Definition any_is_same_channel (launcher : ChannelLauncher)
  (launchers : list ChannelLauncher) : bool :=
  existsb (is_same_channel launcher) launchers.

(** [any(map(launcher.compare, launchers))]: the comparisons are made one
    after the other and stop at the first true value; an exception of
    [compare] leaves the whole expression. *)
Fixpoint any_compare (launcher : ChannelLauncher) (launchers : list ChannelLauncher)
  : result bool :=
  match launchers with
  | [] => Ok false
  | other :: rest =>
      match compare launcher other with
      | Raise e => Raise e
      | Ok v => if truthy v then Ok true else any_compare launcher rest
      end
  end.

(** ** Icons *)

(** A [ChannelIcon] keeps the groups of the matched thumbnail:
    [mimetype] and [data_b64]. *)
Definition ChannelIcon : Type := (string * string)%type.

(** [ChannelIcon(thumbnail_data_uri)]: matching [None] is a [TypeError],
    a text that does not match is a [ValueError]. *)
Definition ChannelIcon_init (thumbnail_data_uri : option string) : result ChannelIcon :=
  match thumbnail_data_uri with
  | None => Raise TypeError
  | Some s =>
      match DATA_URI_PATTERN_match s with
      | None => Raise ValueError
      | Some thumbnail_info => Ok thumbnail_info
      end
  end.

Definition file_extension : string := ".png".

(** The property [__channel_icon] of a launcher from the database. *)
Definition channel_icon (channelmetadata : ChannelMetadata.t)
  : result (option ChannelIcon) :=
  match ChannelIcon_init (ChannelMetadata.thumbnail channelmetadata) with
  | Ok icon => Ok (Some icon)
  | Raise e => if isinstance_ValueError e then Ok None else Raise e
  end.

(** [x or ""]: the text, or the empty text for [None]. *)
Definition or_empty (x : option string) : string :=
  match x with
  | Some s => s
  | None => EmptyString
  end.

(** [if icon_name:] - [None] and the empty text are false. *)
Definition nonempty (s : option string) : bool :=
  match s with
  | Some (String _ _) => true
  | _ => false
  end.

(** ** The methods that touch the world *)

Section Launchers.

Variable E : environment.

(** [ChannelLaunchersContext]. *)
Definition applications_dir : string :=
  path_join (get_content_share_dir_path E) "applications".

Definition icon_theme_dir : string :=
  path_join (path_join (get_content_share_dir_path E) "icons") "hicolor".

Definition desktop_file_name (self : ChannelLauncher) : string :=
  match self with
  | ChannelLauncher_FromDatabase _ =>
      LAUNCHER_PREFIX ++ format_str (channel_id self) ++ ".desktop"
  | ChannelLauncher_FromDisk desktop_file_path _ => basename desktop_file_path
  end.

Definition desktop_file_path (self : ChannelLauncher) : string :=
  match self with
  | ChannelLauncher_FromDatabase _ => path_join applications_dir (desktop_file_name self)
  | ChannelLauncher_FromDisk desktop_file_path _ => desktop_file_path
  end.

(** [get_icon_file_path(file_name)] with its default [size="256x256"]. *)
Definition get_icon_file_path (file_name : string) : string :=
  path_join (path_join (path_join icon_theme_dir "256x256") "apps") file_name.

(** [ChannelIcon.write(icon_file)]: the bytes [icon_image.save] produces. *)
Definition ChannelIcon_write (icon : ChannelIcon) : result string :=
  icon_image_save E (fst icon) (snd icon).

Definition write_desktop_file (self : ChannelLauncher) (icon_name : option string)
  : IO unit :=
  match self with
  | ChannelLauncher_FromDatabase channelmetadata =>
      p <- lift (add_section "Desktop Entry" []) ;;
      p <- lift (set_option "Desktop Entry" "Version" "1.0" p) ;;
      p <- lift (set_option "Desktop Entry" "Type" "Application" p) ;;
      p <- lift (set_option "Desktop Entry" "Name" (ChannelMetadata.name channelmetadata) p) ;;
      p <- lift (set_option "Desktop Entry" "Comment"
                   (or_empty (ChannelMetadata.tagline channelmetadata)) p) ;;
      p <- lift (set_option "Desktop Entry" "Exec"
                   ("flatpak run org.learningequality.Kolibri --channel-id "
                    ++ format_str (channel_id self)) p) ;;
      p <- lift (set_option "Desktop Entry" "X-Endless-LaunchMaximized" "True" p) ;;
      p <- lift (set_option "Desktop Entry" "X-Kolibri-Channel-Id"
                   (ChannelMetadata.id channelmetadata) p) ;;
      p <- lift (set_option "Desktop Entry" "X-Kolibri-Channel-Version"
                   (format_str (channel_version self)) p) ;;
      p <- lift (set_option "Desktop Entry" "Categories"
                   (join ";" LAUNCHER_CATEGORIES ++ ";") p) ;;
      p <- (if nonempty icon_name
            then lift (set_option "Desktop Entry" "Icon" (format_str icon_name) p)
            else ret p) ;;
      ensure_dir (desktop_file_path self) ;;;
      open_w (desktop_file_path self) ;;;
      file_write (desktop_file_path self) (ConfigParser_write p)
  | ChannelLauncher_FromDisk _ _ => raise NotImplementedError
  end.

Definition delete_desktop_file (self : ChannelLauncher) : IO unit :=
  os_remove E (desktop_file_path self).

Definition write_channel_icon (self : ChannelLauncher) : IO (option string) :=
  match self with
  | ChannelLauncher_FromDatabase channelmetadata =>
      icon <- lift (channel_icon channelmetadata) ;;
      match icon with
      | None => ret None
      | Some channel_icon =>
          let icon_name := LAUNCHER_PREFIX ++ format_str (channel_id self) in
          let icon_file_path := get_icon_file_path (icon_name ++ file_extension) in
          ensure_dir icon_file_path ;;;
          open_w icon_file_path ;;;
          data <- lift (ChannelIcon_write channel_icon) ;;
          file_write icon_file_path data ;;;
          ret (Some icon_name)
      end
  | ChannelLauncher_FromDisk _ _ => ret None
  end.

Definition delete_channel_icon (self : ChannelLauncher) : IO unit :=
  match self with
  | ChannelLauncher_FromDatabase _ => raise NotImplementedError
  | ChannelLauncher_FromDisk _ _ =>
      let icon_name := LAUNCHER_PREFIX ++ format_str (channel_id self) in
      let icon_file_path := get_icon_file_path (icon_name ++ ".png") in
      isfile <- os_path_isfile icon_file_path ;;
      if isfile then try_remove E icon_file_path else ret tt
  end.

Definition save (self : ChannelLauncher) : IO unit :=
  icon_name <-
    try_except (write_channel_icon self) isinstance_Exception
      (fun error => logger (warning_icon_file (channel_id self) error) ;;; ret None) ;;
  try_except (write_desktop_file self icon_name) isinstance_Exception
    (fun error => logger (warning_desktop_file (channel_id self) error)).

Definition delete (self : ChannelLauncher) : IO unit :=
  delete_desktop_file self ;;;
  delete_channel_icon self.

(** [ChannelLauncher_FromDatabase.load_all]: one launcher per record of
    [ChannelMetadata.objects.filter(root__available=True)]. *)
Definition FromDatabase_load_all : IO (list ChannelLauncher) :=
  fun w =>
    (Ok (map ChannelLauncher_FromDatabase
           (filter ChannelMetadata.root_available (database w))), w).

(** The loop of [ChannelLauncher_FromDisk.load_all] over the listed names. *)
Fixpoint FromDisk_load_files (file_names : list string) : IO (list ChannelLauncher) :=
  match file_names with
  | [] => ret []
  | file_name :: rest =>
      let file_path := path_join applications_dir file_name in
      desktop_file_parser <- ConfigParser_read (configparser_read E) file_path ;;
      match dict_get "Desktop Entry" desktop_file_parser with
      | Some items =>
          launchers <- FromDisk_load_files rest ;;
          ret (ChannelLauncher_FromDisk file_path (dict items) :: launchers)
      | None => FromDisk_load_files rest
      end
  end.

Definition FromDisk_load_all : IO (list ChannelLauncher) :=
  isdir <- os_path_isdir applications_dir ;;
  if negb isdir then ret []
  else
    file_names <- os_listdir applications_dir ;;
    FromDisk_load_files file_names.

(** ** The reconciliation pass *)

(** The first loop of [update_channel_launchers]: launchers on disk whose
    channel is no longer in the database are removed. *)
Fixpoint for_launchers_from_disk (launchers_from_db launchers_from_disk : list ChannelLauncher)
  (did_icons_change : bool) : IO bool :=
  match launchers_from_disk with
  | [] => ret did_icons_change
  | launcher :: rest =>
      if negb (any_is_same_channel launcher launchers_from_db) then
        logger (info_Removing (desktop_file_name launcher)) ;;;
        delete launcher ;;;
        for_launchers_from_disk launchers_from_db rest true
      else for_launchers_from_disk launchers_from_db rest did_icons_change
  end.

(** The second loop: launchers of the database are created, or updated
    when forced or when a comparison with a launcher on disk is true. *)
Fixpoint for_launchers_from_db (force : bool)
  (launchers_from_disk launchers_from_db : list ChannelLauncher)
  (did_icons_change : bool) : IO bool :=
  match launchers_from_db with
  | [] => ret did_icons_change
  | launcher :: rest =>
      if negb (any_is_same_channel launcher launchers_from_disk) then
        logger (info_Creating (desktop_file_name launcher)) ;;;
        save launcher ;;;
        for_launchers_from_db force launchers_from_disk rest true
      else
        outdated <- (if force then ret true
                     else lift (any_compare launcher launchers_from_disk)) ;;
        if outdated then
          logger (info_Updating (desktop_file_name launcher)) ;;;
          save launcher ;;;
          for_launchers_from_db force launchers_from_disk rest true
        else for_launchers_from_db force launchers_from_disk rest did_icons_change
  end.

(** Both loops in sequence; the result is the final [did_icons_change]. *)
Definition reconcile (force : bool)
  (launchers_from_db launchers_from_disk : list ChannelLauncher) : IO bool :=
  did_icons_change <- for_launchers_from_disk launchers_from_db launchers_from_disk false ;;
  for_launchers_from_db force launchers_from_disk launchers_from_db did_icons_change.

Definition system_theme_index : string := "/usr/share/icons/hicolor/index.theme".

(** The block under [if did_icons_change:]. *)
Definition update_icon_cache : IO unit :=
  let update_icon_cache_params := [icon_theme_dir] in
  update_icon_cache_params <-
    try_except
      (shutil_copyfile system_theme_index (path_join icon_theme_dir "index.theme") ;;;
       ret update_icon_cache_params)
      isinstance_OSError
      (fun _ => ret (update_icon_cache_params ++ ["--ignore-theme-index"])%list) ;;
  let args := "gtk-update-icon-cache" :: update_icon_cache_params in
  try_except
    (lift (subprocess_run E args) ;;; logger (subprocess args))
    isinstance_OSError
    (fun error => logger (info_icon_cache error)).

(** [update_channel_launchers(force)].  The function has no [return]
    statement: its value is [None]. *)
Definition update_channel_launchers (force : bool) : IO pyval :=
  launchers_from_db <- FromDatabase_load_all ;;
  launchers_from_disk <- FromDisk_load_all ;;
  did_icons_change <- reconcile force launchers_from_db launchers_from_disk ;;
  (if did_icons_change then update_icon_cache else ret tt) ;;;
  ret PyNone.

(** ** The reconciliation of the specification

    These definitions follow the words of the specification, to be
    compared with the loops above. *)




Inductive action : Type :=
| Delete (launcher : ChannelLauncher)
| Create (launcher : ChannelLauncher)
| Update (launcher : ChannelLauncher).



(** Carrying out one action, with the line the code logs for it. *)
Definition perform (a : action) : IO unit :=
  match a with
  | Delete launcher =>
      logger (info_Removing (desktop_file_name launcher)) ;;; delete launcher
  | Create launcher =>
      logger (info_Creating (desktop_file_name launcher)) ;;; save launcher
  | Update launcher =>
      logger (info_Updating (desktop_file_name launcher)) ;;; save launcher
  end.

Fixpoint perform_all (actions : list action) : IO unit :=
  match actions with
  | [] => ret tt
  | a :: rest => perform a ;;; perform_all rest
  end.

Definition is_nil {A : Type} (l : list A) : bool :=
  match l with
  | [] => true
  | _ => false
  end.

End Launchers.

(** ** Worked examples: an environment, records and launchers *)

(** Share directory [/share], the plain reader, an image pipeline that
    prefixes the payload and fails on an empty one, an icon-cache command
    that starts, and no file that cannot be removed. *)
Definition example_environment : environment := {|
  get_content_share_dir_path := "/share";
  configparser_read := plain_configparser_read;
  icon_image_save := fun _ data_b64 =>
    match data_b64 with
    | EmptyString => Raise ImageError
    | _ => Ok ("PNG " ++ data_b64)
    end;
  subprocess_run := fun _ => Ok tt;
  remove_denied := fun _ => false
|}.

Definition example_channel (id version name : string) (thumbnail : option string)
  : ChannelMetadata.t := {|
  ChannelMetadata.id := id;
  ChannelMetadata.version := version;
  ChannelMetadata.name := name;
  ChannelMetadata.tagline := None;
  ChannelMetadata.thumbnail := thumbnail;
  ChannelMetadata.root_available := true
|}.

(** A launcher read from [path], with the two custom fields set. *)
Definition example_disk_launcher (path id version : string) : ChannelLauncher :=
  ChannelLauncher_FromDisk path
    [("X-Kolibri-Channel-Id", id); ("X-Kolibri-Channel-Version", version)].

(** The text of a desktop file holding the two custom fields. *)
Definition example_desktop_text (id version : string) : string :=
  "[Desktop Entry]" ++ nl
  ++ "X-Kolibri-Channel-Id=" ++ id ++ nl
  ++ "X-Kolibri-Channel-Version=" ++ version ++ nl ++ nl.

Definition example_world (db : list ChannelMetadata.t) (fs : list (string * string))
  : world :=
  {| database := db; files := fs; unwritable := []; log := [] |}.

(** ** Reading the event log *)

(** The lines logged for a deletion, a creation and an update. *)
Definition is_change (ev : event) : bool :=
  match ev with
  | info_Removing _ | info_Creating _ | info_Updating _ => true
  | _ => false
  end.

(** The two outcomes of running the icon-cache command: it started, or
    its failure was logged. *)
Definition is_icon_cache_update (ev : event) : bool :=
  match ev with
  | subprocess _ | info_icon_cache _ => true
  | _ => false
  end.

(** The warnings of [save]. *)
Definition is_warning (ev : event) : bool :=
  match ev with
  | warning_icon_file _ _ | warning_desktop_file _ _ => true
  | _ => false
  end.

(** [emits m P]: whatever [m] does, it only appends events satisfying [P]
    to the log. *)
Definition emits {A : Type} (m : IO A) (P : event -> bool) : Prop :=
  forall w, exists evs, log (snd (m w)) = (log w ++ evs)%list /\ forallb P evs = true.

(** No event at all: [emits m no_event] says that [m] logs nothing. *)
Definition no_event (ev : event) : bool := false.

(** What a computation appends to the log when it carries the flag
    [did_icons_change]: changes and warnings only, and the flag it returns
    is the flag it was given or the presence of a change. *)
Definition tracks_changes (m : IO bool) (did : bool) : Prop :=
  forall w, exists evs,
    log (snd (m w)) = (log w ++ evs)%list
    /\ existsb is_icon_cache_update evs = false
    /\ forall b, fst (m w) = Ok b -> b = did || existsb is_change evs.

(** The launchers [load_all] builds from one listed file: one when the
    file parses and holds a Desktop Entry section, none otherwise. *)
Definition launchers_of_file (E : environment) (fs : list (string * string))
  (file_name : string) : list ChannelLauncher :=
  let file_path := path_join (applications_dir E) file_name in
  match dict_get file_path fs with
  | Some text =>
      match configparser_read E text with
      | Ok parser =>
          match dict_get "Desktop Entry" parser with
          | Some items => [ChannelLauncher_FromDisk file_path (dict items)]
          | None => []
          end
      | Raise _ => []
      end
  | None => []
  end.

(** The reader raises no error on the file. *)
Definition file_parses (E : environment) (fs : list (string * string))
  (file_name : string) : bool :=
  match dict_get (path_join (applications_dir E) file_name) fs with
  | Some text =>
      match configparser_read E text with
      | Ok _ => true
      | Raise _ => false
      end
  | None => true
  end.

(** The options of the Desktop Entry section that [write_desktop_file]
    sets for a record, in the order it sets them; the theorems below
    relate it to the sequence of [set] calls. *)
Definition desktop_entry (channelmetadata : ChannelMetadata.t)
  (icon_name : option string) : list (string * string) :=
  ([("Version", "1.0");
    ("Type", "Application");
    ("Name", ChannelMetadata.name channelmetadata);
    ("Comment", or_empty (ChannelMetadata.tagline channelmetadata));
    ("Exec", ("flatpak run org.learningequality.Kolibri --channel-id "
              ++ ChannelMetadata.id channelmetadata)%string);
    ("X-Endless-LaunchMaximized", "True");
    ("X-Kolibri-Channel-Id", ChannelMetadata.id channelmetadata);
    ("X-Kolibri-Channel-Version",
     (ChannelMetadata.version channelmetadata ++ "~5")%string);
    ("Categories", "Education;X-Kolibri-Channel;")]
   ++ match icon_name with
      | Some (String c r) => [("Icon", String c r)]
      | _ => []
      end)%list.

(** ** The entry files of a world *)

(** The share directory as a prefix of the paths below it. *)
Definition share_prefix (E : environment) : string :=
  match get_content_share_dir_path E with
  | EmptyString => EmptyString
  | share => if endswith_slash share then share else share ++ "/"
  end.

(** An entry path: a path directly in the applications directory. *)
Definition is_entry_path (E : environment) (path : string) : bool :=
  match child_name (applications_dir E) path with
  | Some _ => true
  | None => false
  end.

(** The text of the desktop file of a record. *)
Definition entry_text (c : ChannelMetadata.t) (icon_name : option string) : string :=
  ConfigParser_write [("Desktop Entry", desktop_entry c icon_name)].

(** The two icon names [save] can pass on: none, or the prefixed id. *)
Definition icon_names (c : ChannelMetadata.t) : list (option string) :=
  [None; Some (LAUNCHER_PREFIX ++ ChannelMetadata.id c)].

(** [w'] has the entry files of [w], the same database and the same
    unwritable paths. *)
Definition same_entries (E : environment) (w w' : world) : Prop :=
  unwritable w' = unwritable w
  /\ database w' = database w
  /\ forall q, is_entry_path E q = true ->
               dict_get q (files w') = dict_get q (files w).

(** The test the second loop makes for a launcher: [Ok true] when the
    launcher is saved, [Ok false] when it is left alone. *)
Definition outdated (force : bool) (launchers_from_disk : list ChannelLauncher)
  (launcher : ChannelLauncher) : result bool :=
  if negb (any_is_same_channel launcher launchers_from_disk) then Ok true
  else if force then Ok true
  else any_compare launcher launchers_from_disk.

(** The launcher is saved by the second loop. *)
Definition is_saved (force : bool) (launchers_from_disk : list ChannelLauncher)
  (launcher : ChannelLauncher) : bool :=
  match outdated force launchers_from_disk launcher with
  | Ok true => true
  | _ => false
  end.

(** The test of the first loop. *)
Definition is_stale (launchers_from_db : list ChannelLauncher)
  (launcher : ChannelLauncher) : bool :=
  negb (any_is_same_channel launcher launchers_from_db).

(** A record whose desktop file can be written in [w]. *)
Definition can_write (E : environment) (w : world) (c : ChannelMetadata.t) : Prop :=
  has_slash (ChannelMetadata.id c) = false
  /\ mem (desktop_file_path E (ChannelLauncher_FromDatabase c)) (unwritable w) = false
  /\ forall icon_name, In icon_name (icon_names c) ->
                       forallb before_set (map snd (desktop_entry c icon_name)) = true.

(** [launcher_on_disk E fs d]: the launcher [d] is what reading an entry
    file of [fs] gives. *)
Definition launcher_on_disk (E : environment) (fs : list (string * string))
  (d : ChannelLauncher) : Prop :=
  exists path text parser items,
    is_entry_path E path = true
    /\ dict_get path fs = Some text
    /\ configparser_read E text = Ok parser
    /\ dict_get "Desktop Entry" parser = Some items
    /\ d = ChannelLauncher_FromDisk path (dict items).

(** The source list of a world: the available records. *)
Definition source (w : world) : list ChannelMetadata.t :=
  filter ChannelMetadata.root_available (database w).

(** The launchers a pass reads from the disk of [w]. *)
Definition disk_launchers (E : environment) (w : world) : list ChannelLauncher :=
  flat_map (launchers_of_file E (files w)) (children (applications_dir E) (files w)).

(** The version of the launcher of a record parses as two integers. *)
Definition version_parses (c : ChannelMetadata.t) : Prop :=
  exists a b,
    version_components (channel_version (ChannelLauncher_FromDatabase c)) = Ok (a, b).

(** The reader gives back the channel id and the version of a desktop
    file written for the record. *)
Definition reads_back (E : environment) (c : ChannelMetadata.t) : Prop :=
  forall icon_name, In icon_name (icon_names c) ->
    exists parser items,
      configparser_read E (entry_text c icon_name) = Ok parser
      /\ dict_get "Desktop Entry" parser = Some items
      /\ dict_get "X-Kolibri-Channel-Id" (dict items) = Some (ChannelMetadata.id c)
      /\ dict_get "X-Kolibri-Channel-Version" (dict items)
         = channel_version (ChannelLauncher_FromDatabase c).

(** Every launcher on disk of a channel of the source list sits at the
    desktop file path derived from the channel id. *)
Definition in_place (E : environment) (w : world) : Prop :=
  forall d c,
    In d (disk_launchers E w) -> In c (source w) ->
    channel_id d = Some (ChannelMetadata.id c) ->
    desktop_file_path E d = desktop_file_path E (ChannelLauncher_FromDatabase c).

(** ** The actions of a pass *)

(** What the second loop does for a launcher of the database: a creation
    when no launcher on disk is of its channel; otherwise an update when
    the test [force or any(map(launcher.compare, launchers_from_disk))] is
    true, and nothing when it is false. *)
Definition loop_action (force : bool) (launchers_from_disk : list ChannelLauncher)
  (launcher : ChannelLauncher) : list action :=
  if negb (any_is_same_channel launcher launchers_from_disk) then [Create launcher]
  else
    match (if force then Ok true else any_compare launcher launchers_from_disk) with
    | Ok true => [Update launcher]
    | _ => []
    end.

(** The launchers the two loops act upon, in the order of the loops: the
    launchers on disk that the first loop deletes, then the launchers of
    the database that the second loop saves. *)
Definition pass_actions (force : bool)
  (launchers_from_db launchers_from_disk : list ChannelLauncher) : list action :=
  (map Delete
     (filter (fun launcher => negb (any_is_same_channel launcher launchers_from_db))
        launchers_from_disk)
   ++ flat_map (loop_action force launchers_from_disk) launchers_from_db)%list.

(** ** Further definitions for the properties below *)

(** Every character of the text satisfies [f]. *)
Fixpoint string_forallb (f : ascii -> bool) (s : string) : bool :=
  match s with
  | EmptyString => true
  | String c r => f c && string_forallb f r
  end.

(** The text is empty or starts with a character that fails [f]. *)
Definition stops (f : ascii -> bool) (s : string) : bool :=
  match s with
  | EmptyString => true
  | String c _ => negb (f c)
  end.

(** ** Images ([pillow_utils])

    PIL is outside the two source files: an image is kept as the calls
    that made it, which is all the two helpers decide, and its size. *)

Inductive Image : Type :=
| Image_loaded (size : Z * Z)
| Image_new (mode : string) (size : Z * Z) (color : list Z)
| Image_paste (base paste : Image) (box : list Z) (kwargs : list (string * Z))
| Image_resize (im : Image) (size : Z * Z) (kwargs : list (string * Z)).

(** [im.size]: pasting keeps the size of the base image. *)
Fixpoint Image_size (im : Image) : Z * Z :=
  match im with
  | Image_loaded size => size
  | Image_new _ size _ => size
  | Image_paste base _ _ _ => Image_size base
  | Image_resize _ size _ => size
  end.

(** The float nearest to an integer, as an integer: 53 significant bits
    are kept, and a tie goes to the even neighbour. *)
Definition nearest_float (n : Z) : Z :=
  let a := Z.abs n in
  let e := Z.log2 a - 52 in
  if e <=? 0 then n
  else
    let q := a / 2 ^ e in
    let r := a mod 2 ^ e in
    let h := 2 ^ (e - 1) in
    let q' := if (h <? r) || ((r =? h) && Z.odd q) then q + 1 else q in
    Z.sgn n * q' * 2 ^ e.

(** [int(n / 2)] for an integer [n]: the true division gives the float
    nearest to the quotient, and [int] truncates it toward zero.  [None]
    stands for the [OverflowError] of a quotient beyond the floats. *)
Definition int_half (n : Z) : option Z :=
  let r := nearest_float n in
  if 2 ^ 1025 <=? Z.abs r then None else Some (Z.quot r 2).

(** [paste_center(base_image, paste_image, **kwargs)].  The base image is
    changed in place; the changed image is returned here. *)
Definition paste_center (base_image paste_image : Image) (kwargs : list (string * Z))
  : option Image :=
  let '(a1, a2) := Image_size base_image in
  let '(b1, b2) := Image_size paste_image in
  match int_half (a1 - b1), int_half (a2 - b2) with
  | Some x, Some y => Some (Image_paste base_image paste_image [x; y] kwargs)
  | _, _ => None
  end.

(** [resize_preserving_aspect_ratio(source_image, target_size, **kwargs)]. *)
Definition resize_preserving_aspect_ratio (source_image : Image) (target_size : Z * Z)
  (kwargs : list (string * Z)) : option Image :=
  let side := Z.max (fst (Image_size source_image)) (snd (Image_size source_image)) in
  let source_size_square := (side, side) in
  let frame_image := Image_new "RGBA" source_size_square [255; 255; 255; 0] in
  match paste_center frame_image source_image [] with
  | Some frame_image => Some (Image_resize frame_image target_size kwargs)
  | None => None
  end.

(** ** The inner images of a channel icon *)

Definition icon_size : Z * Z := (256, 256).
Definition icon_inner_size : Z * Z := (256 - 48, 256 - 48).

(** PIL's [Image.BICUBIC]. *)
Definition Image_BICUBIC : Z := 3.

(** [ChannelIcon.__icon_inner_fill_image], from the icon source image:
    the source resized to [icon_inner_size] on a transparent base. *)
Definition icon_inner_fill_image (icon_source_image : Image) : option Image :=
  let base_image := Image_new "RGBA" icon_inner_size [0; 0; 0; 0] in
  match resize_preserving_aspect_ratio icon_source_image icon_inner_size
          [("resample", Image_BICUBIC)] with
  | Some thumbnail_image => paste_center base_image thumbnail_image []
  | None => None
  end.

(** [ChannelIcon.__icon_inner_tile_image], from the icon source image:
    the source resized to a smaller space on a white base. *)
Definition icon_inner_tile_image (icon_source_image : Image) : option Image :=
  let thumbnail_size := (256 - 80, 256 - 80) in
  let base_image := Image_new "RGBA" icon_inner_size [255; 255; 255; 255] in
  match resize_preserving_aspect_ratio icon_source_image thumbnail_size
          [("resample", Image_BICUBIC)] with
  | Some thumbnail_image => paste_center base_image thumbnail_image []
  | None => None
  end.

(** * Properties *)

(** ** Version comparison *)

Lemma option_string_eqb_eq (a b : option string) :
  option_string_eqb a b = true <-> a = b.
Proof.
  destruct a as [x|], b as [y|]; simpl; split; intro H;
    try discriminate; try reflexivity.
  - apply String.eqb_eq in H. now subst.
  - injection H as ->. apply String.eqb_refl.
Qed.

Lemma option_string_eqb_neq (a b : option string) :
  option_string_eqb a b = false <-> a <> b.
Proof.
  split.
  - intros H Heq. apply option_string_eqb_eq in Heq. congruence.
  - intro H. destruct (option_string_eqb a b) eqn:Heq; [|reflexivity].
    apply option_string_eqb_eq in Heq. contradiction.
Qed.

Lemma version_components_raises (v : option string) (e : exn) :
  version_components v = Raise e ->
  (v = None /\ e = AttributeError) \/ (v <> None /\ e = ValueError).
Proof.
  destruct v as [s|]; simpl.
  - destruct (map py_int (str_split "~" s)) as [|[a|] [|[b|] [|? ?]]];
      intro H; try discriminate; right; split; congruence.
  - intro H. left. split; congruence.
Qed.

Lemma int_or_sign (x y : Z) :
  (int_or x y < 0 <-> x < 0 \/ (x = 0 /\ y < 0))
  /\ (int_or x y = 0 <-> x = 0 /\ y = 0)
  /\ (int_or x y > 0 <-> x > 0 \/ (x = 0 /\ y > 0)).
Proof.
  unfold int_or. destruct (Z.eqb_spec x 0); lia.
Qed.

(** C2 (as amended).  On the same channel, [compare] returns an integer
    when both versions parse as two integers around a tilde: negative, zero
    or positive as the pair of [self] is lexicographically below, equal to
    or above the pair of [other].  When a version does not parse it raises
    the exception of the parse ([AttributeError] for an absent version,
    [ValueError] otherwise), [self] being parsed first; no value stands
    for incomparable.  The four versions of the specification give 0, a
    negative number, a positive number and [ValueError]. *)
Theorem compare_same_channel :
  (forall self other : ChannelLauncher,
      is_same_channel self other = true ->
      match version_components (channel_version self),
            version_components (channel_version other) with
      | Ok (a, b), Ok (c, d) =>
          exists n, compare self other = Ok (PyInt n)
                    /\ (n < 0 <-> a < c \/ (a = c /\ b < d))
                    /\ (n = 0 <-> a = c /\ b = d)
                    /\ (n > 0 <-> a > c \/ (a = c /\ b > d))
      | Raise e, _ =>
          compare self other = Raise e /\ (e = AttributeError \/ e = ValueError)
      | Ok _, Raise e =>
          compare self other = Raise e /\ (e = AttributeError \/ e = ValueError)
      end)
  /\ compare (example_disk_launcher "a" "c" "3~5") (example_disk_launcher "b" "c" "3~5")
     = Ok (PyInt 0)
  /\ compare (example_disk_launcher "a" "c" "3~5") (example_disk_launcher "b" "c" "3~6")
     = Ok (PyInt (-1))
  /\ compare (example_disk_launcher "a" "c" "4~1") (example_disk_launcher "b" "c" "3~9")
     = Ok (PyInt 1)
  /\ compare (example_disk_launcher "a" "c" "abc~1") (example_disk_launcher "b" "c" "3~1")
     = Raise ValueError.
Proof.
  split; [|repeat split; reflexivity].
  intros self other Hsame. unfold compare. rewrite Hsame. simpl.
  destruct (version_components (channel_version self)) as [[a b]|e] eqn:Hs.
  - destruct (version_components (channel_version other)) as [[c d]|e] eqn:Ho.
    + exists (int_or (a - c) (b - d)). split; [reflexivity|].
      pose proof (int_or_sign (a - c) (b - d)) as (Hlt & Heq & Hgt).
      repeat split; lia.
    + split; [reflexivity|].
      apply version_components_raises in Ho. destruct Ho as [[_ ->]|[_ ->]]; auto.
  - split; [reflexivity|].
    apply version_components_raises in Hs. destruct Hs as [[_ ->]|[_ ->]]; auto.
Qed.

Lemma compare_same_channel_witness :
  exists n,
    compare (example_disk_launcher "a" "c" "4~1") (example_disk_launcher "b" "c" "3~9")
    = Ok (PyInt n)
    /\ (n < 0 <-> 4 < 3 \/ (4 = 3 /\ 1 < 9))
    /\ (n = 0 <-> 4 = 3 /\ 1 = 9)
    /\ (n > 0 <-> 4 > 3 \/ (4 = 3 /\ 1 > 9)).
Proof.
  exact (proj1 compare_same_channel
           (example_disk_launcher "a" "c" "4~1") (example_disk_launcher "b" "c" "3~9")
           eq_refl).
Defined.

(** C2, the claim as stated fails: on the same channel, with the versions
    abc~1 and 3~1, [compare] raises [ValueError] and returns no value. *)
Lemma compare_unparsable_raises :
  is_same_channel (example_disk_launcher "a" "c" "abc~1")
                  (example_disk_launcher "b" "c" "3~1") = true
  /\ compare (example_disk_launcher "a" "c" "abc~1")
             (example_disk_launcher "b" "c" "3~1") = Raise ValueError
  /\ forall v, compare (example_disk_launcher "a" "c" "abc~1")
                       (example_disk_launcher "b" "c" "3~1") <> Ok v.
Proof.
  repeat split. intros v H. discriminate H.
Qed.

(** C9.  When the channel ids of two launchers differ, [compare] returns
    [None] without parsing any version, and [None] is false; so the update
    test [any(map(launcher.compare, launchers_from_disk))] depends only on
    the launchers of the same channel. *)
Theorem compare_other_channel :
  (forall self other : ChannelLauncher,
      channel_id self <> channel_id other ->
      compare self other = Ok PyNone)
  /\ truthy PyNone = false
  /\ (forall (self : ChannelLauncher) (launchers : list ChannelLauncher),
         any_compare self launchers
         = any_compare self (filter (is_same_channel self) launchers)).
Proof.
  assert (Hdiff : forall self other,
             is_same_channel self other = false -> compare self other = Ok PyNone).
  { intros self other H. unfold compare. now rewrite H. }
  split; [|split; [reflexivity|]].
  - intros self other H. apply Hdiff. now apply option_string_eqb_neq.
  - intros self launchers. induction launchers as [|other rest IH]; [reflexivity|].
    simpl. destruct (is_same_channel self other) eqn:Hsame.
    + simpl. destruct (compare self other) as [v|e]; [|reflexivity].
      destruct (truthy v); [reflexivity|exact IH].
    + rewrite (Hdiff _ _ Hsame). simpl. exact IH.
Qed.

Lemma compare_other_channel_witness :
  compare (ChannelLauncher_FromDatabase (example_channel "c" "3" "Maths" None))
          (example_disk_launcher "b" "d" "not a version") = Ok PyNone.
Proof.
  apply (proj1 compare_other_channel). simpl. discriminate.
Defined.

(** ** The loops against the reconciliation of the specification *)

Lemma bind_ok {A B : Type} (m : IO A) (k : A -> IO B) (w w' : world) (a : A) :
  m w = (Ok a, w') -> bind m k w = k a w'.
Proof. intro H. unfold bind. now rewrite H. Qed.

Lemma bind_raise {A B : Type} (m : IO A) (k : A -> IO B) (w w' : world) (e : exn) :
  m w = (Raise e, w') -> bind m k w = (Raise e, w').
Proof. intro H. unfold bind. now rewrite H. Qed.

Lemma bind_assoc {A B C : Type} (m : IO A) (k : A -> IO B) (h : B -> IO C) (w : world) :
  bind (bind m k) h w = bind m (fun a => bind (k a) h) w.
Proof. unfold bind. destruct (m w) as [[a|e] w']; reflexivity. Qed.

Lemma bind_ext {A B : Type} (m : IO A) (k k' : A -> IO B) (w : world) :
  (forall a w', k a w' = k' a w') -> bind m k w = bind m k' w.
Proof. intro H. unfold bind. destruct (m w) as [[a|e] w']; [apply H|reflexivity]. Qed.

Lemma perform_all_app (E : environment) (a b : list action) (w : world) :
  perform_all E (a ++ b) w = (perform_all E a ;;; perform_all E b) w.
Proof.
  revert w. induction a as [|x a IH]; intro w; [reflexivity|].
  simpl. rewrite bind_assoc. apply bind_ext. intros _ w'. apply IH.
Qed.

Lemma for_launchers_from_disk_plan (E : environment)
  (db disk : list ChannelLauncher) (did : bool) (w : world) :
  let stale := filter (fun d => negb (existsb (is_same_channel d) db)) disk in
  for_launchers_from_disk E db disk did w
  = (perform_all E (map Delete stale) ;;; ret (did || negb (is_nil stale))) w.
Proof.
  revert did w. induction disk as [|d rest IH]; intros did w; simpl.
  - unfold bind, ret. simpl. now rewrite orb_false_r.
  - unfold any_is_same_channel.
    destruct (existsb (is_same_channel d) db); simpl.
    + apply IH.
    + rewrite orb_true_r. unfold perform.
      rewrite 2!(bind_assoc _ _ _ w).
      apply bind_ext. intros _ w1.
      apply bind_ext. intros _ w2.
      rewrite IH. simpl. reflexivity.
Qed.







(** ** The flag [did_icons_change] and the event log *)

Lemma emits_weaken {A : Type} (m : IO A) (P Q : event -> bool) :
  (forall ev, P ev = true -> Q ev = true) -> emits m P -> emits m Q.
Proof.
  intros HPQ Hm w. destruct (Hm w) as (evs & Hlog & HP).
  exists evs. split; [exact Hlog|].
  rewrite forallb_forall in *. auto.
Qed.

Lemma emits_silent {A : Type} (m : IO A) (P : event -> bool) :
  emits m no_event -> emits m P.
Proof. apply emits_weaken. discriminate. Qed.

Lemma silent_intro {A : Type} (m : IO A) :
  (forall w, log (snd (m w)) = log w) -> emits m no_event.
Proof.
  intros H w. exists []. rewrite app_nil_r. split; [apply H|reflexivity].
Qed.

Lemma emits_ret {A : Type} (a : A) (P : event -> bool) : emits (ret a) P.
Proof. apply emits_silent, silent_intro. reflexivity. Qed.

Lemma emits_raise {A : Type} (e : exn) (P : event -> bool) : emits (@raise A e) P.
Proof. apply emits_silent, silent_intro. reflexivity. Qed.

Lemma emits_lift {A : Type} (r : result A) (P : event -> bool) : emits (lift r) P.
Proof. apply emits_silent, silent_intro. reflexivity. Qed.

Lemma emits_logger (ev : event) (P : event -> bool) :
  P ev = true -> emits (logger ev) P.
Proof.
  intros H w. exists [ev]. split; [reflexivity|]. simpl. now rewrite H.
Qed.

Lemma emits_bind {A B : Type} (m : IO A) (k : A -> IO B) (P : event -> bool) :
  emits m P -> (forall a, emits (k a) P) -> emits (bind m k) P.
Proof.
  intros Hm Hk w. unfold bind.
  destruct (Hm w) as (evs & Hlog & HP).
  destruct (m w) as [[a|e] w1]; simpl in Hlog.
  - destruct (Hk a w1) as (evs' & Hlog' & HP').
    exists (evs ++ evs')%list. rewrite Hlog', Hlog, app_assoc. split; [reflexivity|].
    rewrite forallb_app, HP, HP'. reflexivity.
  - exists evs. simpl. auto.
Qed.

Lemma emits_try_except {A : Type} (m : IO A) (class : exn -> bool)
  (handler : exn -> IO A) (P : event -> bool) :
  emits m P -> (forall e, emits (handler e) P) -> emits (try_except m class handler) P.
Proof.
  intros Hm Hh w. unfold try_except.
  destruct (Hm w) as (evs & Hlog & HP).
  destruct (m w) as [[a|e] w1]; simpl in Hlog.
  - exists evs. simpl. auto.
  - destruct (class e).
    + destruct (Hh e w1) as (evs' & Hlog' & HP').
      exists (evs ++ evs')%list. rewrite Hlog', Hlog, app_assoc. split; [reflexivity|].
      rewrite forallb_app, HP, HP'. reflexivity.
    + exists evs. simpl. auto.
Qed.

Lemma emits_if {A : Type} (b : bool) (m m' : IO A) (P : event -> bool) :
  emits m P -> emits m' P -> emits (if b then m else m') P.
Proof. destruct b; auto. Qed.

Lemma silent_open_w (path : string) : emits (open_w path) no_event.
Proof.
  apply silent_intro. intro w. unfold open_w.
  destruct (mem path (unwritable w)); reflexivity.
Qed.

Lemma silent_file_write (path data : string) : emits (file_write path data) no_event.
Proof. apply silent_intro. reflexivity. Qed.

Lemma silent_os_remove (E : environment) (path : string) :
  emits (os_remove E path) no_event.
Proof.
  apply silent_intro. intro w. unfold os_remove.
  destruct (dict_get path (files w)); [|reflexivity].
  destruct (remove_denied E path); reflexivity.
Qed.

Lemma silent_os_path_isfile (path : string) : emits (os_path_isfile path) no_event.
Proof. apply silent_intro. reflexivity. Qed.

Lemma silent_shutil_copyfile (src dst : string) : emits (shutil_copyfile src dst) no_event.
Proof.
  intro w. unfold shutil_copyfile.
  destruct (dict_get src (files w)).
  - destruct (parent_exists dst (files w)).
    + apply (emits_bind (open_w dst) (fun _ => file_write dst s) no_event).
      * apply silent_open_w.
      * intros _. apply silent_file_write.
    + exists []. rewrite app_nil_r. split; reflexivity.
  - exists []. rewrite app_nil_r. split; reflexivity.
Qed.

Create HintDb emits.
#[local] Hint Resolve emits_ret emits_raise emits_lift emits_bind emits_try_except
  emits_if silent_open_w silent_file_write silent_os_remove silent_os_path_isfile
  silent_shutil_copyfile : emits.

Lemma silent_write_desktop_file (E : environment) (self : ChannelLauncher)
  (icon_name : option string) : emits (write_desktop_file E self icon_name) no_event.
Proof.
  destruct self as [c|path data]; simpl; [|apply emits_raise].
  unfold ensure_dir.
  repeat (apply emits_bind; [|intros ?]); auto with emits.
Qed.

Lemma silent_write_channel_icon (E : environment) (self : ChannelLauncher) :
  emits (write_channel_icon E self) no_event.
Proof.
  destruct self as [c|path data]; simpl; [|apply emits_ret].
  apply emits_bind; [apply emits_lift|]. intros [icon|]; [|apply emits_ret].
  unfold ensure_dir.
  repeat (apply emits_bind; [|intros ?]); auto with emits.
Qed.

Lemma silent_delete (E : environment) (self : ChannelLauncher) :
  emits (delete E self) no_event.
Proof.
  unfold delete, delete_desktop_file, delete_channel_icon, try_remove.
  apply emits_bind; [apply silent_os_remove|]. intros _.
  destruct self as [c|path data]; [apply emits_raise|].
  apply emits_bind; [apply silent_os_path_isfile|]. intros b.
  apply emits_if; auto with emits.
Qed.

Lemma save_emits_warnings (E : environment) (self : ChannelLauncher) :
  emits (save E self) is_warning.
Proof.
  unfold save.
  apply emits_bind.
  - apply emits_try_except.
    + apply emits_silent, silent_write_channel_icon.
    + intro e. apply emits_bind; [now apply emits_logger|]. intros _. apply emits_ret.
  - intro icon_name. apply emits_try_except.
    + apply emits_silent, silent_write_desktop_file.
    + intro e. now apply emits_logger.
Qed.

Lemma tracks_ret (did : bool) : tracks_changes (ret did) did.
Proof.
  intro w. exists []. rewrite app_nil_r. repeat split.
  intros b H. injection H as <-. simpl. now rewrite orb_false_r.
Qed.

Lemma warnings_are_quiet (evs : list event) :
  forallb is_warning evs = true ->
  existsb is_icon_cache_update evs = false /\ existsb is_change evs = false.
Proof.
  induction evs as [|ev evs IH]; [auto|]. simpl.
  intro H. apply andb_true_iff in H as [Hev Hevs].
  destruct (IH Hevs) as [-> ->]. destruct ev; try discriminate; auto.
Qed.

(** One change: its log line, a quiet step, then the rest of the loop with
    the flag set. *)
Lemma tracks_step (ev : event) (step : IO unit) (loop : IO bool) (did : bool) :
  is_change ev = true ->
  emits step is_warning ->
  tracks_changes loop true ->
  tracks_changes (logger ev ;;; step ;;; loop) did.
Proof.
  intros Hev Hstep Hloop w. unfold bind. simpl.
  set (w0 := {| database := database w; files := files w;
                unwritable := unwritable w; log := (log w ++ [ev])%list |}).
  destruct (Hstep w0) as (evs1 & Hlog1 & Hq).
  apply warnings_are_quiet in Hq as [Hq1 Hq2].
  destruct (step w0) as [[[]|e] w1]; simpl in Hlog1.
  - destruct (Hloop w1) as (evs2 & Hlog2 & Hc2 & Hb).
    exists ([ev] ++ evs1 ++ evs2)%list.
    rewrite Hlog2, Hlog1. subst w0. simpl. rewrite <- !app_assoc. simpl.
    split; [reflexivity|]. split.
    + destruct ev; try discriminate; simpl; now rewrite existsb_app, Hq1, Hc2.
    + intros b H. rewrite Hev. now rewrite orb_true_r, (Hb b H).
  - exists ([ev] ++ evs1)%list. simpl. rewrite Hlog1. subst w0. simpl.
    rewrite <- app_assoc. split; [reflexivity|]. split.
    + destruct ev; try discriminate; simpl; exact Hq1.
    + intros b H. discriminate H.
Qed.

Lemma for_launchers_from_disk_tracks (E : environment)
  (db disk : list ChannelLauncher) (did : bool) :
  tracks_changes (for_launchers_from_disk E db disk did) did.
Proof.
  revert did. induction disk as [|d rest IH]; intro did; simpl.
  - apply tracks_ret.
  - destruct (negb (any_is_same_channel d db)); [|apply IH].
    apply tracks_step; [reflexivity| |apply IH].
    apply emits_silent, silent_delete.
Qed.

Lemma for_launchers_from_db_tracks (E : environment) (force : bool)
  (disk db : list ChannelLauncher) (did : bool) :
  tracks_changes (for_launchers_from_db E force disk db did) did.
Proof.
  revert did. induction db as [|s rest IH]; intro did; simpl.
  - apply tracks_ret.
  - destruct (negb (any_is_same_channel s disk)).
    + apply tracks_step; [reflexivity|apply save_emits_warnings|apply IH].
    + intro w.
      assert (Hout : exists r, (if force then ret true
                                else lift (any_compare s disk)) w = (r, w)).
      { destruct force; eexists; reflexivity. }
      destruct Hout as [[[|]|e] Hout].
      * rewrite (bind_ok _ _ _ _ _ Hout).
        apply tracks_step; [reflexivity|apply save_emits_warnings|apply IH].
      * rewrite (bind_ok _ _ _ _ _ Hout). apply IH.
      * rewrite (bind_raise _ _ _ _ _ Hout).
        exists []. rewrite app_nil_r. repeat split. intros b H. discriminate H.
Qed.

Lemma reconcile_tracks (E : environment) (force : bool)
  (db disk : list ChannelLauncher) :
  tracks_changes (reconcile E force db disk) false.
Proof.
  intro w. unfold reconcile, bind.
  destruct (for_launchers_from_disk_tracks E db disk false w) as (evs1 & Hlog1 & Hc1 & Hb1).
  destruct (for_launchers_from_disk E db disk false w) as [[b1|e] w1]; simpl in *.
  - destruct (for_launchers_from_db_tracks E force disk db b1 w1) as (evs2 & Hlog2 & Hc2 & Hb2).
    exists (evs1 ++ evs2)%list. rewrite Hlog2, Hlog1, app_assoc.
    split; [reflexivity|]. split; [now rewrite existsb_app, Hc1, Hc2|].
    intros b H. rewrite (Hb2 b H), (Hb1 b1 eq_refl), existsb_app. reflexivity.
  - exists evs1. split; [exact Hlog1|]. split; [exact Hc1|].
    intros b H. discriminate H.
Qed.

Lemma copy_theme_index_returns (E : environment) (w : world) :
  exists params w1,
    try_except
      (shutil_copyfile system_theme_index (path_join (icon_theme_dir E) "index.theme") ;;;
       ret [icon_theme_dir E])
      isinstance_OSError
      (fun _ => ret ([icon_theme_dir E] ++ ["--ignore-theme-index"])%list) w
    = (Ok params, w1)
    /\ log w1 = log w.
Proof.
  unfold try_except, bind, shutil_copyfile.
  destruct (dict_get system_theme_index (files w)) as [data|].
  - destruct (parent_exists _ (files w)).
    + unfold bind, open_w.
      destruct (mem _ (unwritable w)); simpl; do 2 eexists; split; reflexivity.
    + simpl. do 2 eexists. split; reflexivity.
  - simpl. do 2 eexists. split; reflexivity.
Qed.

Lemma update_icon_cache_events (E : environment) (w : world) :
  exists evs,
    log (snd (update_icon_cache E w)) = (log w ++ evs)%list
    /\ existsb is_change evs = false
    /\ (fst (update_icon_cache E w) = Ok tt -> existsb is_icon_cache_update evs = true).
Proof.
  unfold update_icon_cache.
  destruct (copy_theme_index_returns E w) as (params & w1 & Hcopy & Hlog0).
  rewrite (bind_ok _ _ _ _ _ Hcopy).
  unfold try_except, bind, lift.
  destruct (subprocess_run E ("gtk-update-icon-cache" :: params)) as [[]|e]; simpl.
  - exists [subprocess ("gtk-update-icon-cache" :: params)].
    rewrite Hlog0. split; [reflexivity|]. split; [reflexivity|]. reflexivity.
  - destruct (isinstance_OSError e); simpl.
    + exists [info_icon_cache e]. rewrite Hlog0.
      split; [reflexivity|]. split; [reflexivity|]. reflexivity.
    + exists []. rewrite app_nil_r. split; [exact Hlog0|]. split; [reflexivity|].
      intro H. discriminate H.
Qed.

Lemma silent_FromDisk_load_files (E : environment) (file_names : list string) :
  emits (FromDisk_load_files E file_names) no_event.
Proof.
  induction file_names as [|file_name rest IH]; simpl; [apply emits_ret|].
  apply emits_bind.
  - apply silent_intro. intro w. unfold ConfigParser_read.
    destruct (dict_get _ (files w)); reflexivity.
  - intro parser. destruct (dict_get "Desktop Entry" parser); [|exact IH].
    apply emits_bind; [exact IH|]. intros; apply emits_ret.
Qed.

Lemma silent_FromDisk_load_all (E : environment) : emits (FromDisk_load_all E) no_event.
Proof.
  unfold FromDisk_load_all.
  apply emits_bind; [apply silent_intro; reflexivity|]. intro isdir.
  apply emits_if; [apply emits_ret|].
  apply emits_bind; [apply silent_intro; reflexivity|].
  apply silent_FromDisk_load_files.
Qed.


(** C3, the claim as stated fails: a pass that creates a launcher returns
    [None], not [True]. *)
Lemma update_channel_launchers_returns_None :
  let w := example_world [example_channel "c" "3" "Maths" None] [] in
  fst (update_channel_launchers example_environment false w) = Ok PyNone
  /\ In (info_Creating "org.learningequality.Kolibri.Channel.c.desktop")
        (log (snd (update_channel_launchers example_environment false w)))
  /\ fst (update_channel_launchers example_environment false w) <> Ok (PyBool true).
Proof.
  vm_compute. split; [reflexivity|]. split; [now left|]. discriminate.
Qed.
(** ** Loading the launchers from disk *)

Lemma FromDisk_load_files_parsed (E : environment) (file_names : list string)
  (w : world) :
  (forall n, In n file_names -> file_parses E (files w) n = true) ->
  FromDisk_load_files E file_names w
  = (Ok (flat_map (launchers_of_file E (files w)) file_names), w).
Proof.
  induction file_names as [|n rest IH]; intro H; [reflexivity|].
  simpl. unfold bind at 1, ConfigParser_read, launchers_of_file at 1.
  pose proof (H n (or_introl eq_refl)) as Hn. unfold file_parses in Hn.
  assert (Hrest : FromDisk_load_files E rest w
                  = (Ok (flat_map (launchers_of_file E (files w)) rest), w)).
  { apply IH. intros n' Hin. apply H. now right. }
  destruct (dict_get (path_join (applications_dir E) n) (files w)) as [text|].
  - destruct (configparser_read E text) as [parser|e]; [|discriminate].
    destruct (dict_get "Desktop Entry" parser) as [items|].
    + unfold bind. rewrite Hrest. reflexivity.
    + exact Hrest.
  - simpl. exact Hrest.
Qed.

Lemma children_not_isdir (dir : string) (fs : list (string * string)) :
  existsb (fun entry => match strip_prefix (dir_prefix dir) (fst entry) with
                        | Some _ => true
                        | None => false
                        end) fs = false ->
  children dir fs = [].
Proof.
  induction fs as [|[path data] rest IH]; [reflexivity|].
  simpl. unfold child_name.
  destruct (strip_prefix (dir_prefix dir) path); [discriminate|].
  simpl. exact IH.
Qed.

Lemma FromDisk_load_all_parsed (E : environment) (w : world) :
  (forall n, In n (children (applications_dir E) (files w)) ->
             file_parses E (files w) n = true) ->
  FromDisk_load_all E w
  = (Ok (flat_map (launchers_of_file E (files w))
           (children (applications_dir E) (files w))), w).
Proof.
  intro H. unfold FromDisk_load_all, bind, os_path_isdir, os_listdir.
  destruct (existsb _ (files w)) eqn:Hdir; simpl.
  - now apply FromDisk_load_files_parsed.
  - now rewrite (children_not_isdir _ _ Hdir).
Qed.

(** C8 (as amended).  When the reader raises no error on the files of the
    applications directory, [ChannelLauncher_FromDisk.load_all] returns, in
    the order of the listing, exactly one launcher for each file that
    holds a Desktop Entry section and none for the other files.  The
    channel-id field plays no part: a file without it yields a launcher
    all the same, whose channel id is [None]. *)
Theorem FromDisk_load_all_sections :
  (forall (E : environment) (w : world),
      (forall n, In n (children (applications_dir E) (files w)) ->
                 file_parses E (files w) n = true) ->
      FromDisk_load_all E w
      = (Ok (flat_map (launchers_of_file E (files w))
               (children (applications_dir E) (files w))), w))
  /\ (forall (E : environment) (fs : list (string * string)) (n text : string)
             (parser : config),
         dict_get (path_join (applications_dir E) n) fs = Some text ->
         configparser_read E text = Ok parser ->
         launchers_of_file E fs n
         = match dict_get "Desktop Entry" parser with
           | Some items =>
               [ChannelLauncher_FromDisk (path_join (applications_dir E) n) (dict items)]
           | None => []
           end)
  /\ (forall (path : string) (data : list (string * string)),
         dict_get "X-Kolibri-Channel-Id" data = None ->
         channel_id (ChannelLauncher_FromDisk path data) = None).
Proof.
  split; [|split].
  - exact FromDisk_load_all_parsed.
  - intros E fs n text parser Hfile Hread. unfold launchers_of_file.
    now rewrite Hfile, Hread.
  - intros path data H. exact H.
Qed.

Lemma FromDisk_load_all_sections_witness :
  let w := example_world []
             [("/share/applications/a.desktop", example_desktop_text "c" "3~5");
              ("/share/applications/notes.txt", "[Notes]" ++ nl ++ "k=v" ++ nl)] in
  FromDisk_load_all example_environment w
  = (Ok [example_disk_launcher "/share/applications/a.desktop" "c" "3~5"], w).
Proof.
  intro w.
  apply (proj1 FromDisk_load_all_sections example_environment w).
  intros n [<-|[<-|[]]]; vm_compute; reflexivity.
Defined.

(** C8, the claim as stated fails: a file with a Desktop Entry section
    and no channel-id field yields a launcher. *)
Lemma FromDisk_load_all_without_channel_id :
  let w := example_world []
             [("/share/applications/foo.desktop",
               "[Desktop Entry]" ++ nl ++ "Name=x" ++ nl ++ nl)] in
  FromDisk_load_all example_environment w
  = (Ok [ChannelLauncher_FromDisk "/share/applications/foo.desktop" [("Name", "x")]], w)
  /\ channel_id (ChannelLauncher_FromDisk "/share/applications/foo.desktop" [("Name", "x")])
     = None.
Proof.
  split; reflexivity.
Qed.

(** ** Writing a desktop file *)

Lemma set_option_fresh (key value : string) (options : list (string * string)) :
  dict_get key options = None ->
  set_option "Desktop Entry" key value [("Desktop Entry", options)]
  = if before_set value
    then Ok [("Desktop Entry", (options ++ [(key, value)])%list)]
    else Raise ValueError.
Proof.
  intro H. unfold set_option. destruct (before_set value); [|reflexivity].
  simpl. f_equal. f_equal. f_equal.
  induction options as [|[k v] rest IH]; [reflexivity|].
  simpl in *. destruct (String.eqb k key); [discriminate|].
  f_equal. now apply IH.
Qed.

Lemma set_option_step {A : Type} (key value : string)
  (options : list (string * string)) (k : config -> IO A) (w : world) :
  dict_get key options = None ->
  (p <- lift (set_option "Desktop Entry" key value [("Desktop Entry", options)]) ;; k p) w
  = if before_set value
    then k [("Desktop Entry", (options ++ [(key, value)])%list)] w
    else (Raise ValueError, w).
Proof.
  intro H. unfold bind, lift. rewrite (set_option_fresh _ _ _ H).
  destruct (before_set value); reflexivity.
Qed.

Lemma write_desktop_file_closed_form (E : environment) (c : ChannelMetadata.t)
  (icon_name : option string) (w : world) :
  let self := ChannelLauncher_FromDatabase c in
  write_desktop_file E self icon_name w
  = if forallb before_set (map snd (desktop_entry c icon_name))
    then (open_w (desktop_file_path E self) ;;;
          file_write (desktop_file_path E self)
            (ConfigParser_write [("Desktop Entry", desktop_entry c icon_name)])) w
    else (Raise ValueError, w).
Proof.
  intro self. unfold write_desktop_file, desktop_entry. subst self.
  unfold add_section. cbn [has_section dict_get app].
  unfold lift at 1. unfold bind at 1.
  do 9 (rewrite set_option_step by reflexivity; cbn [app]).
  cbn [map snd forallb channel_id channel_version format_str].
  change (before_set "1.0") with true.
  change (before_set "Application") with true.
  change (before_set "True") with true.
  change (before_set (join ";" LAUNCHER_CATEGORIES ++ ";")) with true.
  change (join ";" LAUNCHER_CATEGORIES ++ ";") with "Education;X-Kolibri-Channel;".
  change ("~" ++ str_int FORMAT_VERSION) with "~5".
  change (before_set "Education;X-Kolibri-Channel;") with true.
  cbn [andb].
  destruct (before_set (ChannelMetadata.name c)); [|reflexivity].
  destruct (before_set (or_empty (ChannelMetadata.tagline c))); [|reflexivity].
  destruct (before_set ("flatpak run org.learningequality.Kolibri --channel-id "
                        ++ ChannelMetadata.id c)); [|reflexivity].
  destruct (before_set (ChannelMetadata.id c)); [|reflexivity].
  destruct (before_set (ChannelMetadata.version c ++ "~5")); [|reflexivity].
  cbn [andb].
  destruct icon_name as [[|ch r]|]; cbn [nonempty].
  - reflexivity.
  - rewrite set_option_step by reflexivity.
    cbn [app format_str map snd forallb]. rewrite andb_true_r.
    destruct (before_set (String ch r)); reflexivity.
  - reflexivity.
Qed.

Lemma append_assoc (a b c : string) : (a ++ b) ++ c = a ++ b ++ c.
Proof. induction a as [|x a IH]; simpl; [reflexivity|now rewrite IH]. Qed.

Lemma dict_get_app {V : Type} (k : string) (a b : list (string * V)) :
  dict_get k (a ++ b)
  = match dict_get k a with
    | Some v => Some v
    | None => dict_get k b
    end.
Proof.
  induction a as [|[k' v] a IH]; [reflexivity|].
  simpl. destruct (String.eqb k' k); [reflexivity|exact IH].
Qed.

Lemma dict_get_fs_remove (p q : string) (fs : list (string * string)) :
  dict_get q (fs_remove p fs) = if String.eqb p q then None else dict_get q fs.
Proof.
  induction fs as [|[k v] fs IH]; simpl.
  - now destruct (String.eqb p q).
  - destruct (String.eqb_spec k p) as [->|Hkp]; simpl.
    + rewrite IH. destruct (String.eqb p q); reflexivity.
    + rewrite IH. destruct (String.eqb_spec p q) as [->|Hpq].
      * apply String.eqb_neq in Hkp. now rewrite Hkp.
      * reflexivity.
Qed.

Lemma dict_get_fs_write (p q data : string) (fs : list (string * string)) :
  dict_get q (fs_write p data fs) = if String.eqb p q then Some data else dict_get q fs.
Proof.
  unfold fs_write. rewrite dict_get_app, dict_get_fs_remove. simpl.
  destruct (String.eqb p q); [reflexivity|]. now destruct (dict_get q fs).
Qed.

Lemma open_then_write (path data : string) (w : world) :
  (open_w path ;;; file_write path data) w
  = if mem path (unwritable w) then (Raise OSError, w)
    else (Ok tt, set_files (fs_write path data (fs_write path EmptyString (files w))) w).
Proof.
  unfold bind, open_w, file_write. destruct (mem path (unwritable w)); reflexivity.
Qed.

Lemma written_file (path data : string) (w w' : world) :
  (open_w path ;;; file_write path data) w = (Ok tt, w') ->
  dict_get path (files w') = Some data.
Proof.
  rewrite open_then_write. destruct (mem path (unwritable w)); [discriminate|].
  intro H. injection H as <-. simpl. now rewrite dict_get_fs_write, String.eqb_refl.
Qed.

(** C7.  When [write_desktop_file] of a launcher from the database
    succeeds, the file at its desktop file path holds one section, Desktop
    Entry, with exactly the keys Version, Type, Name, Comment, Exec,
    X-Endless-LaunchMaximized, X-Kolibri-Channel-Id,
    X-Kolibri-Channel-Version and Categories, followed by Icon exactly when
    a non-empty icon name was given; each line is the key, an equals sign
    and the value with no space around the sign. *)
Theorem write_desktop_file_entry (E : environment) (c : ChannelMetadata.t)
  (icon_name : option string) (w w' : world) :
  write_desktop_file E (ChannelLauncher_FromDatabase c) icon_name w = (Ok tt, w') ->
  dict_get (desktop_file_path E (ChannelLauncher_FromDatabase c)) (files w')
  = Some ("[Desktop Entry]" ++ nl
          ++ "Version=1.0" ++ nl
          ++ "Type=Application" ++ nl
          ++ "Name=" ++ indent_newlines (ChannelMetadata.name c) ++ nl
          ++ "Comment=" ++ indent_newlines (or_empty (ChannelMetadata.tagline c)) ++ nl
          ++ "Exec="
          ++ indent_newlines ("flatpak run org.learningequality.Kolibri --channel-id "
                              ++ ChannelMetadata.id c) ++ nl
          ++ "X-Endless-LaunchMaximized=True" ++ nl
          ++ "X-Kolibri-Channel-Id=" ++ indent_newlines (ChannelMetadata.id c) ++ nl
          ++ "X-Kolibri-Channel-Version="
          ++ indent_newlines (ChannelMetadata.version c ++ "~5") ++ nl
          ++ "Categories=Education;X-Kolibri-Channel;" ++ nl
          ++ (if nonempty icon_name
              then "Icon=" ++ indent_newlines (format_str icon_name) ++ nl
              else EmptyString)
          ++ nl)
  /\ map fst (desktop_entry c icon_name)
     = (["Version"; "Type"; "Name"; "Comment"; "Exec"; "X-Endless-LaunchMaximized";
         "X-Kolibri-Channel-Id"; "X-Kolibri-Channel-Version"; "Categories"]
        ++ if nonempty icon_name then ["Icon"] else [])%list.
Proof.
  intro H. rewrite write_desktop_file_closed_form in H.
  destruct (forallb before_set _); [|discriminate].
  apply written_file in H. rewrite H. clear H. split.
  - f_equal. unfold ConfigParser_write, write_section, desktop_entry, write_option.
    destruct icon_name as [[|ch r]|]; cbn [nonempty map app fst snd String.concat];
      repeat rewrite append_assoc; reflexivity.
  - unfold desktop_entry. destruct icon_name as [[|ch r]|]; reflexivity.
Qed.

Lemma write_desktop_file_entry_witness :
  let c := example_channel "c" "3" "Maths" None in
  let w := example_world [c] [] in
  let w' := snd (write_desktop_file example_environment
                   (ChannelLauncher_FromDatabase c) None w) in
  dict_get "/share/applications/org.learningequality.Kolibri.Channel.c.desktop" (files w')
  = Some ("[Desktop Entry]" ++ nl
          ++ "Version=1.0" ++ nl
          ++ "Type=Application" ++ nl
          ++ "Name=Maths" ++ nl
          ++ "Comment=" ++ nl
          ++ "Exec=flatpak run org.learningequality.Kolibri --channel-id c" ++ nl
          ++ "X-Endless-LaunchMaximized=True" ++ nl
          ++ "X-Kolibri-Channel-Id=c" ++ nl
          ++ "X-Kolibri-Channel-Version=3~5" ++ nl
          ++ "Categories=Education;X-Kolibri-Channel;" ++ nl
          ++ nl).
Proof.
  intros c w w'.
  apply (proj1 (write_desktop_file_entry example_environment c None w w' eq_refl)).
Defined.

(** ** Saving a launcher *)

Lemma try_write_desktop_file_returns (E : environment) (self : ChannelLauncher)
  (icon_name : option string) (w : world) :
  fst (try_except (write_desktop_file E self icon_name) isinstance_Exception
         (fun error => logger (warning_desktop_file (channel_id self) error)) w)
  = Ok tt.
Proof.
  unfold try_except.
  destruct (write_desktop_file E self icon_name w) as [[[]|e] w1]; reflexivity.
Qed.

Lemma append_neq_self (a b : string) : b <> EmptyString -> a <> a ++ b.
Proof.
  intros Hb H. apply Hb. clear Hb.
  induction a as [|x a IH]; simpl in H; [now symmetry|].
  injection H as H. now apply IH.
Qed.




(** ** Paths of the two directories *)

Lemma strip_prefix_app (a b c : string) :
  strip_prefix (a ++ b) (a ++ c) = strip_prefix b c.
Proof.
  induction a as [|x a IH]; [reflexivity|]. simpl. now rewrite Ascii.eqb_refl.
Qed.

Lemma strip_prefix_Some (p s r : string) :
  strip_prefix p s = Some r -> s = p ++ r.
Proof.
  revert s. induction p as [|x p IH]; intros s H; simpl in *.
  - now injection H as ->.
  - destruct s as [|y s]; [discriminate|].
    destruct (Ascii.eqb_spec x y) as [->|]; [|discriminate].
    now rewrite (IH s H).
Qed.

Lemma endswith_slash_app (a : string) (c : ascii) (b : string) :
  endswith_slash (a ++ String c b) = endswith_slash (String c b).
Proof.
  induction a as [|x a IH]; [reflexivity|].
  change (String x a ++ String c b) with (String x (a ++ String c b)).
  destruct a as [|y a]; exact IH.
Qed.

Lemma has_slash_app (a b : string) : has_slash (a ++ b) = has_slash a || has_slash b.
Proof.
  induction a as [|x a IH]; [reflexivity|]. simpl. now rewrite IH, orb_assoc.
Qed.

Lemma path_join_share (E : environment) (c : ascii) (b : string) :
  Ascii.eqb c "/" = false ->
  path_join (get_content_share_dir_path E) (String c b) = share_prefix E ++ String c b.
Proof.
  intro H. unfold path_join, share_prefix.
  destruct (Ascii.eqb_spec c "/") as [->|Hc]; [discriminate|].
  assert (Hm : forall (X : Type) (x y : X),
             match c with "/"%char => x | _ => y end = y).
  { intros X x y.
    destruct c as [[] [] [] [] [] [] [] []]; try reflexivity. contradiction. }
  rewrite Hm.
  destruct (get_content_share_dir_path E) as [|x s]; [reflexivity|].
  destruct (endswith_slash (String x s)); [reflexivity|].
  now rewrite append_assoc.
Qed.

(** Joining a name below a directory of the form [d ++ String c e] where the
    last segment does not end with a slash. *)
Lemma path_join_below (d : string) (c : ascii) (e : string) (x : ascii) (b : string) :
  endswith_slash (String c e) = false ->
  Ascii.eqb x "/" = false ->
  path_join (d ++ String c e) (String x b) = d ++ String c e ++ "/" ++ String x b.
Proof.
  intros He Hx. unfold path_join.
  assert (Hm : forall (X : Type) (u v : X),
             match x with "/"%char => u | _ => v end = v).
  { intros X u v. destruct (Ascii.eqb_spec x "/") as [->|Hne]; [discriminate|].
    destruct x as [[] [] [] [] [] [] [] []]; try reflexivity. contradiction. }
  rewrite Hm, endswith_slash_app, He.
  destruct (d ++ String c e) eqn:Hd.
  - destruct d; discriminate.
  - rewrite <- Hd. now rewrite !append_assoc.
Qed.

Lemma applications_dir_eq (E : environment) :
  applications_dir E = share_prefix E ++ "applications".
Proof. unfold applications_dir. now rewrite path_join_share. Qed.

Lemma dir_prefix_applications (E : environment) :
  dir_prefix (applications_dir E) = share_prefix E ++ "applications/".
Proof.
  unfold dir_prefix. rewrite applications_dir_eq, endswith_slash_app.
  simpl. now rewrite append_assoc.
Qed.

Lemma entry_path_eq (E : environment) (x : ascii) (b : string) :
  Ascii.eqb x "/" = false ->
  path_join (applications_dir E) (String x b)
  = share_prefix E ++ "applications/" ++ String x b.
Proof.
  intro H. rewrite applications_dir_eq.
  rewrite (path_join_below (share_prefix E) "a" "pplications" x b eq_refl H).
  reflexivity.
Qed.

Lemma icon_theme_dir_eq (E : environment) :
  icon_theme_dir E = share_prefix E ++ "icons/hicolor".
Proof.
  unfold icon_theme_dir. rewrite path_join_share by reflexivity.
  rewrite (path_join_below (share_prefix E) "i" "cons" "h" "icolor" eq_refl eq_refl).
  reflexivity.
Qed.

Lemma icon_file_path_eq (E : environment) (x : ascii) (b : string) :
  Ascii.eqb x "/" = false ->
  get_icon_file_path E (String x b)
  = share_prefix E ++ "icons/hicolor/256x256/apps/" ++ String x b.
Proof.
  intro H. unfold get_icon_file_path. rewrite icon_theme_dir_eq.
  rewrite (path_join_below (share_prefix E) "i" "cons/hicolor" "2" "56x256" eq_refl eq_refl).
  change (share_prefix E ++ "icons/hicolor" ++ "/" ++ "256x256")
    with (share_prefix E ++ "icons/hicolor/256x256").
  rewrite (path_join_below (share_prefix E) "i" "cons/hicolor/256x256" "a" "pps"
             eq_refl eq_refl).
  change (share_prefix E ++ "icons/hicolor/256x256" ++ "/" ++ "apps")
    with (share_prefix E ++ "icons/hicolor/256x256/apps").
  rewrite (path_join_below (share_prefix E) "i" "cons/hicolor/256x256/apps" x b eq_refl H).
  reflexivity.
Qed.

Lemma below_icons_not_entry (E : environment) (rest : string) :
  is_entry_path E (share_prefix E ++ "icons/" ++ rest) = false.
Proof.
  unfold is_entry_path, child_name. rewrite dir_prefix_applications, strip_prefix_app.
  reflexivity.
Qed.

Lemma icon_path_not_entry (E : environment) (x : ascii) (b : string) :
  Ascii.eqb x "/" = false ->
  is_entry_path E (get_icon_file_path E (String x b)) = false.
Proof.
  intro H. rewrite (icon_file_path_eq E x b H).
  apply (below_icons_not_entry E ("hicolor/256x256/apps/" ++ String x b)).
Qed.

Lemma theme_index_not_entry (E : environment) :
  is_entry_path E (path_join (icon_theme_dir E) "index.theme") = false.
Proof.
  rewrite icon_theme_dir_eq.
  rewrite (path_join_below (share_prefix E) "i" "cons/hicolor" "i" "ndex.theme" eq_refl eq_refl).
  apply (below_icons_not_entry E "hicolor/index.theme").
Qed.

Lemma child_name_path (E : environment) (path n : string) :
  child_name (applications_dir E) path = Some n ->
  path = path_join (applications_dir E) n.
Proof.
  unfold child_name. rewrite dir_prefix_applications.
  destruct (strip_prefix _ path) as [[|x r]|] eqn:Hs; try discriminate.
  destruct (has_slash (String x r)) eqn:Hslash; [discriminate|].
  intro H. injection H as <-.
  apply strip_prefix_Some in Hs. rewrite Hs, append_assoc.
  rewrite entry_path_eq; [reflexivity|].
  simpl in Hslash. now apply orb_false_iff in Hslash as [-> _].
Qed.

Lemma child_name_entry (E : environment) (x : ascii) (b : string) :
  has_slash (String x b) = false ->
  child_name (applications_dir E) (path_join (applications_dir E) (String x b))
  = Some (String x b).
Proof.
  intro H. rewrite entry_path_eq.
  - unfold child_name. rewrite dir_prefix_applications.
    rewrite strip_prefix_app. simpl strip_prefix. cbv iota. now rewrite H.
  - simpl in H. now apply orb_false_iff in H as [-> _].
Qed.

(** ** What a pass does to the entry files *)

Lemma same_entries_refl (E : environment) (w : world) : same_entries E w w.
Proof. repeat split. Qed.

Lemma same_entries_trans (E : environment) (w1 w2 w3 : world) :
  same_entries E w1 w2 -> same_entries E w2 w3 -> same_entries E w1 w3.
Proof.
  intros (Hu1 & Hd1 & Hf1) (Hu2 & Hd2 & Hf2). repeat split; try congruence.
  intros q Hq. now rewrite Hf2, Hf1.
Qed.

Lemma same_entries_logger (E : environment) (ev : event) (w : world) :
  same_entries E w (snd (logger ev w)).
Proof. repeat split. Qed.

Lemma same_entries_write (E : environment) (path data : string) (w : world) :
  is_entry_path E path = false ->
  same_entries E w (set_files (fs_write path data (files w)) w).
Proof.
  intro H. repeat split. intros q Hq. simpl. rewrite dict_get_fs_write.
  destruct (String.eqb_spec path q) as [->|]; [congruence|reflexivity].
Qed.

Lemma same_entries_remove (E : environment) (path : string) (w : world) :
  is_entry_path E path = false ->
  same_entries E w (set_files (fs_remove path (files w)) w).
Proof.
  intro H. repeat split. intros q Hq. simpl. rewrite dict_get_fs_remove.
  destruct (String.eqb_spec path q) as [->|]; [congruence|reflexivity].
Qed.

Lemma icon_file_not_entry (E : environment) (id : option string) :
  is_entry_path E (get_icon_file_path E (LAUNCHER_PREFIX ++ format_str id ++ ".png")) = false.
Proof. apply (icon_path_not_entry E "o"). reflexivity. Qed.

(** The icon step of [save]: it returns [None] or the icon name and
    leaves the entry files alone. *)
Lemma save_icon_step (E : environment) (c : ChannelMetadata.t) (w : world) :
  let self := ChannelLauncher_FromDatabase c in
  exists icon_name w1,
    try_except (write_channel_icon E self) isinstance_Exception
      (fun error => logger (warning_icon_file (channel_id self) error) ;;; ret None) w
    = (Ok icon_name, w1)
    /\ In icon_name (icon_names c)
    /\ same_entries E w w1.
Proof.
  intro self. subst self. unfold try_except, icon_names, write_channel_icon.
  cbv zeta. cbn [channel_id format_str].
  set (icon_file_path := get_icon_file_path E _).
  assert (Hicon : is_entry_path E icon_file_path = false).
  { apply (icon_file_not_entry E (Some (ChannelMetadata.id c))). }
  unfold bind at 1. unfold lift at 1.
  destruct (channel_icon c) as [[icon|]|e].
  - unfold ensure_dir. unfold bind at 1. unfold ret at 1.
    unfold bind at 1. unfold open_w.
    destruct (mem icon_file_path (unwritable w)) eqn:Hmem.
    + do 2 eexists. split; [reflexivity|]. split; [now left|].
      apply same_entries_logger.
    + unfold bind at 1. unfold lift.
      destruct (ChannelIcon_write E icon) as [data|e].
      * do 2 eexists. split; [reflexivity|]. split; [right; now left|].
        eapply same_entries_trans;
          [apply (same_entries_write E _ EmptyString w Hicon)|].
        apply (same_entries_write E _ data _ Hicon).
      * do 2 eexists. split; [reflexivity|]. split; [now left|].
        eapply same_entries_trans;
          [apply (same_entries_write E _ EmptyString w Hicon)|].
        apply same_entries_logger.
  - do 2 eexists. split; [reflexivity|]. split; [now left|]. apply same_entries_refl.
  - do 2 eexists. split; [reflexivity|]. split; [now left|]. apply same_entries_logger.
Qed.

(** [save] of a record whose desktop file can be written: the entry file
    of the record holds its text afterwards, the others are untouched. *)
Lemma save_effect (E : environment) (c : ChannelMetadata.t) (w : world) :
  let self := ChannelLauncher_FromDatabase c in
  mem (desktop_file_path E self) (unwritable w) = false ->
  (forall icon_name, In icon_name (icon_names c) ->
                     forallb before_set (map snd (desktop_entry c icon_name)) = true) ->
  exists icon_name w',
    save E self w = (Ok tt, w')
    /\ In icon_name (icon_names c)
    /\ unwritable w' = unwritable w
    /\ database w' = database w
    /\ dict_get (desktop_file_path E self) (files w') = Some (entry_text c icon_name)
    /\ forall q, is_entry_path E q = true -> q <> desktop_file_path E self ->
                 dict_get q (files w') = dict_get q (files w).
Proof.
  intros self Hw Hvalid.
  destruct (save_icon_step E c w) as (icon_name & w1 & Hstep & Hin & Hu & Hd & Hf).
  fold self in Hstep. unfold save. rewrite (bind_ok _ _ _ _ _ Hstep).
  unfold try_except. subst self. rewrite write_desktop_file_closed_form.
  rewrite (Hvalid icon_name Hin), open_then_write, Hu, Hw.
  exists icon_name. eexists. split; [reflexivity|]. split; [exact Hin|].
  split; [exact Hu|]. split; [exact Hd|]. unfold set_files. cbn [files]. split.
  - now rewrite dict_get_fs_write, String.eqb_refl.
  - intros q Hq Hne. rewrite !dict_get_fs_write.
    destruct (String.eqb_spec (desktop_file_path E (ChannelLauncher_FromDatabase c)) q)
      as [Heq|_]; [now symmetry in Heq|].
    now apply Hf.
Qed.

(** [delete] of a launcher, when it returns: its desktop file was there
    and is gone, the other entry files are untouched. *)
Lemma delete_effect (E : environment) (d : ChannelLauncher) (w w' : world) :
  delete E d w = (Ok tt, w') ->
  unwritable w' = unwritable w
  /\ database w' = database w
  /\ forall q, is_entry_path E q = true ->
               dict_get q (files w')
               = if String.eqb (desktop_file_path E d) q then None
                 else dict_get q (files w).
Proof.
  unfold delete, delete_desktop_file, delete_channel_icon.
  unfold bind at 1. unfold os_remove at 1.
  destruct (dict_get (desktop_file_path E d) (files w)) as [text|]; [|discriminate].
  destruct (remove_denied E (desktop_file_path E d)); [discriminate|].
  destruct d as [c|path data]; [discriminate|].
  pose proof (icon_file_not_entry E (channel_id (ChannelLauncher_FromDisk path data)))
    as Hicon.
  set (icon_file_path := get_icon_file_path E _) in *.
  set (w1 := set_files (fs_remove _ (files w)) w).
  assert (H1 : forall q, dict_get q (files w1)
                         = if String.eqb (desktop_file_path E
                                            (ChannelLauncher_FromDisk path data)) q
                           then None else dict_get q (files w)).
  { intro q. apply dict_get_fs_remove. }
  unfold bind, os_path_isfile.
  destruct (dict_get icon_file_path (files w1)) as [icon|] eqn:Hfile.
  - unfold try_remove, try_except, os_remove. rewrite Hfile.
    destruct (remove_denied E icon_file_path); cbn [isinstance_OSError ret].
    + intro H. injection H as <-. repeat split. intros q _. apply H1.
    + intro H. injection H as <-.
      destruct (same_entries_remove E icon_file_path w1 Hicon) as (Hu & Hd & Hf).
      split; [exact Hu|]. split; [exact Hd|].
      intros q Hq. etransitivity; [exact (Hf q Hq)|apply H1].
  - intro H. injection H as <-. repeat split. intros q _. apply H1.
Qed.

Lemma for_launchers_from_disk_effect (E : environment)
  (db disk : list ChannelLauncher) (did : bool) (w w' : world) (b : bool) :
  for_launchers_from_disk E db disk did w = (Ok b, w') ->
  unwritable w' = unwritable w
  /\ database w' = database w
  /\ forall q, is_entry_path E q = true ->
               dict_get q (files w')
               = if existsb (fun d => is_stale db d
                                      && String.eqb (desktop_file_path E d) q) disk
                 then None
                 else dict_get q (files w).
Proof.
  revert did w. induction disk as [|d rest IH]; intros did w H.
  - injection H as <- <-. repeat split.
  - cbn [for_launchers_from_disk existsb] in *. unfold is_stale at 1.
    destruct (negb (any_is_same_channel d db)).
    + unfold bind at 1 in H. unfold logger at 1 in H.
      set (w0 := {| database := database w; files := files w;
                    unwritable := unwritable w;
                    log := (log w ++ [info_Removing (desktop_file_name d)])%list |}) in H.
      unfold bind at 1 in H.
      destruct (delete E d w0) as [[[]|e] w1] eqn:Hdel; [|discriminate].
      apply delete_effect in Hdel as (Hu1 & Hd1 & Hf1).
      apply IH in H as (Hu & Hd & Hf).
      split; [now rewrite Hu, Hu1|]. split; [now rewrite Hd, Hd1|].
      intros q Hq. rewrite (Hf q Hq), (Hf1 q Hq). cbn [andb].
      destruct (String.eqb (desktop_file_path E d) q); cbn [orb]; [|reflexivity].
      now destruct (existsb _ rest).
    + apply IH in H. exact H.
Qed.

Lemma for_launchers_from_disk_noop (E : environment)
  (db disk : list ChannelLauncher) (did : bool) (w : world) :
  (forall d, In d disk -> is_stale db d = false) ->
  for_launchers_from_disk E db disk did w = (Ok did, w).
Proof.
  induction disk as [|d rest IH]; intro H; [reflexivity|].
  cbn [for_launchers_from_disk].
  pose proof (H d (or_introl eq_refl)) as Hd. unfold is_stale in Hd. rewrite Hd.
  apply IH. intros d' Hin. apply H. now right.
Qed.

Lemma for_launchers_from_db_noop (E : environment)
  (disk db : list ChannelLauncher) (did : bool) (w : world) :
  (forall s, In s db -> outdated false disk s = Ok false) ->
  for_launchers_from_db E false disk db did w = (Ok did, w).
Proof.
  induction db as [|s rest IH]; intro H; [reflexivity|].
  cbn [for_launchers_from_db].
  pose proof (H s (or_introl eq_refl)) as Hs. unfold outdated in Hs.
  destruct (negb (any_is_same_channel s disk)); [discriminate|].
  unfold bind, lift. rewrite Hs.
  apply IH. intros s' Hin. apply H. now right.
Qed.

Lemma desktop_file_path_eq (E : environment) (c : ChannelMetadata.t) :
  desktop_file_path E (ChannelLauncher_FromDatabase c)
  = share_prefix E ++ "applications/" ++ LAUNCHER_PREFIX
    ++ ChannelMetadata.id c ++ ".desktop".
Proof. apply (entry_path_eq E "o"). reflexivity. Qed.

Lemma append_inv_l (a b c : string) : a ++ b = a ++ c -> b = c.
Proof.
  induction a as [|x a IH]; intro H; [exact H|]. injection H as H. now apply IH.
Qed.

Lemma length_append (a b : string) :
  String.length (a ++ b) = (String.length a + String.length b)%nat.
Proof. induction a as [|x a IH]; simpl; [reflexivity|now rewrite IH]. Qed.

Lemma append_inv_r (a b c : string) : a ++ c = b ++ c -> a = b.
Proof.
  revert b. induction a as [|x a IH]; intros [|y b] H.
  - reflexivity.
  - exfalso. apply (f_equal String.length) in H.
    rewrite !length_append in H. simpl in H. lia.
  - exfalso. apply (f_equal String.length) in H.
    rewrite !length_append in H. simpl in H. lia.
  - simpl in H. injection H as -> H. f_equal. now apply IH.
Qed.

Lemma desktop_file_path_inj (E : environment) (c c' : ChannelMetadata.t) :
  desktop_file_path E (ChannelLauncher_FromDatabase c)
  = desktop_file_path E (ChannelLauncher_FromDatabase c') ->
  ChannelMetadata.id c = ChannelMetadata.id c'.
Proof.
  rewrite !desktop_file_path_eq. intro H.
  apply append_inv_l in H. apply append_inv_l in H.
  unfold LAUNCHER_PREFIX in H. apply append_inv_l in H.
  now apply append_inv_r in H.
Qed.

Lemma entry_path_is_entry (E : environment) (x : ascii) (b : string) :
  has_slash (String x b) = false ->
  is_entry_path E (path_join (applications_dir E) (String x b)) = true.
Proof. intro H. unfold is_entry_path. now rewrite child_name_entry. Qed.

Lemma desktop_file_path_is_entry (E : environment) (c : ChannelMetadata.t) :
  has_slash (ChannelMetadata.id c) = false ->
  is_entry_path E (desktop_file_path E (ChannelLauncher_FromDatabase c)) = true.
Proof.
  intro H. apply (entry_path_is_entry E "o").
  change (has_slash (LAUNCHER_PREFIX ++ ChannelMetadata.id c ++ ".desktop") = false).
  rewrite !has_slash_app, H. reflexivity.
Qed.

Lemma for_launchers_from_db_effect (E : environment) (force : bool)
  (disk : list ChannelLauncher) (cs : list ChannelMetadata.t)
  (did : bool) (w w' : world) (b : bool) :
  for_launchers_from_db E force disk (map ChannelLauncher_FromDatabase cs) did w
  = (Ok b, w') ->
  (forall c, In c cs -> can_write E w c) ->
  NoDup (map ChannelMetadata.id cs) ->
  unwritable w' = unwritable w
  /\ database w' = database w
  /\ (forall c, In c cs ->
        exists o, outdated force disk (ChannelLauncher_FromDatabase c) = Ok o
                  /\ (o = true ->
                      exists icon_name,
                        In icon_name (icon_names c)
                        /\ dict_get (desktop_file_path E (ChannelLauncher_FromDatabase c))
                             (files w') = Some (entry_text c icon_name)))
  /\ (forall q, is_entry_path E q = true ->
                (forall c, In c cs ->
                           is_saved force disk (ChannelLauncher_FromDatabase c) = true ->
                           q <> desktop_file_path E (ChannelLauncher_FromDatabase c)) ->
                dict_get q (files w') = dict_get q (files w)).
Proof.
  revert did w. induction cs as [|c rest IH]; intros did w H Hcan Hnodup.
  - injection H as <- <-. repeat split. intros c [].
  - cbn [map for_launchers_from_db] in H.
    set (self := ChannelLauncher_FromDatabase c) in *.
    apply NoDup_cons_iff in Hnodup as [Hnotin Hnodup].
    assert (Hcan_rest : forall w1, unwritable w1 = unwritable w ->
                                   forall c', In c' rest -> can_write E w1 c').
    { intros w1 Hu c' Hin. destruct (Hcan c' (or_intror Hin)) as (H1 & H2 & H3).
      repeat split; try assumption. now rewrite Hu. }
    (* the test made for [c] *)
    assert (Hout : exists r, (if force then ret true else lift (any_compare self disk)) w
                             = (r, w)
                             /\ (any_is_same_channel self disk = true ->
                                 outdated force disk self = r)).
    { unfold outdated. destruct force; eexists; split; try reflexivity;
        now intros ->. }
    destruct Hout as (r & Hr & Hout).
    (* the two ways of saving [c] share their effect *)
    assert (Hsaved : forall ev,
               (logger ev ;;; save E self ;;;
                for_launchers_from_db E force disk
                  (map ChannelLauncher_FromDatabase rest) true) w = (Ok b, w') ->
               outdated force disk self = Ok true ->
               unwritable w' = unwritable w
               /\ database w' = database w
               /\ (forall c0, In c0 (c :: rest) ->
                     exists o, outdated force disk (ChannelLauncher_FromDatabase c0) = Ok o
                               /\ (o = true ->
                                   exists icon_name,
                                     In icon_name (icon_names c0)
                                     /\ dict_get (desktop_file_path E
                                                    (ChannelLauncher_FromDatabase c0))
                                          (files w') = Some (entry_text c0 icon_name)))
               /\ (forall q, is_entry_path E q = true ->
                     (forall c0, In c0 (c :: rest) ->
                                 is_saved force disk (ChannelLauncher_FromDatabase c0) = true ->
                                 q <> desktop_file_path E (ChannelLauncher_FromDatabase c0)) ->
                     dict_get q (files w') = dict_get q (files w))).
    { intros ev Hloop Hc.
      unfold bind at 1 in Hloop. unfold logger at 1 in Hloop.
      set (w0 := {| database := database w; files := files w;
                    unwritable := unwritable w; log := (log w ++ [ev])%list |}) in Hloop.
      destruct (Hcan c (or_introl eq_refl)) as (Hslash & Hmem & Hvalid).
      destruct (save_effect E c w0 Hmem Hvalid)
        as (icon_name & w1 & Hsave & Hin & Hu1 & Hd1 & Hfile & Hf1).
      fold self in Hsave, Hfile, Hf1.
      rewrite (bind_ok _ _ _ _ _ Hsave) in Hloop.
      destruct (IH true w1 Hloop (Hcan_rest w1 Hu1) Hnodup) as (Hu & Hd & Hrest & Hf).
      split; [now rewrite Hu, Hu1|]. split; [now rewrite Hd, Hd1|]. split.
      - intros c0 [<-|Hin0].
        + exists true. split; [exact Hc|]. intros _. exists icon_name.
          split; [exact Hin|]. rewrite Hf; [exact Hfile| |].
          * now apply desktop_file_path_is_entry.
          * intros c' Hin' _ Heq. apply desktop_file_path_inj in Heq.
            apply Hnotin. rewrite Heq. now apply in_map.
        + now apply Hrest.
      - intros q Hq Hnot. rewrite Hf; [|exact Hq|].
        + apply Hf1; [exact Hq|]. apply (Hnot c (or_introl eq_refl)).
          unfold is_saved. fold self. now rewrite Hc.
        + intros c' Hin'. apply Hnot. now right. }
    destruct (negb (any_is_same_channel self disk)) eqn:Hmatch.
    + apply (Hsaved _ H). unfold outdated. now rewrite Hmatch.
    + apply negb_false_iff in Hmatch. specialize (Hout Hmatch).
      destruct r as [[|]|e].
      * rewrite (bind_ok _ _ _ _ _ Hr) in H. apply (Hsaved _ H Hout).
      * rewrite (bind_ok _ _ _ _ _ Hr) in H.
        destruct (IH did w H (Hcan_rest w eq_refl) Hnodup) as (Hu & Hd & Hrest & Hf).
        split; [exact Hu|]. split; [exact Hd|]. split.
        -- intros c0 [<-|Hin0]; [|now apply Hrest].
           exists false. split; [exact Hout|]. discriminate.
        -- intros q Hq Hnot. apply Hf; [exact Hq|].
           intros c' Hin'. apply Hnot. now right.
      * rewrite (bind_raise _ _ _ _ _ Hr) in H. discriminate.
Qed.

Lemma update_icon_cache_same_entries (E : environment) (w : world) :
  same_entries E w (snd (update_icon_cache E w)).
Proof.
  unfold update_icon_cache.
  assert (Hcopy : exists params w1,
             try_except
               (shutil_copyfile system_theme_index
                  (path_join (icon_theme_dir E) "index.theme") ;;;
                ret [icon_theme_dir E])
               isinstance_OSError
               (fun _ => ret ([icon_theme_dir E] ++ ["--ignore-theme-index"])%list) w
             = (Ok params, w1)
             /\ same_entries E w w1).
  { unfold try_except, bind, shutil_copyfile.
    destruct (dict_get system_theme_index (files w)) as [data|].
    - destruct (parent_exists _ (files w)).
      + unfold bind, open_w, file_write.
        destruct (mem _ (unwritable w)); cbn [isinstance_OSError].
        * do 2 eexists. split; [reflexivity|apply same_entries_refl].
        * do 2 eexists. split; [reflexivity|].
          eapply same_entries_trans;
            apply same_entries_write, theme_index_not_entry.
      + cbn [isinstance_OSError]. do 2 eexists.
        split; [reflexivity|apply same_entries_refl].
    - cbn [isinstance_OSError]. do 2 eexists.
      split; [reflexivity|apply same_entries_refl]. }
  destruct Hcopy as (params & w1 & Hcopy & Hsame).
  rewrite (bind_ok _ _ _ _ _ Hcopy).
  unfold try_except, bind, lift.
  destruct (subprocess_run E ("gtk-update-icon-cache" :: params)) as [[]|e].
  - eapply same_entries_trans; [exact Hsame|apply same_entries_logger].
  - destruct (isinstance_OSError e); [|exact Hsame].
    eapply same_entries_trans; [exact Hsame|apply same_entries_logger].
Qed.

(** ** What is read back from the entry files *)

Lemma dict_get_In {V : Type} (k : string) (d : list (string * V)) :
  dict_get k d <> None <-> In k (map fst d).
Proof.
  induction d as [|[k' v] d IH]; simpl.
  - split; [congruence|intros []].
  - destruct (String.eqb_spec k' k) as [->|Hne].
    + split; [now left|discriminate].
    + rewrite IH. split; [now right|intros [H|H]; [contradiction|exact H]].
Qed.

Lemma In_children (dir n : string) (fs : list (string * string)) :
  In n (children dir fs)
  <-> exists path, child_name dir path = Some n /\ dict_get path fs <> None.
Proof.
  split.
  - induction fs as [|[p t] fs IH]; [intros []|]. simpl.
    destruct (child_name dir p) as [m|] eqn:Hchild.
    + intros [<-|Hin].
      * exists p. split; [exact Hchild|]. now rewrite String.eqb_refl.
      * destruct (IH Hin) as (path & Hc & Hget). exists path. split; [exact Hc|].
        destruct (String.eqb p path); [discriminate|exact Hget].
    + intro Hin. destruct (IH Hin) as (path & Hc & Hget). exists path.
      split; [exact Hc|]. destruct (String.eqb p path); [discriminate|exact Hget].
  - intros (path & Hc & Hget). apply dict_get_In in Hget.
    induction fs as [|[p t] fs IH]; [destruct Hget|]. simpl in *.
    destruct Hget as [->|Hin].
    + rewrite Hc. now left.
    + destruct (child_name dir p); [right|]; now apply IH.
Qed.

Lemma In_loaded (E : environment) (fs : list (string * string)) (d : ChannelLauncher) :
  In d (flat_map (launchers_of_file E fs) (children (applications_dir E) fs))
  <-> launcher_on_disk E fs d.
Proof.
  rewrite in_flat_map. split.
  - intros (n & Hn & Hd). apply In_children in Hn as (path & Hchild & _).
    apply child_name_path in Hchild as Hpath. unfold launchers_of_file in Hd.
    rewrite <- Hpath in Hd.
    destruct (dict_get path fs) as [text|] eqn:Hget; [|destruct Hd].
    destruct (configparser_read E text) as [parser|e] eqn:Hread; [|destruct Hd].
    destruct (dict_get "Desktop Entry" parser) as [items|] eqn:Hsec; [|destruct Hd].
    destruct Hd as [<-|[]].
    exists path, text, parser, items. unfold is_entry_path. rewrite Hchild.
    repeat split; assumption.
  - intros (path & text & parser & items & Hentry & Hget & Hread & Hsec & ->).
    unfold is_entry_path in Hentry.
    destruct (child_name (applications_dir E) path) as [n|] eqn:Hchild; [|discriminate].
    exists n. split.
    + apply In_children. exists path. split; [exact Hchild|]. congruence.
    + apply child_name_path in Hchild. unfold launchers_of_file.
      rewrite <- Hchild, Hget, Hread, Hsec. now left.
Qed.

Lemma FromDisk_load_files_inv (E : environment) (file_names : list string)
  (w w' : world) (launchers : list ChannelLauncher) :
  FromDisk_load_files E file_names w = (Ok launchers, w') ->
  w' = w /\ forall n, In n file_names -> file_parses E (files w) n = true.
Proof.
  revert launchers. induction file_names as [|n rest IH]; intros launchers H.
  - injection H as _ <-. split; [reflexivity|intros n []].
  - cbn [FromDisk_load_files] in H. unfold bind at 1, ConfigParser_read in H.
    assert (Hn : file_parses E (files w) n = true
                 /\ exists ls, FromDisk_load_files E rest w = (Ok ls, w')).
    { unfold file_parses.
      destruct (dict_get (path_join (applications_dir E) n) (files w)) as [text|].
      - destruct (configparser_read E text) as [parser|e]; [|discriminate].
        split; [reflexivity|].
        destruct (dict_get "Desktop Entry" parser).
        + unfold bind in H.
          destruct (FromDisk_load_files E rest w) as [[ls|e] w1]; [|discriminate].
          injection H as _ <-. now exists ls.
        + now exists launchers.
      - split; [reflexivity|]. cbn [dict_get] in H. now exists launchers. }
    destruct Hn as (Hn & ls & Hrest). destruct (IH ls Hrest) as (-> & Hall).
    split; [reflexivity|]. intros n' [<-|Hin]; [exact Hn|now apply Hall].
Qed.

Lemma FromDisk_load_all_inv (E : environment) (w w' : world)
  (launchers : list ChannelLauncher) :
  FromDisk_load_all E w = (Ok launchers, w') ->
  w' = w
  /\ (forall n, In n (children (applications_dir E) (files w)) ->
                file_parses E (files w) n = true)
  /\ launchers = flat_map (launchers_of_file E (files w))
                   (children (applications_dir E) (files w)).
Proof.
  intro H.
  assert (Hparse : forall n, In n (children (applications_dir E) (files w)) ->
                             file_parses E (files w) n = true).
  { unfold FromDisk_load_all, bind, os_path_isdir, os_listdir in H.
    destruct (existsb _ (files w)) eqn:Hdir; cbn [negb] in H.
    - now apply FromDisk_load_files_inv in H.
    - rewrite (children_not_isdir _ _ Hdir). intros n []. }
  pose proof (FromDisk_load_all_parsed E w Hparse) as Hload.
  rewrite Hload in H. injection H as <- <-. repeat split. exact Hparse.
Qed.

(** ** The state after a first pass *)

Lemma first_pass_summary (E : environment) (force : bool) (w0 w1 : world) (r : pyval) :
  update_channel_launchers E force w0 = (Ok r, w1) ->
  NoDup (map ChannelMetadata.id (source w0)) ->
  (forall c, In c (source w0) -> can_write E w0 c) ->
  let disk := disk_launchers E w0 in
  let db := map ChannelLauncher_FromDatabase (source w0) in
  database w1 = database w0
  /\ (forall n, In n (children (applications_dir E) (files w0)) ->
                file_parses E (files w0) n = true)
  /\ (forall c, In c (source w0) ->
        exists o, outdated force disk (ChannelLauncher_FromDatabase c) = Ok o
                  /\ (o = true ->
                      exists icon_name,
                        In icon_name (icon_names c)
                        /\ dict_get (desktop_file_path E (ChannelLauncher_FromDatabase c))
                             (files w1) = Some (entry_text c icon_name)))
  /\ (forall q, is_entry_path E q = true ->
                (forall c, In c (source w0) ->
                           is_saved force disk (ChannelLauncher_FromDatabase c) = true ->
                           q <> desktop_file_path E (ChannelLauncher_FromDatabase c)) ->
                dict_get q (files w1)
                = if existsb (fun d => is_stale db d
                                       && String.eqb (desktop_file_path E d) q) disk
                  then None
                  else dict_get q (files w0)).
Proof.
  intros H Hnodup Hcan disk db.
  unfold update_channel_launchers in H.
  unfold bind at 1 in H. unfold FromDatabase_load_all at 1 in H.
  fold (source w0) in H. fold db in H.
  unfold bind at 1 in H.
  destruct (FromDisk_load_all E w0) as [[disk0|e] w0'] eqn:Hload; [|discriminate].
  apply FromDisk_load_all_inv in Hload as (-> & Hparse & ->). fold (disk_launchers E w0) in H.
  fold disk in H.
  unfold bind at 1 in H.
  destruct (reconcile E force db disk w0) as [[did|e] wb] eqn:Hrec; [|discriminate].
  unfold reconcile in Hrec. unfold bind at 1 in Hrec.
  destruct (for_launchers_from_disk E db disk false w0) as [[b1|e] wa] eqn:Hloop1;
    [|discriminate].
  apply for_launchers_from_disk_effect in Hloop1 as (Hua & Hda & Hfa).
  assert (Hcan_a : forall c, In c (source w0) -> can_write E wa c).
  { intros c Hin. destruct (Hcan c Hin) as (H1 & H2 & H3).
    repeat split; try assumption. now rewrite Hua. }
  destruct (for_launchers_from_db_effect E force disk (source w0) b1 wa wb did
              Hrec Hcan_a Hnodup) as (Hub & Hdb & Hsaved & Hfb).
  assert (Hsame : same_entries E wb w1).
  { unfold bind in H. destruct did.
    - pose proof (update_icon_cache_same_entries E wb) as Hs.
      destruct (update_icon_cache E wb) as [[[]|e] w2]; [|discriminate].
      injection H as _ <-. exact Hs.
    - cbn in H. injection H as _ <-. apply same_entries_refl. }
  destruct Hsame as (Hu1 & Hd1 & Hf1).
  split; [congruence|]. split; [exact Hparse|]. split.
  - intros c Hin. destruct (Hsaved c Hin) as (o & Ho & Hfile).
    exists o. split; [exact Ho|]. intros ->.
    destruct (Hfile eq_refl) as (icon_name & Hicon & Hget).
    exists icon_name. split; [exact Hicon|]. rewrite Hf1; [exact Hget|].
    apply desktop_file_path_is_entry. apply (Hcan c Hin).
  - intros q Hq Hnot. rewrite (Hf1 q Hq), (Hfb q Hq Hnot). apply (Hfa q Hq).
Qed.

Lemma any_compare_false_inv (s : ChannelLauncher) (disk : list ChannelLauncher) :
  any_compare s disk = Ok false ->
  forall d, In d disk -> exists v, compare s d = Ok v /\ truthy v = false.
Proof.
  induction disk as [|x rest IH]; intros H d Hin; [destruct Hin|].
  cbn [any_compare] in H.
  destruct (compare s x) as [v|e] eqn:Hc; [|discriminate].
  destruct (truthy v) eqn:Hv; [discriminate|].
  destruct Hin as [<-|Hin]; [now exists v|now apply IH].
Qed.

Lemma any_compare_false (s : ChannelLauncher) (disk : list ChannelLauncher) :
  (forall d, In d disk -> exists v, compare s d = Ok v /\ truthy v = false) ->
  any_compare s disk = Ok false.
Proof.
  induction disk as [|x rest IH]; intro H; [reflexivity|].
  cbn [any_compare].
  destruct (H x (or_introl eq_refl)) as (v & -> & ->).
  apply IH. intros d Hin. apply H. now right.
Qed.

Lemma compare_same_version (s d : ChannelLauncher) (a b : Z) :
  channel_id d = channel_id s ->
  channel_version d = channel_version s ->
  version_components (channel_version s) = Ok (a, b) ->
  compare s d = Ok (PyInt 0).
Proof.
  intros Hid Hver Hs. unfold compare, is_same_channel.
  rewrite Hid, (proj2 (option_string_eqb_eq _ _) eq_refl), Hver, Hs.
  cbn [negb]. unfold int_or. now rewrite !Z.sub_diag.
Qed.

Lemma NoDup_id_inj (cs : list ChannelMetadata.t) (c c' : ChannelMetadata.t) :
  NoDup (map ChannelMetadata.id cs) ->
  In c cs -> In c' cs -> ChannelMetadata.id c = ChannelMetadata.id c' -> c = c'.
Proof.
  induction cs as [|x cs IH]; intros Hnodup Hc Hc' Hid; [destruct Hc|].
  cbn [map] in Hnodup. apply NoDup_cons_iff in Hnodup as [Hnotin Hnodup].
  destruct Hc as [<-|Hc], Hc' as [<-|Hc'].
  - reflexivity.
  - exfalso. apply Hnotin. rewrite Hid. now apply in_map.
  - exfalso. apply Hnotin. rewrite <- Hid. now apply in_map.
  - now apply IH.
Qed.

Lemma any_is_same_channel_db (d : ChannelLauncher) (cs : list ChannelMetadata.t) :
  any_is_same_channel d (map ChannelLauncher_FromDatabase cs) = true
  <-> exists c, In c cs /\ channel_id d = Some (ChannelMetadata.id c).
Proof.
  unfold any_is_same_channel. rewrite existsb_exists. split.
  - intros (s & Hin & Hsame). apply in_map_iff in Hin as (c & <- & Hin).
    exists c. split; [exact Hin|]. now apply option_string_eqb_eq in Hsame.
  - intros (c & Hin & Hid). exists (ChannelLauncher_FromDatabase c).
    split; [now apply in_map|]. now apply option_string_eqb_eq.
Qed.

Lemma any_is_same_channel_disk (s : ChannelLauncher) (disk : list ChannelLauncher) :
  any_is_same_channel s disk = true
  <-> exists d, In d disk /\ channel_id d = channel_id s.
Proof.
  unfold any_is_same_channel. rewrite existsb_exists. split.
  - intros (d & Hin & Hsame). exists d. split; [exact Hin|].
    symmetry. now apply option_string_eqb_eq.
  - intros (d & Hin & Hid). exists d. split; [exact Hin|].
    apply option_string_eqb_eq. now symmetry.
Qed.

(** ** Idempotence *)

(** What the entry files of [w1] are after a first pass from [w0]: every
    launcher on disk belongs to a record and compares equal with it, and
    every record has a launcher on disk. *)
Lemma first_pass_settles (E : environment) (force : bool) (w0 w1 : world) (r : pyval) :
  update_channel_launchers E force w0 = (Ok r, w1) ->
  NoDup (map ChannelMetadata.id (source w0)) ->
  (forall c, In c (source w0) ->
             version_parses c /\ can_write E w0 c /\ reads_back E c) ->
  in_place E w0 ->
  database w1 = database w0
  /\ (forall path text, is_entry_path E path = true ->
                        dict_get path (files w1) = Some text ->
                        exists parser, configparser_read E text = Ok parser)
  /\ (forall d, launcher_on_disk E (files w1) d ->
        exists c, In c (source w0)
                  /\ channel_id d = Some (ChannelMetadata.id c)
                  /\ exists v, compare (ChannelLauncher_FromDatabase c) d = Ok v
                               /\ truthy v = false)
  /\ (forall c, In c (source w0) ->
        exists d, launcher_on_disk E (files w1) d
                  /\ channel_id d = Some (ChannelMetadata.id c)).
Proof.
  intros H Hnodup Hrec Hplace.
  assert (Hcan : forall c, In c (source w0) -> can_write E w0 c).
  { intros c Hin. apply (Hrec c Hin). }
  destruct (first_pass_summary E force w0 w1 r H Hnodup Hcan)
    as (Hdb & Hparse & Hsaved & Hfiles).
  set (disk := disk_launchers E w0) in *.
  set (db := map ChannelLauncher_FromDatabase (source w0)) in *.
  (* an entry file of [w1] was written by the pass or is as it was *)
  assert (Hcases : forall q text,
             is_entry_path E q = true -> dict_get q (files w1) = Some text ->
             (exists c icon_name,
                 In c (source w0)
                 /\ is_saved force disk (ChannelLauncher_FromDatabase c) = true
                 /\ q = desktop_file_path E (ChannelLauncher_FromDatabase c)
                 /\ In icon_name (icon_names c)
                 /\ text = entry_text c icon_name)
             \/ ((forall c, In c (source w0) ->
                            is_saved force disk (ChannelLauncher_FromDatabase c) = true ->
                            q <> desktop_file_path E (ChannelLauncher_FromDatabase c))
                 /\ dict_get q (files w0) = Some text
                 /\ forall d, In d disk -> desktop_file_path E d = q ->
                              is_stale db d = false)).
  { intros q text Hq Hget.
    destruct (existsb (fun c => is_saved force disk (ChannelLauncher_FromDatabase c)
                                && String.eqb
                                     (desktop_file_path E (ChannelLauncher_FromDatabase c)) q)
                (source w0)) eqn:Hex.
    - left. apply existsb_exists in Hex as (c & Hin & Hc).
      apply andb_true_iff in Hc as [Hs Heq]. apply String.eqb_eq in Heq.
      destruct (Hsaved c Hin) as (o & Ho & Hfile).
      unfold is_saved in Hs. rewrite Ho in Hs. destruct o; [|discriminate].
      destruct (Hfile eq_refl) as (icon_name & Hicon & Hget').
      exists c, icon_name. rewrite Heq in Hget'. rewrite Hget in Hget'.
      injection Hget' as ->. unfold is_saved. rewrite Ho. now repeat split.
    - right.
      assert (Hnot : forall c, In c (source w0) ->
                is_saved force disk (ChannelLauncher_FromDatabase c) = true ->
                q <> desktop_file_path E (ChannelLauncher_FromDatabase c)).
      { intros c Hin Hs Heq.
        assert (Hc : existsb (fun c => is_saved force disk (ChannelLauncher_FromDatabase c)
                                && String.eqb
                                     (desktop_file_path E (ChannelLauncher_FromDatabase c)) q)
                       (source w0) = true).
        { apply existsb_exists. exists c. split; [exact Hin|].
          rewrite Hs, Heq. apply String.eqb_refl. }
        congruence. }
      split; [exact Hnot|].
      rewrite (Hfiles q Hq Hnot) in Hget.
      destruct (existsb _ disk) eqn:Hstale; [discriminate|].
      split; [exact Hget|].
      intros d Hin Hpath.
      destruct (is_stale db d) eqn:Hd; [|reflexivity].
      assert (Hc : existsb (fun d => is_stale db d
                                     && String.eqb (desktop_file_path E d) q) disk = true).
      { apply existsb_exists. exists d. split; [exact Hin|].
        rewrite Hd, Hpath. apply String.eqb_refl. }
      congruence. }
  split; [exact Hdb|]. split; [|split].
  - (* every entry file parses *)
    intros q text Hq Hget.
    destruct (Hcases q text Hq Hget)
      as [(c & icon_name & Hin & _ & _ & Hicon & ->)|(_ & Hget0 & _)].
    + destruct (Hrec c Hin) as (_ & _ & Hback).
      destruct (Hback icon_name Hicon) as (parser & items & Hread & _).
      now exists parser.
    + unfold is_entry_path in Hq.
      destruct (child_name (applications_dir E) q) as [n|] eqn:Hchild; [|discriminate].
      assert (Hn : In n (children (applications_dir E) (files w0))).
      { apply In_children. exists q. split; [exact Hchild|]. congruence. }
      specialize (Hparse n Hn). unfold file_parses in Hparse.
      apply child_name_path in Hchild. rewrite <- Hchild, Hget0 in Hparse.
      destruct (configparser_read E text) as [parser|e]; [|discriminate].
      now exists parser.
  - (* every launcher on disk belongs to a record and compares equal *)
    intros d (q & text & parser & items & Hq & Hget & Hread & Hsec & ->).
    destruct (Hcases q text Hq Hget)
      as [(c & icon_name & Hin & _ & _ & Hicon & ->)|(Hnot & Hget0 & Hkept)].
    + destruct (Hrec c Hin) as ((a & b & Hver) & _ & Hback).
      destruct (Hback icon_name Hicon) as (parser' & items' & Hread' & Hsec' & Hid & Hv).
      rewrite Hread in Hread'. injection Hread' as <-.
      rewrite Hsec in Hsec'. injection Hsec' as <-.
      exists c. split; [exact Hin|]. split; [exact Hid|].
      exists (PyInt 0). split; [|reflexivity].
      now apply (compare_same_version _ _ a b).
    + set (d := ChannelLauncher_FromDisk q (dict items)).
      assert (Hd : In d disk).
      { apply In_loaded. exists q, text, parser, items. now repeat split. }
      pose proof (Hkept d Hd eq_refl) as Hstale.
      unfold is_stale in Hstale. apply negb_false_iff in Hstale.
      apply any_is_same_channel_db in Hstale as (c & Hin & Hid).
      exists c. split; [exact Hin|]. split; [exact Hid|].
      pose proof (Hplace d c Hd Hin Hid) as Hpath.
      change (q = desktop_file_path E (ChannelLauncher_FromDatabase c)) in Hpath.
      destruct (Hsaved c Hin) as (o & Ho & _).
      destruct o.
      * exfalso. apply (Hnot c Hin); [|exact Hpath]. unfold is_saved. now rewrite Ho.
      * unfold outdated in Ho.
        destruct (negb (any_is_same_channel (ChannelLauncher_FromDatabase c) disk));
          [discriminate|].
        destruct force; [discriminate|].
        now apply (any_compare_false_inv _ _ Ho).
  - (* every record has a launcher on disk *)
    intros c Hin. destruct (Hrec c Hin) as (_ & (Hslash & _) & Hback).
    pose proof (desktop_file_path_is_entry E c Hslash) as Hentry.
    destruct (Hsaved c Hin) as (o & Ho & Hfile). destruct o.
    + destruct (Hfile eq_refl) as (icon_name & Hicon & Hget).
      destruct (Hback icon_name Hicon) as (parser & items & Hread & Hsec & Hid & _).
      exists (ChannelLauncher_FromDisk
                (desktop_file_path E (ChannelLauncher_FromDatabase c)) (dict items)).
      split; [|exact Hid].
      exists (desktop_file_path E (ChannelLauncher_FromDatabase c)),
        (entry_text c icon_name), parser, items. now repeat split.
    + assert (Hmatch : any_is_same_channel (ChannelLauncher_FromDatabase c) disk = true).
      { unfold outdated in Ho.
        destruct (any_is_same_channel (ChannelLauncher_FromDatabase c) disk);
          [reflexivity|discriminate]. }
      apply any_is_same_channel_disk in Hmatch as (d & Hd & Hid).
      cbn [channel_id] in Hid.
      pose proof (Hplace d c Hd Hin Hid) as Hpath.
      apply In_loaded in Hd as Hon.
      destruct Hon as (q & text & parser & items & Hq & Hget & Hread & Hsec & Hdq).
      subst d.
      change (q = desktop_file_path E (ChannelLauncher_FromDatabase c)) in Hpath.
      subst q.
      set (q := desktop_file_path E (ChannelLauncher_FromDatabase c)) in *.
      exists (ChannelLauncher_FromDisk q (dict items)). split; [|exact Hid].
      exists q, text, parser, items. repeat split; try assumption.
      rewrite Hfiles; [| exact Hq |].
      * destruct (existsb _ disk) eqn:Hstale; [|exact Hget].
        exfalso. apply existsb_exists in Hstale as (d' & Hd' & Hs).
        apply andb_true_iff in Hs as [Hs Heq]. apply String.eqb_eq in Heq.
        apply In_loaded in Hd' as (q' & text' & parser' & items' & _ & Hget'
                                   & Hread' & Hsec' & ->).
        change (q' = q) in Heq. subst q'.
        rewrite Hget in Hget'. injection Hget' as <-.
        rewrite Hread in Hread'. injection Hread' as <-.
        rewrite Hsec in Hsec'. injection Hsec' as <-.
        unfold is_stale in Hs. apply negb_true_iff in Hs.
        assert (Ht : any_is_same_channel (ChannelLauncher_FromDisk q (dict items)) db = true).
        { apply any_is_same_channel_db. now exists c. }
        congruence.
      * intros c' Hin' Hs' Heq. apply desktop_file_path_inj in Heq.
        pose proof (NoDup_id_inj _ c c' Hnodup Hin Hin' Heq) as <-.
        unfold is_saved in Hs'. now rewrite Ho in Hs'.
Qed.

(** C4 (as amended).  Take a source list with distinct channel ids, whose
    versions parse as two integers, whose desktop files can be written
    (ids without a slash, values accepted by configparser, paths that
    open) and are read back with their channel id and version; and a disk
    on which every launcher of a source channel sits at the desktop file
    path derived from the channel id.  After one pass that returns, a
    second pass without force returns [None] and leaves the world exactly
    as it was: no creation, update or deletion, no log line, and every
    file unchanged; its flag [did_icons_change] is false. *)
Theorem second_pass_changes_nothing (E : environment) (force : bool)
  (w0 w1 : world) (r : pyval) :
  update_channel_launchers E force w0 = (Ok r, w1) ->
  NoDup (map ChannelMetadata.id (source w0)) ->
  (forall c, In c (source w0) ->
             version_parses c /\ can_write E w0 c /\ reads_back E c) ->
  in_place E w0 ->
  update_channel_launchers E false w1 = (Ok PyNone, w1)
  /\ FromDisk_load_all E w1 = (Ok (disk_launchers E w1), w1)
  /\ reconcile E false (map ChannelLauncher_FromDatabase (source w1))
       (disk_launchers E w1) w1 = (Ok false, w1).
Proof.
  intros H Hnodup Hrec Hplace.
  destruct (first_pass_settles E force w0 w1 r H Hnodup Hrec Hplace)
    as (Hdb & Hparse & Hdisk & Hsource).
  assert (Hsrc : source w1 = source w0) by (unfold source; now rewrite Hdb).
  assert (Hload : FromDisk_load_all E w1 = (Ok (disk_launchers E w1), w1)).
  { apply FromDisk_load_all_parsed. intros n Hn.
    apply In_children in Hn as (path & Hchild & Hget).
    unfold file_parses. rewrite <- (child_name_path E path n Hchild).
    destruct (dict_get path (files w1)) as [text|] eqn:Htext; [|reflexivity].
    destruct (Hparse path text) as (parser & ->); [|exact Htext|reflexivity].
    unfold is_entry_path. now rewrite Hchild. }
  assert (Hreconcile : reconcile E false (map ChannelLauncher_FromDatabase (source w1))
                         (disk_launchers E w1) w1 = (Ok false, w1)).
  { rewrite Hsrc. unfold reconcile.
    rewrite (bind_ok _ _ w1 w1 false).
    - apply for_launchers_from_db_noop. intros s Hs.
      apply in_map_iff in Hs as (c & <- & Hc).
      unfold outdated.
      destruct (Hsource c Hc) as (d & Hd & Hid).
      apply In_loaded in Hd.
      rewrite (proj2 (any_is_same_channel_disk (ChannelLauncher_FromDatabase c) _));
        [|now exists d].
      cbn [negb]. apply any_compare_false. intros d' Hd'.
      destruct (is_same_channel (ChannelLauncher_FromDatabase c) d') eqn:Hsame.
      + apply In_loaded in Hd'.
        destruct (Hdisk d' Hd') as (c' & Hc' & Hid' & Hcmp).
        apply option_string_eqb_eq in Hsame. cbn [channel_id] in Hsame.
        rewrite Hid' in Hsame. injection Hsame as Heq.
        now rewrite (NoDup_id_inj _ c c' Hnodup Hc Hc' Heq).
      + exists PyNone. split; [|reflexivity]. unfold compare. now rewrite Hsame.
    - apply for_launchers_from_disk_noop. intros d Hd.
      apply In_loaded in Hd. destruct (Hdisk d Hd) as (c & Hc & Hid & _).
      unfold is_stale. apply negb_false_iff.
      apply any_is_same_channel_db. now exists c. }
  split; [|split; [exact Hload|exact Hreconcile]].
  unfold update_channel_launchers.
  unfold bind at 1. unfold FromDatabase_load_all at 1. fold (source w1).
  rewrite (bind_ok _ _ _ _ _ Hload), (bind_ok _ _ _ _ _ Hreconcile).
  reflexivity.
Qed.

Lemma second_pass_changes_nothing_witness :
  let c := example_channel "c" "3" "Maths" (Some "data:image/png;base64,AAAA") in
  let w0 := example_world [c]
              [("/share/applications/org.learningequality.Kolibri.Channel.c.desktop",
                example_desktop_text "c" "2~5");
               ("/share/applications/old.desktop", example_desktop_text "gone" "1~5")] in
  let w1 := snd (update_channel_launchers example_environment false w0) in
  update_channel_launchers example_environment false w1 = (Ok PyNone, w1).
Proof.
  intros c w0 w1.
  apply (second_pass_changes_nothing example_environment false w0 w1 PyNone).
  - vm_compute. reflexivity.
  - cbn. constructor; [intros []|constructor].
  - intros c' [<-|[]]. split; [|split].
    + exists 3, 5. reflexivity.
    + split; [reflexivity|]. split; [reflexivity|].
      intros icon_name [<-|[<-|[]]]; reflexivity.
    + intros icon_name [<-|[<-|[]]]; do 2 eexists;
        (split; [vm_compute; reflexivity|]); repeat split.
  - intros d c' Hd [<-|[]] Hid.
    vm_compute in Hd. destruct Hd as [<-|[<-|[]]].
    + reflexivity.
    + discriminate Hid.
Defined.

(** C4, the claim as stated fails: a launcher of the channel read from
    another file name, with an older version, is left where it is by the
    first pass, whose saves all succeed; the second pass finds it again,
    updates the channel again and reports a change. *)
Lemma second_pass_updates_again :
  let c := example_channel "abc" "2" "Maths" (Some "data:image/png;base64,AAAA") in
  let w0 := example_world [c]
              [("/share/applications/foo.desktop", example_desktop_text "abc" "1~5")] in
  let w1 := snd (update_channel_launchers example_environment false w0) in
  let w2 := snd (update_channel_launchers example_environment false w1) in
  fst (update_channel_launchers example_environment false w0) = Ok PyNone
  /\ existsb is_warning (log w1) = false
  /\ fst (reconcile example_environment false
            (map ChannelLauncher_FromDatabase (source w1))
            (disk_launchers example_environment w1) w1) = Ok true
  /\ log w2
     = (log w1 ++ [info_Updating "org.learningequality.Kolibri.Channel.abc.desktop";
                   subprocess ["gtk-update-icon-cache"; "/share/icons/hicolor";
                               "--ignore-theme-index"]])%list.
Proof.
  vm_compute. repeat split.
Qed.

(** * Saving a launcher: what is written and what is logged *)

Lemma entry_text_lines (c : ChannelMetadata.t) (icon_name : option string) :
  entry_text c icon_name
  = "[Desktop Entry]" ++ nl
    ++ "Version=1.0" ++ nl
    ++ "Type=Application" ++ nl
    ++ "Name=" ++ indent_newlines (ChannelMetadata.name c) ++ nl
    ++ "Comment=" ++ indent_newlines (or_empty (ChannelMetadata.tagline c)) ++ nl
    ++ "Exec="
    ++ indent_newlines ("flatpak run org.learningequality.Kolibri --channel-id "
                        ++ ChannelMetadata.id c) ++ nl
    ++ "X-Endless-LaunchMaximized=True" ++ nl
    ++ "X-Kolibri-Channel-Id=" ++ indent_newlines (ChannelMetadata.id c) ++ nl
    ++ "X-Kolibri-Channel-Version="
    ++ indent_newlines (ChannelMetadata.version c ++ "~5") ++ nl
    ++ "Categories=Education;X-Kolibri-Channel;" ++ nl
    ++ (if nonempty icon_name
        then "Icon=" ++ indent_newlines (format_str icon_name) ++ nl
        else EmptyString)
    ++ nl.
Proof.
  unfold entry_text, ConfigParser_write, write_section, desktop_entry, write_option.
  destruct icon_name as [[|ch r]|]; cbn [nonempty map app fst snd String.concat];
    repeat rewrite append_assoc; reflexivity.
Qed.

Lemma write_desktop_file_other_files (E : environment) (self : ChannelLauncher)
  (icon_name : option string) (w : world) (q : string) :
  q <> desktop_file_path E self ->
  dict_get q (files (snd (write_desktop_file E self icon_name w))) = dict_get q (files w).
Proof.
  intro Hq. destruct self as [c|path data]; [|reflexivity].
  rewrite write_desktop_file_closed_form.
  destruct (forallb before_set _); [|reflexivity].
  rewrite open_then_write.
  destruct (mem _ (unwritable w)); [reflexivity|].
  unfold set_files. cbn [snd files]. rewrite !dict_get_fs_write.
  destruct (String.eqb_spec (desktop_file_path E (ChannelLauncher_FromDatabase c)) q)
    as [Heq|_]; [now symmetry in Heq|reflexivity].
Qed.

Lemma icon_path_is_not_desktop_path (E : environment) (c c' : ChannelMetadata.t) :
  get_icon_file_path E (LAUNCHER_PREFIX ++ ChannelMetadata.id c ++ ".png")
  <> desktop_file_path E (ChannelLauncher_FromDatabase c').
Proof.
  assert (Hicon : get_icon_file_path E (LAUNCHER_PREFIX ++ ChannelMetadata.id c ++ ".png")
                  = share_prefix E ++ "icons/hicolor/256x256/apps/" ++ LAUNCHER_PREFIX
                    ++ ChannelMetadata.id c ++ ".png").
  { apply (icon_file_path_eq E "o"). reflexivity. }
  rewrite Hicon, desktop_file_path_eq.
  intro H. apply append_inv_l in H. discriminate H.
Qed.

Lemma save_after_icon_error (E : environment) (self : ChannelLauncher)
  (w w1 : world) (error : exn) :
  write_channel_icon E self w = (Raise error, w1) ->
  save E self w
  = try_except (write_desktop_file E self None) isinstance_Exception
      (fun error => logger (warning_desktop_file (channel_id self) error))
      (snd (logger (warning_icon_file (channel_id self) error) w1)).
Proof.
  intro H. unfold save. unfold bind at 1. unfold try_except at 1. now rewrite H.
Qed.

Lemma save_after_icon (E : environment) (self : ChannelLauncher)
  (w w1 : world) (icon_name : option string) :
  write_channel_icon E self w = (Ok icon_name, w1) ->
  save E self w
  = try_except (write_desktop_file E self icon_name) isinstance_Exception
      (fun error => logger (warning_desktop_file (channel_id self) error)) w1.
Proof.
  intro H. unfold save. unfold bind at 1. unfold try_except at 1. now rewrite H.
Qed.

Lemma try_write_desktop_file_files (E : environment) (self : ChannelLauncher)
  (icon_name : option string) (w : world) (q : string) :
  q <> desktop_file_path E self ->
  dict_get q (files (snd (try_except (write_desktop_file E self icon_name)
                            isinstance_Exception
                            (fun error =>
                               logger (warning_desktop_file (channel_id self) error)) w)))
  = dict_get q (files w).
Proof.
  intro Hq. pose proof (write_desktop_file_other_files E self icon_name w q Hq) as H.
  unfold try_except.
  destruct (write_desktop_file E self icon_name w) as [[[]|e] w']; exact H.
Qed.

(** The log after the desktop file step of [save]: the log before it,
    followed by a warning exactly when [write_desktop_file] raised. *)
Lemma try_write_desktop_file_log (E : environment) (self : ChannelLauncher)
  (icon_name : option string) (w : world) :
  log (snd (try_except (write_desktop_file E self icon_name) isinstance_Exception
              (fun error => logger (warning_desktop_file (channel_id self) error)) w))
  = (log w ++ match fst (write_desktop_file E self icon_name w) with
              | Ok _ => []
              | Raise error => [warning_desktop_file (channel_id self) error]
              end)%list.
Proof.
  destruct (silent_write_desktop_file E self icon_name w) as (evs & Hlog & Hnone).
  assert (evs = []) as -> by (destruct evs; [reflexivity|discriminate]).
  rewrite app_nil_r in Hlog. unfold try_except.
  destruct (write_desktop_file E self icon_name w) as [[[]|e] w2]; cbn [fst snd] in *.
  - now rewrite app_nil_r.
  - cbn [isinstance_Exception logger snd log]. now rewrite Hlog.
Qed.

(** [write_desktop_file], from the state it starts in: it writes the text
    of the entry when the values are accepted and the path opens. *)
Lemma write_desktop_file_writes (E : environment) (c : ChannelMetadata.t)
  (icon_name : option string) (w : world) :
  let self := ChannelLauncher_FromDatabase c in
  mem (desktop_file_path E self) (unwritable w) = false ->
  forallb before_set (map snd (desktop_entry c icon_name)) = true ->
  write_desktop_file E self icon_name w
  = (Ok tt,
     set_files (fs_write (desktop_file_path E self) (entry_text c icon_name)
                  (fs_write (desktop_file_path E self) EmptyString (files w))) w).
Proof.
  intros self Hmem Hvalid. subst self.
  rewrite write_desktop_file_closed_form, Hvalid, open_then_write, Hmem. reflexivity.
Qed.

(** What [write_channel_icon] leaves alone, however it ends: the log, the
    records, the paths that open, and every file but the icon file. *)
Lemma write_channel_icon_frame (E : environment) (c : ChannelMetadata.t) (w w1 : world)
  (r : result (option string)) :
  write_channel_icon E (ChannelLauncher_FromDatabase c) w = (r, w1) ->
  log w1 = log w /\ unwritable w1 = unwritable w /\ database w1 = database w
  /\ forall q, q <> get_icon_file_path E (LAUNCHER_PREFIX ++ ChannelMetadata.id c ++ ".png") ->
               dict_get q (files w1) = dict_get q (files w).
Proof.
  unfold write_channel_icon. cbv zeta. cbn [channel_id format_str].
  change (get_icon_file_path E
            ((LAUNCHER_PREFIX ++ ChannelMetadata.id c) ++ file_extension))
    with (get_icon_file_path E (LAUNCHER_PREFIX ++ ChannelMetadata.id c ++ ".png")).
  set (icon_file_path := get_icon_file_path E _).
  assert (Hsame : forall r', (r', w) = (r, w1) ->
             log w1 = log w /\ unwritable w1 = unwritable w /\ database w1 = database w
             /\ forall q, q <> icon_file_path ->
                          dict_get q (files w1) = dict_get q (files w)).
  { intros r' H. injection H as _ <-.
    split; [reflexivity|split; [reflexivity|split; [reflexivity|intros; reflexivity]]]. }
  unfold bind at 1. unfold lift at 1.
  destruct (channel_icon c) as [[icon|]|e]; [|apply Hsame|apply Hsame].
  unfold ensure_dir. unfold bind at 1. unfold ret at 1.
  unfold bind at 1. unfold open_w.
  destruct (mem icon_file_path (unwritable w)); [apply Hsame|].
  unfold bind at 1. unfold lift.
  assert (Hother : forall data q, q <> icon_file_path ->
             dict_get q (fs_write icon_file_path data (files w)) = dict_get q (files w)).
  { intros data q Hq. rewrite dict_get_fs_write.
    destruct (String.eqb_spec icon_file_path q) as [Heq|_]; [now symmetry in Heq|].
    reflexivity. }
  destruct (ChannelIcon_write E icon) as [data|e].
  - unfold bind, file_write, ret. intro H. injection H as _ <-.
    unfold set_files. cbn [log unwritable database files].
    split; [reflexivity|]. split; [reflexivity|]. split; [reflexivity|].
    intros q Hq. rewrite dict_get_fs_write.
    destruct (String.eqb_spec icon_file_path q) as [Heq|_]; [now symmetry in Heq|].
    now apply Hother.
  - intro H. injection H as _ <-.
    unfold set_files. cbn [log unwritable database files].
    split; [reflexivity|]. split; [reflexivity|]. split; [reflexivity|].
    intros q Hq. now apply Hother.
Qed.

(** C5.  For a thumbnail text that the data URI pattern does not match (a
    text without the leading data: or without the marker ;base64, does
    not), [ChannelIcon] raises [ValueError] and [write_channel_icon]
    returns [None] without touching a file.  [save] returns, and when the
    values of the record are accepted by configparser and the desktop file
    path opens, it has written the desktop file: the nine lines of the
    entry and no Icon line.  Nothing is logged and no other file changes. *)
Theorem invalid_thumbnail_skips_icon (E : environment) (c : ChannelMetadata.t)
  (thumbnail : string) (w : world) :
  ChannelMetadata.thumbnail c = Some thumbnail ->
  DATA_URI_PATTERN_match thumbnail = None ->
  let self := ChannelLauncher_FromDatabase c in
  ChannelIcon_init (Some thumbnail) = Raise ValueError
  /\ write_channel_icon E self w = (Ok None, w)
  /\ fst (save E self w) = Ok tt
  /\ (mem (desktop_file_path E self) (unwritable w) = false ->
      forallb before_set (map snd (desktop_entry c None)) = true ->
      exists w',
        save E self w = (Ok tt, w')
        /\ log w' = log w
        /\ dict_get (desktop_file_path E self) (files w')
           = Some ("[Desktop Entry]" ++ nl
                   ++ "Version=1.0" ++ nl
                   ++ "Type=Application" ++ nl
                   ++ "Name=" ++ indent_newlines (ChannelMetadata.name c) ++ nl
                   ++ "Comment="
                   ++ indent_newlines (or_empty (ChannelMetadata.tagline c)) ++ nl
                   ++ "Exec="
                   ++ indent_newlines
                        ("flatpak run org.learningequality.Kolibri --channel-id "
                         ++ ChannelMetadata.id c) ++ nl
                   ++ "X-Endless-LaunchMaximized=True" ++ nl
                   ++ "X-Kolibri-Channel-Id="
                   ++ indent_newlines (ChannelMetadata.id c) ++ nl
                   ++ "X-Kolibri-Channel-Version="
                   ++ indent_newlines (ChannelMetadata.version c ++ "~5") ++ nl
                   ++ "Categories=Education;X-Kolibri-Channel;" ++ nl
                   ++ nl)
        /\ forall q, q <> desktop_file_path E self ->
                     dict_get q (files w') = dict_get q (files w)).
Proof.
  intros Hthumb Hmatch self.
  assert (Hinit : ChannelIcon_init (Some thumbnail) = Raise ValueError).
  { unfold ChannelIcon_init. now rewrite Hmatch. }
  assert (Hicon : write_channel_icon E self w = (Ok None, w)).
  { subst self. simpl. unfold bind, lift, channel_icon. now rewrite Hthumb, Hinit. }
  pose proof (save_after_icon E self w w None Hicon) as Hsave.
  split; [exact Hinit|]. split; [exact Hicon|]. split.
  - rewrite Hsave. apply try_write_desktop_file_returns.
  - intros Hmem Hvalid.
    pose proof (write_desktop_file_writes E c None w Hmem Hvalid) as Hwrite.
    fold self in Hwrite. unfold try_except in Hsave. rewrite Hwrite in Hsave.
    eexists. split; [exact Hsave|]. unfold set_files. cbn [log files].
    split; [reflexivity|]. split.
    + rewrite dict_get_fs_write, String.eqb_refl.
      now rewrite (entry_text_lines c None).
    + intros q Hq. rewrite !dict_get_fs_write.
      destruct (String.eqb_spec (desktop_file_path E self) q) as [Heq|_];
        [now symmetry in Heq|reflexivity].
Qed.

Lemma invalid_thumbnail_skips_icon_witness :
  let c := example_channel "c" "3" "Maths" (Some "image/png;base64,AAAA") in
  let w := example_world [c]
             [("/share/icons/hicolor/256x256/apps/org.learningequality.Kolibri.Channel.c.png",
               "PNG old")] in
  let self := ChannelLauncher_FromDatabase c in
  write_channel_icon example_environment self w = (Ok None, w)
  /\ exists w',
       save example_environment self w = (Ok tt, w')
       /\ log w' = log w
       /\ dict_get (desktop_file_path example_environment self) (files w')
          = Some ("[Desktop Entry]" ++ nl
                  ++ "Version=1.0" ++ nl
                  ++ "Type=Application" ++ nl
                  ++ "Name=" ++ indent_newlines (ChannelMetadata.name c) ++ nl
                  ++ "Comment="
                  ++ indent_newlines (or_empty (ChannelMetadata.tagline c)) ++ nl
                  ++ "Exec="
                  ++ indent_newlines
                       ("flatpak run org.learningequality.Kolibri --channel-id "
                        ++ ChannelMetadata.id c) ++ nl
                  ++ "X-Endless-LaunchMaximized=True" ++ nl
                  ++ "X-Kolibri-Channel-Id="
                  ++ indent_newlines (ChannelMetadata.id c) ++ nl
                  ++ "X-Kolibri-Channel-Version="
                  ++ indent_newlines (ChannelMetadata.version c ++ "~5") ++ nl
                  ++ "Categories=Education;X-Kolibri-Channel;" ++ nl
                  ++ nl)
       /\ forall q, q <> desktop_file_path example_environment self ->
                    dict_get q (files w') = dict_get q (files w).
Proof.
  intros c w self.
  destruct (invalid_thumbnail_skips_icon example_environment c "image/png;base64,AAAA" w)
    as (_ & Hicon & _ & Hsave); [reflexivity|reflexivity|].
  split; [exact Hicon|]. apply Hsave; reflexivity.
Defined.

(** C6.  [save] never raises, whatever the launcher and the world.  When
    [write_channel_icon] raises, a warning with the channel id and the
    error is in the log after [save], and [write_desktop_file] is called
    with no icon name: when the values of the record are accepted and the
    desktop file path opens, the desktop file is written, with its nine
    lines and no Icon line.  When [write_desktop_file] raises, [save]
    returns and a warning with the channel id and the error is in the log.
    So a sequence of creations and updates runs to its end. *)
Theorem save_never_raises :
  (forall (E : environment) (self : ChannelLauncher) (w : world),
      fst (save E self w) = Ok tt)
  /\ (forall (E : environment) (self : ChannelLauncher) (w w1 : world) (error : exn),
         write_channel_icon E self w = (Raise error, w1) ->
         In (warning_icon_file (channel_id self) error) (log (snd (save E self w)))
         /\ save E self w
            = try_except (write_desktop_file E self None) isinstance_Exception
                (fun error => logger (warning_desktop_file (channel_id self) error))
                (snd (logger (warning_icon_file (channel_id self) error) w1))
         /\ exists c,
              self = ChannelLauncher_FromDatabase c
              /\ (mem (desktop_file_path E self) (unwritable w) = false ->
                  forallb before_set (map snd (desktop_entry c None)) = true ->
                  dict_get (desktop_file_path E self) (files (snd (save E self w)))
                  = Some ("[Desktop Entry]" ++ nl
                          ++ "Version=1.0" ++ nl
                          ++ "Type=Application" ++ nl
                          ++ "Name=" ++ indent_newlines (ChannelMetadata.name c) ++ nl
                          ++ "Comment="
                          ++ indent_newlines (or_empty (ChannelMetadata.tagline c)) ++ nl
                          ++ "Exec="
                          ++ indent_newlines
                               ("flatpak run org.learningequality.Kolibri --channel-id "
                                ++ ChannelMetadata.id c) ++ nl
                          ++ "X-Endless-LaunchMaximized=True" ++ nl
                          ++ "X-Kolibri-Channel-Id="
                          ++ indent_newlines (ChannelMetadata.id c) ++ nl
                          ++ "X-Kolibri-Channel-Version="
                          ++ indent_newlines (ChannelMetadata.version c ++ "~5") ++ nl
                          ++ "Categories=Education;X-Kolibri-Channel;" ++ nl
                          ++ nl)))
  /\ (forall (E : environment) (self : ChannelLauncher) (w w1 w2 : world)
             (icon_name : option string) (error : exn),
         write_channel_icon E self w = (Ok icon_name, w1) ->
         write_desktop_file E self icon_name w1 = (Raise error, w2) ->
         fst (save E self w) = Ok tt
         /\ In (warning_desktop_file (channel_id self) error) (log (snd (save E self w))))
  /\ (forall (E : environment) (launchers : list ChannelLauncher) (w : world),
         fst (perform_all E (map Update launchers) w) = Ok tt
         /\ fst (perform_all E (map Create launchers) w) = Ok tt).
Proof.
  assert (Hsave : forall E self w, fst (save E self w) = Ok tt).
  { intros E self w. unfold save. unfold bind.
    destruct (try_except (write_channel_icon E self) _ _ w) as [[icon_name|e] w1] eqn:Hicon.
    - apply try_write_desktop_file_returns.
    - exfalso. unfold try_except, isinstance_Exception in Hicon.
      destruct (write_channel_icon E self w) as [[n|e'] w']; [discriminate|].
      unfold bind, logger, ret in Hicon. discriminate. }
  split; [exact Hsave|]. split; [|split].
  - intros E self w w1 error H.
    pose proof (save_after_icon_error E self w w1 error H) as Heq.
    split; [|split; [exact Heq|]].
    + rewrite Heq, try_write_desktop_file_log. apply in_or_app. left.
      cbn [logger snd log]. apply in_or_app. right. now left.
    + destruct self as [c|path data]; [|discriminate].
      exists c. split; [reflexivity|]. intros Hmem Hvalid.
      destruct (write_channel_icon_frame E c w w1 _ H) as (_ & Hu & _ & _).
      rewrite Heq. unfold try_except.
      rewrite (write_desktop_file_writes E c None); [|cbn [logger snd unwritable];
                                                      now rewrite Hu|exact Hvalid].
      unfold set_files. cbn [snd files].
      rewrite dict_get_fs_write, String.eqb_refl.
      now rewrite (entry_text_lines c None).
  - intros E self w w1 w2 icon_name error H1 H2.
    split; [apply Hsave|].
    rewrite (save_after_icon E self w w1 icon_name H1), try_write_desktop_file_log.
    rewrite H2. cbn [fst]. apply in_or_app. right. now left.
  - assert (Hperform : forall E ev l w, fst ((logger ev ;;; save E l) w) = Ok tt).
    { intros E ev l w. unfold bind, logger. apply Hsave. }
    intros E launchers. induction launchers as [|l rest IH]; intro w; [now split|].
    simpl. unfold bind at 1 3. split.
    + pose proof (Hperform E (info_Updating (desktop_file_name l)) l w) as Hl.
      destruct ((logger (info_Updating (desktop_file_name l)) ;;; save E l) w)
        as [[[]|e] w1]; [|discriminate]. apply IH.
    + pose proof (Hperform E (info_Creating (desktop_file_name l)) l w) as Hl.
      destruct ((logger (info_Creating (desktop_file_name l)) ;;; save E l) w)
        as [[[]|e] w1]; [|discriminate]. apply IH.
Qed.

Lemma save_never_raises_witness :
  let icon_fails := example_channel "c" "3" "Maths" (Some "data:image/png;base64,") in
  let entry_fails := example_channel "d" "3" "100% Maths" (Some "no icon") in
  let w := example_world [icon_fails; entry_fails] [] in
  let c := ChannelLauncher_FromDatabase icon_fails in
  let d := ChannelLauncher_FromDatabase entry_fails in
  (In (warning_icon_file (channel_id c) ImageError)
      (log (snd (save example_environment c w)))
   /\ dict_get (desktop_file_path example_environment c)
        (files (snd (save example_environment c w)))
      = Some ("[Desktop Entry]" ++ nl
              ++ "Version=1.0" ++ nl
              ++ "Type=Application" ++ nl
              ++ "Name=" ++ indent_newlines (ChannelMetadata.name icon_fails) ++ nl
              ++ "Comment="
              ++ indent_newlines (or_empty (ChannelMetadata.tagline icon_fails)) ++ nl
              ++ "Exec="
              ++ indent_newlines
                   ("flatpak run org.learningequality.Kolibri --channel-id "
                    ++ ChannelMetadata.id icon_fails) ++ nl
              ++ "X-Endless-LaunchMaximized=True" ++ nl
              ++ "X-Kolibri-Channel-Id="
              ++ indent_newlines (ChannelMetadata.id icon_fails) ++ nl
              ++ "X-Kolibri-Channel-Version="
              ++ indent_newlines (ChannelMetadata.version icon_fails ++ "~5") ++ nl
              ++ "Categories=Education;X-Kolibri-Channel;" ++ nl
              ++ nl))
  /\ fst (save example_environment d w) = Ok tt
  /\ In (warning_desktop_file (channel_id d) ValueError)
        (log (snd (save example_environment d w))).
Proof.
  intros icon_fails entry_fails w c d.
  destruct save_never_raises as (_ & Hicon & Hentry & _).
  split.
  - destruct (Hicon example_environment c w
                (snd (write_channel_icon example_environment c w)) ImageError)
      as (Hlog & _ & c' & Hc' & Hfile); [vm_compute; reflexivity|].
    split; [exact Hlog|].
    injection Hc' as Hc'. subst c'. apply Hfile; reflexivity.
  - apply (Hentry example_environment d w
             (snd (write_channel_icon example_environment d w))
             (snd (write_desktop_file example_environment d None
                     (snd (write_channel_icon example_environment d w))))
             None ValueError);
      vm_compute; reflexivity.
Defined.

Lemma write_channel_icon_name (E : environment) (c : ChannelMetadata.t) (w w1 : world)
  (icon_name : string) :
  write_channel_icon E (ChannelLauncher_FromDatabase c) w = (Ok (Some icon_name), w1) ->
  icon_name = LAUNCHER_PREFIX ++ ChannelMetadata.id c
  /\ exists icon data,
       channel_icon c = Ok (Some icon)
       /\ ChannelIcon_write E icon = Ok data
       /\ dict_get (get_icon_file_path E (LAUNCHER_PREFIX ++ ChannelMetadata.id c ++ ".png"))
            (files w1) = Some data.
Proof.
  unfold write_channel_icon. cbv zeta. cbn [channel_id format_str].
  change (get_icon_file_path E
            ((LAUNCHER_PREFIX ++ ChannelMetadata.id c) ++ file_extension))
    with (get_icon_file_path E (LAUNCHER_PREFIX ++ ChannelMetadata.id c ++ ".png")).
  set (icon_file_path := get_icon_file_path E _).
  unfold bind at 1. unfold lift at 1.
  destruct (channel_icon c) as [[icon|]|e]; [|discriminate|discriminate].
  unfold ensure_dir. unfold bind at 1. unfold ret at 1.
  unfold bind at 1. unfold open_w.
  destruct (mem icon_file_path (unwritable w)); [discriminate|].
  unfold bind at 1. unfold lift.
  destruct (ChannelIcon_write E icon) as [data|e] eqn:Hdata; [|discriminate].
  unfold bind, file_write, ret. intro H. injection H as <- <-.
  split; [reflexivity|]. exists icon, data.
  split; [reflexivity|]. split; [exact Hdata|].
  unfold set_files. cbn [files]. now rewrite dict_get_fs_write, String.eqb_refl.
Qed.

(** C10.  When [write_channel_icon] returns an icon name, the name is the
    prefix followed by the channel id, without extension, and the bytes of
    the icon are in the file at the icon path of that name followed by
    .png.  When moreover the values of the record are accepted and the
    desktop file path opens, [save] has written the desktop file with the
    line Icon= followed by the bare name, beside the icon file.  The name
    differs from the name of the icon file. *)
Theorem icon_name_has_no_extension (E : environment) (self : ChannelLauncher)
  (icon_name : string) (w w1 : world) :
  write_channel_icon E self w = (Ok (Some icon_name), w1) ->
  icon_name = LAUNCHER_PREFIX ++ format_str (channel_id self)
  /\ icon_name <> icon_name ++ file_extension
  /\ exists c icon data,
       self = ChannelLauncher_FromDatabase c
       /\ channel_icon c = Ok (Some icon)
       /\ ChannelIcon_write E icon = Ok data
       /\ dict_get (get_icon_file_path E (icon_name ++ ".png")) (files w1) = Some data
       /\ (mem (desktop_file_path E self) (unwritable w) = false ->
           forallb before_set (map snd (desktop_entry c (Some icon_name))) = true ->
           exists w2,
             save E self w = (Ok tt, w2)
             /\ dict_get (desktop_file_path E self) (files w2)
                = Some ("[Desktop Entry]" ++ nl
                        ++ "Version=1.0" ++ nl
                        ++ "Type=Application" ++ nl
                        ++ "Name=" ++ indent_newlines (ChannelMetadata.name c) ++ nl
                        ++ "Comment="
                        ++ indent_newlines (or_empty (ChannelMetadata.tagline c)) ++ nl
                        ++ "Exec="
                        ++ indent_newlines
                             ("flatpak run org.learningequality.Kolibri --channel-id "
                              ++ ChannelMetadata.id c) ++ nl
                        ++ "X-Endless-LaunchMaximized=True" ++ nl
                        ++ "X-Kolibri-Channel-Id="
                        ++ indent_newlines (ChannelMetadata.id c) ++ nl
                        ++ "X-Kolibri-Channel-Version="
                        ++ indent_newlines (ChannelMetadata.version c ++ "~5") ++ nl
                        ++ "Categories=Education;X-Kolibri-Channel;" ++ nl
                        ++ "Icon=" ++ indent_newlines icon_name ++ nl
                        ++ nl)
             /\ dict_get (get_icon_file_path E (icon_name ++ ".png")) (files w2)
                = Some data).
Proof.
  intro H.
  destruct self as [c|path data]; [|discriminate].
  pose proof (save_after_icon E _ w w1 _ H) as Hsave.
  destruct (write_channel_icon_frame E c w w1 _ H) as (_ & Hu & _ & _).
  destruct (write_channel_icon_name E c w w1 icon_name H)
    as (Hname & icon & data & Hicon & Hdata & Hfile0).
  assert (Hfile : dict_get (get_icon_file_path E (icon_name ++ ".png")) (files w1)
                  = Some data).
  { rewrite Hname. exact Hfile0. }
  split; [exact Hname|]. split; [apply append_neq_self; discriminate|].
  exists c, icon, data.
  split; [reflexivity|]. split; [exact Hicon|]. split; [exact Hdata|].
  split; [exact Hfile|].
  intros Hmem Hvalid.
  unfold try_except in Hsave.
  rewrite (write_desktop_file_writes E c (Some icon_name)) in Hsave;
    [|now rewrite Hu|exact Hvalid].
  eexists. split; [exact Hsave|]. unfold set_files. cbn [files]. split.
  - rewrite dict_get_fs_write, String.eqb_refl.
    rewrite (entry_text_lines c (Some icon_name)), Hname.
    change (nonempty (Some (LAUNCHER_PREFIX ++ ChannelMetadata.id c))) with true.
    cbn [format_str]. repeat rewrite append_assoc. reflexivity.
  - rewrite !dict_get_fs_write.
    destruct (String.eqb_spec (desktop_file_path E (ChannelLauncher_FromDatabase c))
                (get_icon_file_path E (icon_name ++ ".png"))) as [Heq|_];
      [|exact Hfile].
    exfalso. apply (icon_path_is_not_desktop_path E c c).
    rewrite Heq, Hname. reflexivity.
Qed.

Lemma icon_name_has_no_extension_witness :
  let c := example_channel "c" "3" "Maths" (Some "data:image/png;base64,AAAA") in
  let self := ChannelLauncher_FromDatabase c in
  let w := example_world [c] [] in
  let icon_name := "org.learningequality.Kolibri.Channel.c" in
  icon_name <> icon_name ++ file_extension
  /\ exists w2,
       save example_environment self w = (Ok tt, w2)
       /\ dict_get (desktop_file_path example_environment self) (files w2)
          = Some ("[Desktop Entry]" ++ nl
                  ++ "Version=1.0" ++ nl
                  ++ "Type=Application" ++ nl
                  ++ "Name=" ++ indent_newlines (ChannelMetadata.name c) ++ nl
                  ++ "Comment="
                  ++ indent_newlines (or_empty (ChannelMetadata.tagline c)) ++ nl
                  ++ "Exec="
                  ++ indent_newlines
                       ("flatpak run org.learningequality.Kolibri --channel-id "
                        ++ ChannelMetadata.id c) ++ nl
                  ++ "X-Endless-LaunchMaximized=True" ++ nl
                  ++ "X-Kolibri-Channel-Id="
                  ++ indent_newlines (ChannelMetadata.id c) ++ nl
                  ++ "X-Kolibri-Channel-Version="
                  ++ indent_newlines (ChannelMetadata.version c ++ "~5") ++ nl
                  ++ "Categories=Education;X-Kolibri-Channel;" ++ nl
                  ++ "Icon=" ++ indent_newlines icon_name ++ nl
                  ++ nl)
       /\ dict_get (get_icon_file_path example_environment (icon_name ++ ".png"))
            (files w2)
          = Some "PNG AAAA".
Proof.
  intros c self w icon_name.
  destruct (icon_name_has_no_extension example_environment self icon_name w
              (snd (write_channel_icon example_environment self w)))
    as (_ & Hne & c' & icon & data & Hc' & Hci & Hdata & _ & Hsave);
    [vm_compute; reflexivity|].
  split; [exact Hne|].
  injection Hc' as Hc'. subst c'.
  destruct Hsave as (w2 & Hsave & Hentry & Hicon); [reflexivity|reflexivity|].
  exists w2. split; [exact Hsave|]. split; [exact Hentry|].
  vm_compute in Hci. injection Hci as <-.
  vm_compute in Hdata. injection Hdata as <-.
  exact Hicon.
Defined.

(** * The flag of a pass and the actions it stands for *)

Lemma for_launchers_from_db_actions (E : environment) (force : bool)
  (disk db : list ChannelLauncher) (did b : bool) (w w' : world) :
  for_launchers_from_db E force disk db did w = (Ok b, w') ->
  perform_all E (flat_map (loop_action force disk) db) w = (Ok tt, w')
  /\ b = did || negb (is_nil (flat_map (loop_action force disk) db)).
Proof.
  revert did w. induction db as [|s rest IH]; intros did w H.
  - injection H as <- <-. split; [reflexivity|]. cbn. now rewrite orb_false_r.
  - cbn [for_launchers_from_db flat_map] in *.
    assert (Hsaved : forall ev a,
               perform E a = (logger ev ;;; save E s) ->
               (logger ev ;;; save E s ;;;
                for_launchers_from_db E force disk rest true) w = (Ok b, w') ->
               perform_all E ([a] ++ flat_map (loop_action force disk) rest) w
               = (Ok tt, w')
               /\ b = did || negb (is_nil ([a] ++ flat_map (loop_action force disk) rest))).
    { intros ev a Ha Hrun. cbn [app perform_all is_nil negb]. rewrite Ha, orb_true_r.
      rewrite (bind_assoc _ _ _ w). unfold bind at 1. unfold bind at 1 in Hrun.
      destruct (logger ev w) as [[[]|e] w1]; [|discriminate Hrun].
      unfold bind at 1. unfold bind at 1 in Hrun.
      destruct (save E s w1) as [[[]|e] w2]; [|discriminate Hrun].
      destruct (IH true w2 Hrun) as (Hrest & ->). split; [exact Hrest|reflexivity]. }
    unfold loop_action at 1 3.
    destruct (negb (any_is_same_channel s disk)).
    + apply (Hsaved (info_Creating (desktop_file_name s)) (Create s) eq_refl H).
    + unfold bind at 1 in H.
      assert (Hout : (if force then ret true else lift (any_compare s disk)) w
                     = ((if force then Ok true else any_compare s disk), w)).
      { destruct force; reflexivity. }
      rewrite Hout in H.
      destruct (if force then Ok true else any_compare s disk) as [[|]|e];
        [|cbn [app]; now apply IH|discriminate H].
      apply (Hsaved (info_Updating (desktop_file_name s)) (Update s) eq_refl H).
Qed.

Lemma reconcile_actions (E : environment) (force : bool)
  (db disk : list ChannelLauncher) (w w' : world) (did : bool) :
  reconcile E force db disk w = (Ok did, w') ->
  perform_all E (pass_actions force db disk) w = (Ok tt, w')
  /\ did = negb (is_nil (pass_actions force db disk)).
Proof.
  unfold reconcile, pass_actions. intro H.
  unfold bind at 1 in H. rewrite for_launchers_from_disk_plan in H.
  cbv zeta in H. unfold any_is_same_channel.
  set (stale := filter (fun d => negb (existsb (is_same_channel d) db)) disk) in *.
  unfold bind at 1 in H.
  destruct (perform_all E (map Delete stale) w) as [[[]|e] w1] eqn:Hfirst;
    [|discriminate H].
  cbn [ret orb] in H.
  apply for_launchers_from_db_actions in H as (Hsecond & ->).
  split.
  - rewrite perform_all_app. now rewrite (bind_ok _ _ _ _ _ Hfirst).
  - destruct stale as [|d stale']; cbn [map app is_nil negb orb]; reflexivity.
Qed.

(** The icon cache block, when it returns: the command was called, and it
    either started, which is logged as the call, or failed with an
    [OSError], which is logged. *)
Lemma update_icon_cache_runs (E : environment) (w w' : world) :
  update_icon_cache E w = (Ok tt, w') ->
  exists params,
    (subprocess_run E ("gtk-update-icon-cache" :: params) = Ok tt
     /\ log w' = (log w ++ [subprocess ("gtk-update-icon-cache" :: params)])%list)
    \/ (exists e, subprocess_run E ("gtk-update-icon-cache" :: params) = Raise e
                  /\ log w' = (log w ++ [info_icon_cache e])%list).
Proof.
  unfold update_icon_cache.
  destruct (copy_theme_index_returns E w) as (params & w1 & Hcopy & Hlog).
  rewrite (bind_ok _ _ _ _ _ Hcopy).
  unfold try_except, bind, lift. intro H. exists params.
  destruct (subprocess_run E ("gtk-update-icon-cache" :: params)) as [[]|e].
  - cbn [logger] in H. injection H as <-. left. cbn [log]. now rewrite Hlog.
  - destruct (isinstance_OSError e); [|discriminate H].
    cbn [logger] in H. injection H as <-. right. exists e. cbn [log].
    now rewrite Hlog.
Qed.

(** C3 (as amended).  [update_channel_launchers] returns [None] whenever it
    returns.  The flag [did_icons_change] that its loops compute is true
    exactly when the loops acted on a launcher: the state after them is
    the state after logging and calling [delete] for each launcher on disk
    without a launcher of the database of its channel, then logging and
    calling [save] for each launcher of the database that has no launcher
    on disk of its channel, or has one while the update is forced or a
    comparison is true; the flag says whether there was any such call.
    The icon-cache command is called exactly in that case: when there was
    no such call nothing has changed at all, and otherwise the command was
    called after the last of them and either started or failed with an
    error that is logged. *)
Theorem did_icons_change_iff_change :
  (forall (E : environment) (force : bool)
          (launchers_from_db launchers_from_disk : list ChannelLauncher)
          (w w' : world) (did_icons_change : bool),
      reconcile E force launchers_from_db launchers_from_disk w
      = (Ok did_icons_change, w') ->
      perform_all E (pass_actions force launchers_from_db launchers_from_disk) w
      = (Ok tt, w')
      /\ did_icons_change
         = negb (is_nil (pass_actions force launchers_from_db launchers_from_disk))
      /\ exists evs, log w' = (log w ++ evs)%list
                     /\ did_icons_change = existsb is_change evs)
  /\ (forall (E : environment) (force : bool) (w w' : world) (r : pyval),
         update_channel_launchers E force w = (Ok r, w') ->
         let actions :=
           pass_actions force
             (map ChannelLauncher_FromDatabase
                (filter ChannelMetadata.root_available (database w)))
             (disk_launchers E w) in
         r = PyNone
         /\ (exists w1,
                perform_all E actions w = (Ok tt, w1)
                /\ (actions = [] -> w1 = w /\ w' = w)
                /\ (actions <> [] ->
                    update_icon_cache E w1 = (Ok tt, w')
                    /\ exists params,
                         (subprocess_run E ("gtk-update-icon-cache" :: params) = Ok tt
                          /\ log w'
                             = (log w1
                                ++ [subprocess ("gtk-update-icon-cache" :: params)])%list)
                         \/ (exists e,
                                subprocess_run E ("gtk-update-icon-cache" :: params)
                                = Raise e
                                /\ log w' = (log w1 ++ [info_icon_cache e])%list)))
         /\ exists evs, log w' = (log w ++ evs)%list
                        /\ existsb is_change evs = negb (is_nil actions)
                        /\ existsb is_icon_cache_update evs = negb (is_nil actions)).
Proof.
  split.
  - intros E force db disk w w' did H.
    destruct (reconcile_actions E force db disk w w' did H) as (Hrun & Hdid).
    split; [exact Hrun|]. split; [exact Hdid|].
    destruct (reconcile_tracks E force db disk w) as (evs & Hlog & _ & Hb).
    rewrite H in Hlog, Hb. cbn [fst snd] in Hlog, Hb.
    exists evs. split; [exact Hlog|]. exact (Hb did eq_refl).
  - intros E force w w' r H actions.
    unfold update_channel_launchers in H.
    unfold bind at 1 in H. unfold FromDatabase_load_all at 1 in H.
    unfold bind at 1 in H.
    destruct (FromDisk_load_all E w) as [[disk|e] w0] eqn:Hload; [|discriminate H].
    apply FromDisk_load_all_inv in Hload as (-> & _ & ->).
    fold (disk_launchers E w) in H.
    set (db := map ChannelLauncher_FromDatabase
                 (filter ChannelMetadata.root_available (database w))) in *.
    unfold bind at 1 in H.
    destruct (reconcile E force db (disk_launchers E w) w) as [[did|e] w1] eqn:Hrec;
      [|discriminate H].
    destruct (reconcile_actions E force db _ w w1 did Hrec) as (Hrun & Hdid).
    fold actions in Hrun, Hdid.
    destruct (reconcile_tracks E force db (disk_launchers E w) w)
      as (evs1 & Hlog1 & Hc1 & Hb1).
    rewrite Hrec in Hlog1, Hb1. cbn [fst snd] in Hlog1, Hb1.
    specialize (Hb1 did eq_refl). cbn [orb] in Hb1.
    unfold bind in H.
    destruct did.
    + destruct (update_icon_cache E w1) as [[[]|e] w2] eqn:Hcache; [|discriminate H].
      injection H as <- <-. split; [reflexivity|]. split.
      * exists w1. split; [exact Hrun|]. split.
        -- intro Hnil. rewrite Hnil in Hdid. discriminate Hdid.
        -- intros _. split; [exact Hcache|]. now apply update_icon_cache_runs.
      * destruct (update_icon_cache_events E w1) as (evs2 & Hlog2 & Hc2 & Hr2).
        rewrite Hcache in Hlog2, Hr2. cbn [fst snd] in Hlog2, Hr2.
        exists (evs1 ++ evs2)%list.
        rewrite Hlog2, Hlog1, app_assoc. split; [reflexivity|].
        rewrite !existsb_app, Hc1, Hc2, <- Hb1, (Hr2 eq_refl), <- Hdid. now split.
    + injection H as <- <-. split; [reflexivity|].
      assert (Hnil : actions = []).
      { destruct actions; [reflexivity|discriminate Hdid]. }
      split.
      * exists w1. split; [exact Hrun|]. split.
        -- intros _. rewrite Hnil in Hrun. injection Hrun as <-. now split.
        -- intro Hne. now destruct Hne.
      * exists evs1. split; [exact Hlog1|]. rewrite <- Hb1, Hc1, <- Hdid. now split.
Qed.

Lemma did_icons_change_iff_change_witness :
  let w := example_world [example_channel "c" "3" "Maths" None]
             [("/share/applications/old.desktop", example_desktop_text "gone" "1~5")] in
  let w' := snd (update_channel_launchers example_environment false w) in
  let actions :=
    pass_actions false
      (map ChannelLauncher_FromDatabase
         (filter ChannelMetadata.root_available (database w)))
      (disk_launchers example_environment w) in
  PyNone = PyNone
  /\ (exists w1,
         perform_all example_environment actions w = (Ok tt, w1)
         /\ (actions = [] -> w1 = w /\ w' = w)
         /\ (actions <> [] ->
             update_icon_cache example_environment w1 = (Ok tt, w')
             /\ exists params,
                  (subprocess_run example_environment ("gtk-update-icon-cache" :: params)
                   = Ok tt
                   /\ log w'
                      = (log w1
                         ++ [subprocess ("gtk-update-icon-cache" :: params)])%list)
                  \/ (exists e,
                         subprocess_run example_environment
                           ("gtk-update-icon-cache" :: params) = Raise e
                         /\ log w' = (log w1 ++ [info_icon_cache e])%list)))
  /\ exists evs, log w' = (log w ++ evs)%list
                 /\ existsb is_change evs = negb (is_nil actions)
                 /\ existsb is_icon_cache_update evs = negb (is_nil actions).
Proof.
  intros w w' actions.
  apply (proj2 did_icons_change_iff_change example_environment false w w' PyNone).
  vm_compute. reflexivity.
Defined.

(** * Further properties of the code *)

(** ** Identity and order of launchers *)

(** X1.  [is_same_channel] is an equivalence relation that looks at the
    channel id only: launchers of either kind, with any version, are of
    the same channel exactly when their ids are equal. *)
Theorem is_same_channel_equivalence :
  (forall a b, is_same_channel a b = true <-> channel_id a = channel_id b)
  /\ (forall a, is_same_channel a a = true)
  /\ (forall a b, is_same_channel a b = is_same_channel b a)
  /\ (forall a b c, is_same_channel a b = true -> is_same_channel b c = true ->
                    is_same_channel a c = true).
Proof.
  assert (H : forall a b, is_same_channel a b = true <-> channel_id a = channel_id b).
  { intros a b. apply option_string_eqb_eq. }
  split; [exact H|]. split; [|split].
  - intro a. now apply H.
  - intros a b. destruct (is_same_channel a b) eqn:Hab.
    + symmetry. apply H. symmetry. now apply H.
    + destruct (is_same_channel b a) eqn:Hba; [|reflexivity].
      apply H in Hba. symmetry in Hba. apply H in Hba. congruence.
  - intros a b c Hab Hbc. apply H. apply H in Hab, Hbc. congruence.
Qed.

Lemma compare_int_inv (a b : ChannelLauncher) (n : Z) :
  compare a b = Ok (PyInt n) ->
  is_same_channel a b = true
  /\ exists p q r s,
       version_components (channel_version a) = Ok (p, q)
       /\ version_components (channel_version b) = Ok (r, s)
       /\ n = int_or (p - r) (q - s).
Proof.
  unfold compare.
  destruct (is_same_channel a b); cbn [negb]; [|discriminate].
  destruct (version_components (channel_version a)) as [[p q]|e]; [|discriminate].
  destruct (version_components (channel_version b)) as [[r s]|e]; [|discriminate].
  intro H. injection H as <-. split; [reflexivity|].
  exists p, q, r, s. repeat split.
Qed.

Lemma compare_int_intro (a b : ChannelLauncher) (p q r s : Z) :
  is_same_channel a b = true ->
  version_components (channel_version a) = Ok (p, q) ->
  version_components (channel_version b) = Ok (r, s) ->
  compare a b = Ok (PyInt (int_or (p - r) (q - s))).
Proof. intros Hs Ha Hb. unfold compare. now rewrite Hs, Ha, Hb. Qed.

(** X2.  [compare] is antisymmetric: when comparing [a] with [b] returns
    the integer [n], comparing [b] with [a] returns [-n]. *)
Theorem compare_antisymmetric (a b : ChannelLauncher) (n : Z) :
  compare a b = Ok (PyInt n) -> compare b a = Ok (PyInt (- n)).
Proof.
  intro H. apply compare_int_inv in H as (Hs & p & q & r & s & Ha & Hb & ->).
  assert (Hs' : is_same_channel b a = true).
  { apply option_string_eqb_eq. symmetry. now apply option_string_eqb_eq. }
  rewrite (compare_int_intro b a r s p q Hs' Hb Ha). do 2 f_equal.
  unfold int_or. destruct (Z.eqb_spec (p - r) 0), (Z.eqb_spec (r - p) 0); lia.
Qed.

Lemma compare_antisymmetric_witness :
  compare (example_disk_launcher "b" "c" "3~6") (example_disk_launcher "a" "c" "3~5")
  = Ok (PyInt (- -1)).
Proof.
  apply (compare_antisymmetric (example_disk_launcher "a" "c" "3~5")
           (example_disk_launcher "b" "c" "3~6") (-1)).
  reflexivity.
Defined.

(** X3.  The integers [compare] returns order the launchers of a channel:
    a launcher whose version parses compares equal to itself, and when [a]
    is not above [b] and [b] is not above [c], comparing [a] with [c]
    returns an integer that says [a] is not above [c], which is zero only
    if both given integers are zero. *)
Theorem compare_preorder :
  (forall a p q, version_components (channel_version a) = Ok (p, q) ->
                 compare a a = Ok (PyInt 0))
  /\ (forall a b c n m,
         compare a b = Ok (PyInt n) -> compare b c = Ok (PyInt m) ->
         n <= 0 -> m <= 0 ->
         exists k, compare a c = Ok (PyInt k)
                   /\ k <= 0 /\ (k = 0 <-> n = 0 /\ m = 0)).
Proof.
  split.
  - intros a p q Ha.
    rewrite (compare_int_intro a a p q p q); [|now apply option_string_eqb_eq|easy|easy].
    unfold int_or. now rewrite !Z.sub_diag.
  - intros a b c n m Hab Hbc Hn Hm.
    apply compare_int_inv in Hab as (Hs1 & p & q & r & s & Ha & Hb & ->).
    apply compare_int_inv in Hbc as (Hs2 & r' & s' & t & u & Hb' & Hc & ->).
    rewrite Hb in Hb'. injection Hb' as <- <-.
    assert (Hs : is_same_channel a c = true).
    { apply option_string_eqb_eq. apply option_string_eqb_eq in Hs1, Hs2. congruence. }
    exists (int_or (p - t) (q - u)).
    split; [now apply compare_int_intro|].
    unfold int_or in *.
    destruct (Z.eqb_spec (p - r) 0), (Z.eqb_spec (r - t) 0), (Z.eqb_spec (p - t) 0); lia.
Qed.

Lemma compare_preorder_witness :
  exists k,
    compare (example_disk_launcher "a" "c" "3~5") (example_disk_launcher "c" "c" "4~1")
    = Ok (PyInt k)
    /\ k <= 0 /\ (k = 0 <-> -1 = 0 /\ -1 = 0).
Proof.
  apply (proj2 compare_preorder (example_disk_launcher "a" "c" "3~5")
           (example_disk_launcher "b" "c" "3~6") (example_disk_launcher "c" "c" "4~1")
           (-1) (-1)); [reflexivity|reflexivity|lia|lia].
Defined.

(** ** The data URI pattern *)

Lemma span_spec (f : ascii -> bool) (s a b : string) :
  span f s = (a, b) ->
  s = a ++ b /\ string_forallb f a = true /\ stops f b = true.
Proof.
  revert a b. induction s as [|c r IH]; intros a b H; simpl in H.
  - injection H as <- <-. repeat split.
  - destruct (f c) eqn:Hc.
    + destruct (span f r) as [a' b'] eqn:Hr. injection H as <- <-.
      destruct (IH a' b' eq_refl) as (-> & Ha & Hb).
      simpl. rewrite Hc, Ha. repeat split. exact Hb.
    + injection H as <- <-. simpl. now rewrite Hc.
Qed.

Lemma span_app (f : ascii -> bool) (a b : string) :
  string_forallb f a = true -> stops f b = true -> span f (a ++ b) = (a, b).
Proof.
  intros Ha Hb. induction a as [|c a IH]; simpl in *.
  - destruct b as [|c b]; [reflexivity|]. simpl in Hb.
    apply negb_true_iff in Hb. simpl. now rewrite Hb.
  - apply andb_true_iff in Ha as [Hc Ha]. now rewrite Hc, (IH Ha).
Qed.

Lemma strip_prefix_append (p r : string) : strip_prefix p (p ++ r) = Some r.
Proof. induction p as [|c p IH]; simpl; [reflexivity|]. now rewrite Ascii.eqb_refl. Qed.

(** X4.  [DATA_URI_PATTERN] matches a text exactly when the text is the
    literal data: followed by a run of mimetype characters, the literal
    ;base64, and a payload; the groups are then that run and the payload up
    to the first line feed, and whatever follows the line feed is ignored.
    A mimetype character is never dropped and the payload never holds a line
    feed. *)
Theorem DATA_URI_PATTERN_match_iff (s mimetype data_b64 : string) :
  DATA_URI_PATTERN_match s = Some (mimetype, data_b64)
  <-> exists rest,
        s = "data:" ++ mimetype ++ ";base64," ++ data_b64 ++ rest
        /\ string_forallb mimetype_char mimetype = true
        /\ string_forallb (fun c => negb (Ascii.eqb c newline)) data_b64 = true
        /\ stops (fun c => negb (Ascii.eqb c newline)) rest = true.
Proof.
  unfold DATA_URI_PATTERN_match. split.
  - destruct (strip_prefix "data:" s) as [r|] eqn:Hdata; [|discriminate].
    apply strip_prefix_Some in Hdata. subst s.
    destruct (span mimetype_char r) as [m r'] eqn:Hm.
    apply span_spec in Hm as (-> & Hm & _).
    destruct (strip_prefix ";base64," r') as [payload|] eqn:Hb64; [|discriminate].
    apply strip_prefix_Some in Hb64. subst r'.
    destruct (span (fun c => negb (Ascii.eqb c newline)) payload) as [d rest] eqn:Hd.
    apply span_spec in Hd as (-> & Hd & Hrest).
    intro H. injection H as <- <-. now exists rest.
  - intros (rest & -> & Hm & Hd & Hrest).
    rewrite strip_prefix_append.
    rewrite (span_app mimetype_char mimetype (";base64," ++ data_b64 ++ rest) Hm eq_refl).
    rewrite strip_prefix_append.
    now rewrite (span_app _ data_b64 rest Hd Hrest).
Qed.

Lemma DATA_URI_PATTERN_match_iff_witness :
  DATA_URI_PATTERN_match "data:image/png;base64,AAAA" = Some ("image/png", "AAAA").
Proof.
  apply (proj2 (DATA_URI_PATTERN_match_iff "data:image/png;base64,AAAA" "image/png" "AAAA")).
  exists EmptyString. repeat split.
Defined.

(** ** The version of a launcher from the database *)

Lemma str_split_nonempty (sep : ascii) (s : string) : str_split sep s <> [].
Proof.
  induction s as [|c r IH]; simpl; [discriminate|].
  destruct (Ascii.eqb c sep); [discriminate|].
  destruct (str_split sep r); [contradiction|discriminate].
Qed.

Lemma str_split_none (sep : ascii) (s : string) :
  contains sep s = false -> str_split sep s = [s].
Proof.
  induction s as [|c r IH]; simpl; [reflexivity|].
  intro H. apply orb_false_iff in H as [Hc Hr]. rewrite Hc, (IH Hr). reflexivity.
Qed.

Lemma str_split_length (sep : ascii) (s : string) :
  (1 <= length (str_split sep s))%nat
  /\ (length (str_split sep s) = 1%nat -> contains sep s = false).
Proof.
  induction s as [|c r [IH1 IH2]]; simpl; [split; [lia|reflexivity]|].
  destruct (Ascii.eqb c sep) eqn:Hc; simpl.
  - split; [lia|]. intro H. exfalso. lia.
  - destruct (str_split sep r) as [|h t] eqn:Hr; simpl in *; [lia|].
    split; [lia|]. intro H. apply IH2. exact H.
Qed.

Lemma str_split_app_length (sep : ascii) (x y : string) :
  length (str_split sep (x ++ String sep y))
  = (length (str_split sep x) + length (str_split sep y))%nat.
Proof.
  induction x as [|c x IH]; simpl.
  - now rewrite Ascii.eqb_refl.
  - destruct (Ascii.eqb c sep); simpl; [now rewrite IH|].
    pose proof (str_split_nonempty sep (x ++ String sep y)) as Hne.
    pose proof (str_split_nonempty sep x) as Hne'.
    destruct (str_split sep (x ++ String sep y)) as [|h t]; [contradiction|].
    destruct (str_split sep x) as [|h' t']; [contradiction|].
    simpl in *. exact IH.
Qed.

Lemma str_split_app (sep : ascii) (x y : string) :
  contains sep x = false ->
  str_split sep (x ++ String sep y) = x :: str_split sep y.
Proof.
  induction x as [|c x IH]; simpl; intro H.
  - now rewrite Ascii.eqb_refl.
  - apply orb_false_iff in H as [Hc Hx]. rewrite Hc, (IH Hx). reflexivity.
Qed.

(** X5.  The version of a launcher from the database parses exactly when
    the version of its record is the text of an integer, without a tilde;
    its second component is then [FORMAT_VERSION].  Compared with a
    launcher of the same channel whose version parses, it returns zero
    only if the first components are equal and the other launcher was
    written with [FORMAT_VERSION]: a launcher on disk of another format
    version always counts as out of date. *)
Theorem FORMAT_VERSION_is_compared (c : ChannelMetadata.t) :
  (forall a b,
      version_components (channel_version (ChannelLauncher_FromDatabase c)) = Ok (a, b)
      <-> py_int (ChannelMetadata.version c) = Some a
          /\ contains "~" (ChannelMetadata.version c) = false
          /\ b = FORMAT_VERSION)
  /\ (forall d a b f,
         is_same_channel (ChannelLauncher_FromDatabase c) d = true ->
         py_int (ChannelMetadata.version c) = Some a ->
         contains "~" (ChannelMetadata.version c) = false ->
         version_components (channel_version d) = Ok (b, f) ->
         exists n, compare (ChannelLauncher_FromDatabase c) d = Ok (PyInt n)
                   /\ (n = 0 <-> a = b /\ f = FORMAT_VERSION)).
Proof.
  assert (Hiff : forall a b,
             version_components (channel_version (ChannelLauncher_FromDatabase c))
             = Ok (a, b)
             <-> py_int (ChannelMetadata.version c) = Some a
                 /\ contains "~" (ChannelMetadata.version c) = false
                 /\ b = FORMAT_VERSION).
  { intros a b. cbn [channel_version version_components].
    change (ChannelMetadata.version c ++ "~" ++ str_int FORMAT_VERSION)
      with (ChannelMetadata.version c ++ String "~" "5").
    split.
    - intro H.
      assert (Hv : contains "~" (ChannelMetadata.version c) = false).
      { apply (str_split_length "~").
        pose proof (str_split_app_length "~" (ChannelMetadata.version c) "5") as Hlen.
        pose proof (proj1 (str_split_length "~" (ChannelMetadata.version c))) as Hone.
        destruct (str_split "~" (ChannelMetadata.version c ++ String "~" "5"))
          as [|x [|y [|z t]]]; simpl in Hlen; try lia.
        exfalso. simpl in H. destruct (py_int x), (py_int y); discriminate. }
      rewrite (str_split_app "~" _ "5" Hv) in H. cbn [map str_split] in H.
      change (py_int "5") with (Some 5) in H.
      destruct (py_int (ChannelMetadata.version c)) as [a'|]; [|discriminate].
      injection H as <- <-. now repeat split.
    - intros (Ha & Hv & ->).
      rewrite (str_split_app "~" _ "5" Hv). cbn [map str_split].
      now rewrite Ha. }
  split; [exact Hiff|].
  intros d a b f Hsame Ha Hv Hd.
  assert (Hc : version_components (channel_version (ChannelLauncher_FromDatabase c))
               = Ok (a, FORMAT_VERSION)) by now apply Hiff.
  exists (int_or (a - b) (FORMAT_VERSION - f)). split.
  - unfold compare. now rewrite Hsame, Hc, Hd.
  - unfold int_or. destruct (Z.eqb_spec (a - b) 0); lia.
Qed.

Lemma FORMAT_VERSION_is_compared_witness :
  exists n,
    compare (ChannelLauncher_FromDatabase (example_channel "c" "3" "Maths" None))
            (example_disk_launcher "/share/applications/x.desktop" "c" "3~4")
    = Ok (PyInt n)
    /\ (n = 0 <-> 3 = 3 /\ 4 = FORMAT_VERSION).
Proof.
  apply (proj2 (FORMAT_VERSION_is_compared (example_channel "c" "3" "Maths" None))
           (example_disk_launcher "/share/applications/x.desktop" "c" "3~4") 3 3 4);
    reflexivity.
Defined.

(** ** Failing icons *)

(** X6.  When the thumbnail of a record matches the pattern and the icon
    path opens, but composing the icon raises, [write_channel_icon] raises
    that error after the icon file was opened for writing: [save] returns
    all the same, and the icon file is left empty, whatever it held
    before. *)
Theorem failed_icon_is_left_empty (E : environment) (c : ChannelMetadata.t)
  (thumbnail mimetype data_b64 : string) (error : exn) (w : world) :
  let self := ChannelLauncher_FromDatabase c in
  let icon_file_path :=
    get_icon_file_path E (LAUNCHER_PREFIX ++ ChannelMetadata.id c ++ ".png") in
  ChannelMetadata.thumbnail c = Some thumbnail ->
  DATA_URI_PATTERN_match thumbnail = Some (mimetype, data_b64) ->
  mem icon_file_path (unwritable w) = false ->
  icon_image_save E mimetype data_b64 = Raise error ->
  write_channel_icon E self w
  = (Raise error, set_files (fs_write icon_file_path EmptyString (files w)) w)
  /\ fst (save E self w) = Ok tt
  /\ dict_get icon_file_path (files (snd (save E self w))) = Some EmptyString
  /\ In (warning_icon_file (Some (ChannelMetadata.id c)) error) (log (snd (save E self w))).
Proof.
  intros self icon_file_path Hthumb Hmatch Hmem Hsave.
  assert (Hicon : write_channel_icon E self w
                  = (Raise error,
                     set_files (fs_write icon_file_path EmptyString (files w)) w)).
  { subst self. unfold write_channel_icon. cbv zeta. cbn [channel_id format_str].
    change (get_icon_file_path E
              ((LAUNCHER_PREFIX ++ ChannelMetadata.id c) ++ file_extension))
      with icon_file_path.
    unfold bind at 1. unfold lift at 1, channel_icon, ChannelIcon_init.
    rewrite Hthumb, Hmatch. unfold ensure_dir. unfold bind at 1. unfold ret at 1.
    unfold bind at 1. unfold open_w. rewrite Hmem.
    unfold bind at 1. unfold lift, ChannelIcon_write. cbn [fst snd].
    now rewrite Hsave. }
  split; [exact Hicon|].
  rewrite (save_after_icon_error E self w _ error Hicon).
  split; [apply try_write_desktop_file_returns|]. split.
  - rewrite try_write_desktop_file_files.
    + unfold logger, set_files. cbn [snd files].
      now rewrite dict_get_fs_write, String.eqb_refl.
    + apply icon_path_is_not_desktop_path.
  - destruct (silent_write_desktop_file E self None
                (snd (logger (warning_icon_file (channel_id self) error)
                        (set_files (fs_write icon_file_path EmptyString (files w)) w))))
      as (evs & Hlog & Hnone).
    assert (evs = []) as -> by (destruct evs; [reflexivity|discriminate]).
    rewrite app_nil_r in Hlog. unfold try_except.
    destruct (write_desktop_file E self None _) as [[[]|e] w2]; cbn [snd] in *.
    + rewrite Hlog. cbn [logger snd log]. apply in_or_app. right. now left.
    + cbn [isinstance_Exception logger snd log]. rewrite Hlog. cbn [log].
      apply in_or_app. left. apply in_or_app. right. now left.
Qed.

Lemma failed_icon_is_left_empty_witness :
  let c := example_channel "c" "3" "Maths" (Some "data:image/png;base64,") in
  let w := example_world [c]
             [("/share/icons/hicolor/256x256/apps/org.learningequality.Kolibri.Channel.c.png",
               "PNG old")] in
  let self := ChannelLauncher_FromDatabase c in
  let icon_file_path :=
    get_icon_file_path example_environment
      (LAUNCHER_PREFIX ++ ChannelMetadata.id c ++ ".png") in
  write_channel_icon example_environment self w
  = (Raise ImageError, set_files (fs_write icon_file_path EmptyString (files w)) w)
  /\ fst (save example_environment self w) = Ok tt
  /\ dict_get icon_file_path (files (snd (save example_environment self w)))
     = Some EmptyString
  /\ In (warning_icon_file (Some (ChannelMetadata.id c)) ImageError)
        (log (snd (save example_environment self w))).
Proof.
  intros c w.
  exact (failed_icon_is_left_empty example_environment c "data:image/png;base64,"
           "image/png" EmptyString ImageError w eq_refl eq_refl eq_refl eq_refl).
Defined.

(** X7.  A record whose thumbnail is [None] does not count as a record
    without icon: matching [None] raises [TypeError], which the property
    [__channel_icon] lets through, so that [save] logs an icon warning
    with that error before it writes the desktop file without icon name.
    [save] returns, and no file other than the desktop file changes. *)
Theorem save_without_thumbnail_warns (E : environment) (c : ChannelMetadata.t)
  (w : world) :
  let self := ChannelLauncher_FromDatabase c in
  ChannelMetadata.thumbnail c = None ->
  write_channel_icon E self w = (Raise TypeError, w)
  /\ fst (save E self w) = Ok tt
  /\ In (warning_icon_file (Some (ChannelMetadata.id c)) TypeError)
        (log (snd (save E self w)))
  /\ (mem (desktop_file_path E self) (unwritable w) = false ->
      forallb before_set (map snd (desktop_entry c None)) = true ->
      dict_get (desktop_file_path E self) (files (snd (save E self w)))
      = Some (entry_text c None)
      /\ log (snd (save E self w))
         = (log w ++ [warning_icon_file (Some (ChannelMetadata.id c)) TypeError])%list)
  /\ forall q, q <> desktop_file_path E self ->
               dict_get q (files (snd (save E self w))) = dict_get q (files w).
Proof.
  intros self Hthumb.
  assert (Hicon : write_channel_icon E self w = (Raise TypeError, w)).
  { subst self. unfold write_channel_icon. cbv zeta.
    unfold bind at 1. unfold lift at 1, channel_icon, ChannelIcon_init.
    now rewrite Hthumb. }
  pose proof (save_after_icon_error E self w w TypeError Hicon) as Hsave.
  split; [exact Hicon|]. split; [|split; [|split]].
  - rewrite Hsave. apply try_write_desktop_file_returns.
  - rewrite Hsave, try_write_desktop_file_log. apply in_or_app. left.
    cbn [logger snd log]. apply in_or_app. right. now left.
  - intros Hmem Hvalid. rewrite Hsave. unfold try_except.
    rewrite (write_desktop_file_writes E c None); [|exact Hmem|exact Hvalid].
    unfold set_files. cbn [snd files log logger]. split; [|reflexivity].
    now rewrite dict_get_fs_write, String.eqb_refl.
  - intros q Hq. rewrite Hsave. now rewrite try_write_desktop_file_files.
Qed.

Lemma save_without_thumbnail_warns_witness :
  let c := example_channel "c" "3" "Maths" None in
  let w := example_world [c] [] in
  let self := ChannelLauncher_FromDatabase c in
  write_channel_icon example_environment self w = (Raise TypeError, w)
  /\ fst (save example_environment self w) = Ok tt
  /\ In (warning_icon_file (Some (ChannelMetadata.id c)) TypeError)
        (log (snd (save example_environment self w)))
  /\ dict_get (desktop_file_path example_environment self)
        (files (snd (save example_environment self w)))
     = Some (entry_text c None)
  /\ log (snd (save example_environment self w))
     = (log w ++ [warning_icon_file (Some (ChannelMetadata.id c)) TypeError])%list.
Proof.
  intros c w self.
  destruct (save_without_thumbnail_warns example_environment c w eq_refl)
    as (Hicon & Hret & Hlog & Hfile & _).
  split; [exact Hicon|]. split; [exact Hret|]. split; [exact Hlog|].
  apply Hfile; reflexivity.
Defined.

(** ** Deleting, and the methods a kind of launcher does not have *)

Lemma delete_disk_launcher_returns (E : environment) (path : string)
  (data : list (string * string)) (w : world) :
  let self := ChannelLauncher_FromDisk path data in
  let icon_file_path :=
    get_icon_file_path E (LAUNCHER_PREFIX ++ format_str (channel_id self) ++ ".png") in
  dict_get path (files w) <> None ->
  remove_denied E path = false ->
  exists w',
    delete E self w = (Ok tt, w')
    /\ log w' = log w /\ database w' = database w /\ unwritable w' = unwritable w
    /\ forall q, dict_get q (files w')
                 = if String.eqb path q
                      || (String.eqb icon_file_path q
                          && negb (remove_denied E icon_file_path))
                   then None
                   else dict_get q (files w).
Proof.
  intros self icon_file_path H Hallowed. subst self. unfold delete, delete_desktop_file.
  unfold bind at 1. unfold os_remove at 1. cbn [desktop_file_path].
  destruct (dict_get path (files w)) as [text|]; [|contradiction].
  rewrite Hallowed.
  unfold delete_channel_icon. cbv zeta.
  change (get_icon_file_path E
            ((LAUNCHER_PREFIX
              ++ format_str (channel_id (ChannelLauncher_FromDisk path data))) ++ ".png"))
    with icon_file_path.
  unfold bind, os_path_isfile. unfold set_files at 1. cbn [files].
  destruct (dict_get icon_file_path (fs_remove path (files w))) as [icon|] eqn:Hicon.
  - unfold try_remove, try_except, os_remove. unfold set_files at 1. cbn [files].
    rewrite Hicon.
    destruct (remove_denied E icon_file_path); cbn [isinstance_OSError ret negb].
    + eexists. split; [reflexivity|]. unfold set_files.
      cbn [log database unwritable files].
      split; [reflexivity|]. split; [reflexivity|]. split; [reflexivity|].
      intro q. rewrite andb_false_r, orb_false_r. apply dict_get_fs_remove.
    + eexists. split; [reflexivity|]. unfold set_files.
      cbn [log database unwritable files].
      split; [reflexivity|]. split; [reflexivity|]. split; [reflexivity|].
      intro q. rewrite !dict_get_fs_remove, andb_true_r.
      destruct (String.eqb icon_file_path q), (String.eqb path q); reflexivity.
  - eexists. split; [reflexivity|]. unfold set_files.
    cbn [log database unwritable files].
    split; [reflexivity|]. split; [reflexivity|]. split; [reflexivity|].
    intro q. rewrite dict_get_fs_remove.
    rewrite dict_get_fs_remove in Hicon.
    destruct (String.eqb path q) eqn:Hpq; [reflexivity|]. cbn [orb].
    destruct (String.eqb_spec icon_file_path q) as [<-|_]; [|reflexivity].
    rewrite Hpq in Hicon. rewrite Hicon.
    now destruct (negb (remove_denied E icon_file_path)).
Qed.

(** X8.  [delete] of a launcher read from disk.  When its desktop file is
    missing it raises [FileNotFoundError], and when the system refuses to
    remove the file it raises that [OSError]; nothing has changed in
    either case.  Otherwise, when the system does not refuse to remove the
    icon file either, it returns: the desktop file and the icon file named
    after the channel id are gone, every other file is as before, and
    nothing is logged; a missing icon file is no error. *)
Theorem delete_from_disk (E : environment) (path : string)
  (data : list (string * string)) (w : world) :
  let self := ChannelLauncher_FromDisk path data in
  let icon_file_path :=
    get_icon_file_path E (LAUNCHER_PREFIX ++ format_str (channel_id self) ++ ".png") in
  (dict_get path (files w) = None -> delete E self w = (Raise FileNotFoundError, w))
  /\ (dict_get path (files w) <> None -> remove_denied E path = true ->
      delete E self w = (Raise OSError, w))
  /\ (dict_get path (files w) <> None -> remove_denied E path = false ->
      remove_denied E icon_file_path = false ->
      exists w',
        delete E self w = (Ok tt, w')
        /\ log w' = log w /\ database w' = database w /\ unwritable w' = unwritable w
        /\ forall q, dict_get q (files w')
                     = if String.eqb path q || String.eqb icon_file_path q then None
                       else dict_get q (files w)).
Proof.
  intros self icon_file_path. split; [|split].
  - intro H. subst self. unfold delete, delete_desktop_file, bind, os_remove.
    cbn [desktop_file_path]. now rewrite H.
  - intros H Hdenied. subst self. unfold delete, delete_desktop_file, bind, os_remove.
    cbn [desktop_file_path].
    destruct (dict_get path (files w)); [|contradiction]. now rewrite Hdenied.
  - intros H Hallowed Hicon. subst icon_file_path self.
    destruct (delete_disk_launcher_returns E path data w H Hallowed)
      as (w' & Hdel & Hlog & Hdb & Hun & Hfiles).
    exists w'. split; [exact Hdel|]. split; [exact Hlog|]. split; [exact Hdb|].
    split; [exact Hun|]. intro q. rewrite (Hfiles q), Hicon.
    cbn [negb]. now rewrite andb_true_r.
Qed.

Lemma delete_from_disk_witness :
  let path := "/share/applications/old.desktop" in
  let data := [("X-Kolibri-Channel-Id", "gone"); ("X-Kolibri-Channel-Version", "1~5")] in
  let w := example_world []
             [(path, example_desktop_text "gone" "1~5");
              ("/share/icons/hicolor/256x256/apps/org.learningequality.Kolibri.Channel.gone.png",
               "PNG old")] in
  let self := ChannelLauncher_FromDisk path data in
  let icon_file_path :=
    get_icon_file_path example_environment
      (LAUNCHER_PREFIX ++ format_str (channel_id self) ++ ".png") in
  dict_get path (files w) <> None
  /\ exists w',
       delete example_environment self w = (Ok tt, w')
       /\ log w' = log w /\ database w' = database w /\ unwritable w' = unwritable w
       /\ forall q, dict_get q (files w')
                    = if String.eqb path q || String.eqb icon_file_path q then None
                      else dict_get q (files w).
Proof.
  intros path data w self icon_file_path.
  assert (H : dict_get path (files w) <> None) by (vm_compute; discriminate).
  split; [exact H|].
  exact (proj2 (proj2 (delete_from_disk example_environment path data w))
           H eq_refl eq_refl).
Defined.

(** X9.  A launcher from the database cannot be deleted: [delete] never
    returns.  It raises [FileNotFoundError] when the desktop file is
    missing and the [OSError] of the system when the removal is refused,
    without a change; otherwise it removes the desktop file and then
    raises [NotImplementedError], the class having no
    [delete_channel_icon]. *)
Theorem delete_from_database_raises (E : environment) (c : ChannelMetadata.t)
  (w : world) :
  let self := ChannelLauncher_FromDatabase c in
  (dict_get (desktop_file_path E self) (files w) = None ->
   delete E self w = (Raise FileNotFoundError, w))
  /\ (dict_get (desktop_file_path E self) (files w) <> None ->
      remove_denied E (desktop_file_path E self) = true ->
      delete E self w = (Raise OSError, w))
  /\ (dict_get (desktop_file_path E self) (files w) <> None ->
      remove_denied E (desktop_file_path E self) = false ->
      delete E self w
      = (Raise NotImplementedError,
         set_files (fs_remove (desktop_file_path E self) (files w)) w))
  /\ forall w', delete E self w <> (Ok tt, w').
Proof.
  intro self. unfold delete, delete_desktop_file, bind, os_remove, delete_channel_icon.
  destruct (dict_get (desktop_file_path E self) (files w)) as [text|].
  - destruct (remove_denied E (desktop_file_path E self)).
    + split; [discriminate|]. split; [reflexivity|]. split; [discriminate|].
      intros w' H. discriminate H.
    + split; [discriminate|]. split; [discriminate|]. split; [reflexivity|].
      intros w' H. discriminate H.
  - split; [reflexivity|]. split; [contradiction|]. split; [contradiction|].
    intros w' H. discriminate H.
Qed.

Lemma delete_from_database_raises_witness :
  let c := example_channel "c" "3" "Maths" None in
  let self := ChannelLauncher_FromDatabase c in
  let w := example_world [c]
             [(desktop_file_path example_environment self, example_desktop_text "c" "3~5")] in
  dict_get (desktop_file_path example_environment self) (files w) <> None
  /\ delete example_environment self w
     = (Raise NotImplementedError,
        set_files (fs_remove (desktop_file_path example_environment self) (files w)) w).
Proof.
  intros c self w.
  assert (H : dict_get (desktop_file_path example_environment self) (files w) <> None)
    by (vm_compute; discriminate).
  split; [exact H|].
  exact (proj1 (proj2 (proj2 (delete_from_database_raises example_environment c w)))
           H eq_refl).
Defined.

(** ** Paths and names *)

Lemma icon_file_path_of_id (E : environment) (id : string) :
  get_icon_file_path E (LAUNCHER_PREFIX ++ id ++ ".png")
  = share_prefix E ++ "icons/hicolor/256x256/apps/" ++ LAUNCHER_PREFIX ++ id ++ ".png".
Proof. apply (icon_file_path_eq E "o"). reflexivity. Qed.

(** X10.  The paths derived from channel ids never collide: two records
    with the same desktop file path, or with the same icon file path, have
    the same id; no icon file path is a desktop file path; and no icon
    file lies directly in the applications directory, where the launchers
    are listed. *)
Theorem derived_paths_are_distinct (E : environment) (c c' : ChannelMetadata.t) :
  let icon_path (x : ChannelMetadata.t) :=
    get_icon_file_path E (LAUNCHER_PREFIX ++ ChannelMetadata.id x ++ file_extension) in
  (desktop_file_path E (ChannelLauncher_FromDatabase c)
   = desktop_file_path E (ChannelLauncher_FromDatabase c') ->
   ChannelMetadata.id c = ChannelMetadata.id c')
  /\ (icon_path c = icon_path c' -> ChannelMetadata.id c = ChannelMetadata.id c')
  /\ icon_path c <> desktop_file_path E (ChannelLauncher_FromDatabase c')
  /\ child_name (applications_dir E) (icon_path c) = None.
Proof.
  intro icon_path. split; [apply desktop_file_path_inj|]. split; [|split].
  - subst icon_path. cbv beta. unfold file_extension.
    rewrite !icon_file_path_of_id. intro H.
    apply append_inv_l in H. apply append_inv_l in H.
    unfold LAUNCHER_PREFIX in H. apply append_inv_l in H.
    now apply append_inv_r in H.
  - apply icon_path_is_not_desktop_path.
  - pose proof (icon_file_not_entry E (Some (ChannelMetadata.id c))) as H.
    unfold is_entry_path in H. cbn [format_str] in H.
    subst icon_path. cbv beta. unfold file_extension.
    destruct (child_name _ _); [discriminate|reflexivity].
Qed.

Lemma derived_paths_are_distinct_witness :
  let c := example_channel "c" "3" "Maths" None in
  let c' := example_channel "c" "4" "Physics" None in
  let icon_path (x : ChannelMetadata.t) :=
    get_icon_file_path example_environment
      (LAUNCHER_PREFIX ++ ChannelMetadata.id x ++ file_extension) in
  ChannelMetadata.id c = ChannelMetadata.id c'
  /\ icon_path c <> desktop_file_path example_environment (ChannelLauncher_FromDatabase c')
  /\ child_name (applications_dir example_environment) (icon_path c) = None.
Proof.
  intros c c' icon_path.
  destruct (derived_paths_are_distinct example_environment c c') as (H1 & _ & H3 & H4).
  split; [apply H1; reflexivity|]. split; [exact H3|exact H4].
Defined.

Lemma basename_below (dir name : string) :
  has_slash name = false -> basename (dir ++ "/" ++ name) = name.
Proof.
  intro H. induction dir as [|c dir IH].
  - cbn [append basename]. now rewrite H.
  - change (String c dir ++ "/" ++ name) with (String c (dir ++ "/" ++ name)).
    cbn [basename]. rewrite has_slash_app. cbn [has_slash append].
    cbn. rewrite orb_true_r. exact IH.
Qed.

Lemma applications_path_join (E : environment) (x : ascii) (b : string) :
  Ascii.eqb x "/" = false ->
  path_join (applications_dir E) (String x b) = applications_dir E ++ "/" ++ String x b.
Proof.
  intro H. rewrite applications_dir_eq.
  rewrite (path_join_below (share_prefix E) "a" "pplications" x b eq_refl H).
  now rewrite append_assoc.
Qed.

(** X11.  Every launcher that [ChannelLauncher_FromDisk.load_all] returns
    was read from a file that is listed in the applications directory: its
    desktop file name is the listed name, its desktop file path is the
    directory joined with that name, and the file exists. *)
Theorem loaded_launcher_is_listed (E : environment) (w w' : world)
  (launchers : list ChannelLauncher) (d : ChannelLauncher) :
  FromDisk_load_all E w = (Ok launchers, w') ->
  In d launchers ->
  In (desktop_file_name d) (children (applications_dir E) (files w))
  /\ desktop_file_path E d = path_join (applications_dir E) (desktop_file_name d)
  /\ dict_get (desktop_file_path E d) (files w) <> None
  /\ has_slash (desktop_file_name d) = false.
Proof.
  intros Hload Hd. apply FromDisk_load_all_inv in Hload as (_ & _ & ->).
  apply In_loaded in Hd as (path & text & parser & items & Hentry & Hget & _ & _ & ->).
  unfold is_entry_path in Hentry.
  destruct (child_name (applications_dir E) path) as [n|] eqn:Hchild; [|discriminate].
  pose proof (child_name_path E path n Hchild) as Hpath.
  assert (Hn : exists x b, n = String x b /\ has_slash (String x b) = false).
  { unfold child_name in Hchild.
    destruct (strip_prefix _ path) as [[|x b]|]; try discriminate.
    destruct (has_slash (String x b)) eqn:Hs; [discriminate|].
    injection Hchild as <-. now exists x, b. }
  destruct Hn as (x & b & -> & Hslash).
  assert (Hx : Ascii.eqb x "/" = false).
  { cbn [has_slash] in Hslash. now apply orb_false_iff in Hslash as [-> _]. }
  assert (Hname : desktop_file_name (ChannelLauncher_FromDisk path (dict items))
                  = String x b).
  { cbn [desktop_file_name]. rewrite Hpath, (applications_path_join E x b Hx).
    now apply basename_below. }
  rewrite Hname. cbn [desktop_file_path]. repeat split.
  - apply In_children. exists path. split; [exact Hchild|congruence].
  - exact Hpath.
  - congruence.
  - exact Hslash.
Qed.

Lemma loaded_launcher_is_listed_witness :
  let d := example_disk_launcher "/share/applications/a.desktop" "c" "3~5" in
  let w := example_world []
             [("/share/applications/a.desktop", example_desktop_text "c" "3~5")] in
  In (desktop_file_name d) (children (applications_dir example_environment) (files w))
  /\ desktop_file_path example_environment d
     = path_join (applications_dir example_environment) (desktop_file_name d)
  /\ dict_get (desktop_file_path example_environment d) (files w) <> None
  /\ has_slash (desktop_file_name d) = false.
Proof.
  intros d w.
  apply (loaded_launcher_is_listed example_environment w w [d] d).
  - reflexivity.
  - now left.
Defined.

(** ** Writing, deleting and reading back *)

Lemma load_all_of_parsing_entries (E : environment) (w : world) :
  (forall q text, is_entry_path E q = true -> dict_get q (files w) = Some text ->
                  exists parser, configparser_read E text = Ok parser) ->
  FromDisk_load_all E w = (Ok (disk_launchers E w), w).
Proof.
  intro Hparse. apply FromDisk_load_all_parsed. intros n Hn.
  apply In_children in Hn as (path & Hchild & Hget).
  unfold file_parses. rewrite <- (child_name_path E path n Hchild).
  destruct (dict_get path (files w)) as [text|] eqn:Htext; [|reflexivity].
  destruct (Hparse path text) as (parser & ->);
    [unfold is_entry_path; now rewrite Hchild|exact Htext|reflexivity].
Qed.

Lemma loaded_entries_parse (E : environment) (w w' : world)
  (launchers : list ChannelLauncher) :
  FromDisk_load_all E w = (Ok launchers, w') ->
  forall q text, is_entry_path E q = true -> dict_get q (files w) = Some text ->
                 exists parser, configparser_read E text = Ok parser.
Proof.
  intros Hload q text Hq Hget.
  apply FromDisk_load_all_inv in Hload as (_ & Hparse & _).
  unfold is_entry_path in Hq.
  destruct (child_name (applications_dir E) q) as [n|] eqn:Hchild; [|discriminate].
  assert (Hn : In n (children (applications_dir E) (files w))).
  { apply In_children. exists q. split; [exact Hchild|congruence]. }
  specialize (Hparse n Hn). unfold file_parses in Hparse.
  rewrite <- (child_name_path E q n Hchild), Hget in Hparse.
  destruct (configparser_read E text) as [parser|e]; [now exists parser|discriminate].
Qed.

(** X12.  Saving a launcher and loading the directory again: when the
    desktop file of a record can be written and is read back with its id
    and version, and the directory could be loaded before, then after
    [save] the directory loads again and holds, at the desktop file path of
    the record, a launcher of the same channel and the same version; every
    other launcher is as before. *)
Theorem save_then_load (E : environment) (c : ChannelMetadata.t) (w w0 : world)
  (before : list ChannelLauncher) :
  let self := ChannelLauncher_FromDatabase c in
  can_write E w c -> reads_back E c ->
  FromDisk_load_all E w = (Ok before, w0) ->
  exists w' d,
    save E self w = (Ok tt, w')
    /\ FromDisk_load_all E w' = (Ok (disk_launchers E w'), w')
    /\ In d (disk_launchers E w')
    /\ desktop_file_path E d = desktop_file_path E self
    /\ channel_id d = channel_id self
    /\ channel_version d = channel_version self
    /\ (version_parses c -> compare self d = Ok (PyInt 0))
    /\ forall d', desktop_file_path E d' <> desktop_file_path E self ->
                  (In d' (disk_launchers E w') <-> In d' before).
Proof.
  intros self (Hslash & Hmem & Hvalid) Hback Hload.
  pose proof (loaded_entries_parse E w w0 before Hload) as Hparse.
  apply FromDisk_load_all_inv in Hload as (_ & _ & ->).
  destruct (save_effect E c w Hmem Hvalid)
    as (icon_name & w' & Hsave & Hicon & _ & _ & Hfile & Hother).
  fold self in Hsave, Hfile, Hother.
  destruct (Hback icon_name Hicon) as (parser & items & Hread & Hsec & Hid & Hver).
  pose proof (desktop_file_path_is_entry E c Hslash) as Hentry. fold self in Hentry.
  exists w', (ChannelLauncher_FromDisk (desktop_file_path E self) (dict items)).
  split; [exact Hsave|]. split; [|split; [|split; [|split; [|split; [|split]]]]].
  - apply load_all_of_parsing_entries. intros q text Hq Hget.
    destruct (String.eqb_spec q (desktop_file_path E self)) as [->|Hne].
    + rewrite Hfile in Hget. injection Hget as <-. now exists parser.
    + rewrite (Hother q Hq Hne) in Hget. now apply (Hparse q text).
  - apply In_loaded.
    exists (desktop_file_path E self), (entry_text c icon_name), parser, items.
    now repeat split.
  - reflexivity.
  - exact Hid.
  - exact Hver.
  - intros (a & b & Hab). now apply (compare_same_version _ _ a b).
  - intros d' Hd'. unfold disk_launchers. rewrite !In_loaded. split.
    + intros (q & text & p & i & Hq & Hget & Hr & Hs & ->).
      cbn [desktop_file_path] in Hd'. rewrite (Hother q Hq Hd') in Hget.
      now exists q, text, p, i.
    + intros (q & text & p & i & Hq & Hget & Hr & Hs & ->).
      cbn [desktop_file_path] in Hd'. rewrite <- (Hother q Hq Hd') in Hget.
      now exists q, text, p, i.
Qed.

Lemma save_then_load_witness :
  let c := example_channel "c" "3" "Maths" (Some "data:image/png;base64,AAAA") in
  let w := example_world [c]
             [("/share/applications/old.desktop", example_desktop_text "gone" "1~5")] in
  exists w' d,
    save example_environment (ChannelLauncher_FromDatabase c) w = (Ok tt, w')
    /\ FromDisk_load_all example_environment w'
       = (Ok (disk_launchers example_environment w'), w')
    /\ In d (disk_launchers example_environment w')
    /\ desktop_file_path example_environment d
       = desktop_file_path example_environment (ChannelLauncher_FromDatabase c)
    /\ channel_id d = channel_id (ChannelLauncher_FromDatabase c)
    /\ channel_version d = channel_version (ChannelLauncher_FromDatabase c)
    /\ (version_parses c -> compare (ChannelLauncher_FromDatabase c) d = Ok (PyInt 0))
    /\ forall d', desktop_file_path example_environment d'
                  <> desktop_file_path example_environment (ChannelLauncher_FromDatabase c) ->
                  (In d' (disk_launchers example_environment w')
                   <-> In d' [example_disk_launcher "/share/applications/old.desktop"
                                "gone" "1~5"]).
Proof.
  intros c w.
  apply (save_then_load example_environment c w w
           [example_disk_launcher "/share/applications/old.desktop" "gone" "1~5"]).
  - split; [reflexivity|]. split; [reflexivity|].
    intros icon_name [<-|[<-|[]]]; reflexivity.
  - intros icon_name [<-|[<-|[]]]; do 2 eexists;
      (split; [vm_compute; reflexivity|]); repeat split.
  - reflexivity.
Defined.

(** X13.  Deleting a loaded launcher and loading the directory again,
    when the system does not refuse to remove the desktop file of the
    launcher nor its icon file: [delete] returns, the directory loads
    again, the launcher read from the deleted file is gone, and the
    launchers read from the other files are exactly those that were there
    before. *)
Theorem delete_then_load (E : environment) (w w0 : world)
  (before : list ChannelLauncher) (d : ChannelLauncher) :
  FromDisk_load_all E w = (Ok before, w0) ->
  In d before ->
  remove_denied E (desktop_file_path E d) = false ->
  remove_denied E (get_icon_file_path E
                     (LAUNCHER_PREFIX ++ format_str (channel_id d) ++ ".png")) = false ->
  exists w',
    delete E d w = (Ok tt, w')
    /\ FromDisk_load_all E w' = (Ok (disk_launchers E w'), w')
    /\ forall d', In d' (disk_launchers E w')
                  <-> In d' before /\ desktop_file_path E d' <> desktop_file_path E d.
Proof.
  intros Hload Hd Hallowed _.
  pose proof (loaded_entries_parse E w w0 before Hload) as Hparse.
  apply FromDisk_load_all_inv in Hload as (_ & _ & ->).
  apply In_loaded in Hd as Hon.
  destruct Hon as (path & text & parser & items & Hentry & Hget & _ & _ & ->).
  destruct (delete_disk_launcher_returns E path (dict items) w) as (w' & Hdel & _);
    [congruence|exact Hallowed|].
  destruct (delete_effect E _ w w' Hdel) as (_ & _ & Hfiles).
  cbn [desktop_file_path] in *.
  exists w'. split; [exact Hdel|]. split.
  - apply load_all_of_parsing_entries. intros q t Hq Hq'.
    rewrite (Hfiles q Hq) in Hq'.
    destruct (String.eqb path q); [discriminate|]. now apply (Hparse q t).
  - intro d'. unfold disk_launchers. rewrite !In_loaded. split.
    + intros (q & t & p & i & Hq & Hq' & Hr & Hs & ->).
      rewrite (Hfiles q Hq) in Hq'.
      destruct (String.eqb_spec path q) as [|Hne]; [discriminate|].
      split; [now exists q, t, p, i|]. cbn [desktop_file_path]. congruence.
    + intros ((q & t & p & i & Hq & Hq' & Hr & Hs & ->) & Hne).
      cbn [desktop_file_path] in Hne.
      exists q, t, p, i. repeat split; try assumption.
      rewrite (Hfiles q Hq).
      destruct (String.eqb_spec path q) as [Heq|_]; [|exact Hq'].
      now symmetry in Heq.
Qed.

Lemma delete_then_load_witness :
  let w := example_world []
             [("/share/applications/old.desktop", example_desktop_text "gone" "1~5");
              ("/share/applications/a.desktop", example_desktop_text "c" "3~5")] in
  let d := example_disk_launcher "/share/applications/old.desktop" "gone" "1~5" in
  exists w',
    delete example_environment d w = (Ok tt, w')
    /\ FromDisk_load_all example_environment w'
       = (Ok (disk_launchers example_environment w'), w')
    /\ forall d', In d' (disk_launchers example_environment w')
                  <-> In d' [d; example_disk_launcher "/share/applications/a.desktop"
                                 "c" "3~5"]
                      /\ desktop_file_path example_environment d'
                         <> desktop_file_path example_environment d.
Proof.
  intros w d.
  apply (delete_then_load example_environment w w
           [d; example_disk_launcher "/share/applications/a.desktop" "c" "3~5"] d).
  - reflexivity.
  - now left.
  - reflexivity.
  - reflexivity.
Defined.

(** ** The icon cache *)

Lemma dir_part_no_slash (name : string) :
  has_slash name = false -> dir_part name = EmptyString.
Proof. intro H. destruct name as [|c r]; [reflexivity|]. cbn [dir_part]. now rewrite H. Qed.

Lemma dir_part_below (dir name : string) :
  has_slash name = false -> dir_part (dir ++ "/" ++ name) = dir ++ "/".
Proof.
  intro H. induction dir as [|c dir IH].
  - cbn [append dir_part has_slash]. cbn. now rewrite (dir_part_no_slash name H).
  - change (String c dir ++ "/" ++ name) with (String c (dir ++ "/" ++ name)).
    cbn [dir_part]. cbn [has_slash]. rewrite has_slash_app. cbn [has_slash].
    change (Ascii.eqb "/" "/") with true. cbn [orb]. rewrite !orb_true_r.
    now rewrite IH.
Qed.

Lemma theme_index_parent (E : environment) (fs : list (string * string))
  (q r : string) :
  q = icon_theme_dir E ++ "/" ++ r ->
  dict_get q fs <> None ->
  parent_exists (path_join (icon_theme_dir E) "index.theme") fs = true.
Proof.
  intros Hq Hget. unfold parent_exists. apply existsb_exists.
  apply dict_get_In in Hget. apply in_map_iff in Hget as ([q' t] & Hfst & Hin).
  exists (q', t). split; [exact Hin|]. cbn [fst] in *. subst q'.
  rewrite icon_theme_dir_eq in *.
  rewrite (path_join_below (share_prefix E) "i" "cons/hicolor" "i" "ndex.theme"
             eq_refl eq_refl).
  rewrite <- append_assoc.
  rewrite (dir_part_below (share_prefix E ++ "icons/hicolor") "index.theme" eq_refl).
  rewrite Hq, <- append_assoc. now rewrite strip_prefix_append.
Qed.

(** X14.  The icon cache update, when the theme index of the launchers is
    not the system's own file, and the system theme index is missing or
    the icon theme directory holds a file (so that the directory exists).
    The system theme index is copied beside the icons when it exists and
    the copy can be written, and then the cache tool is run on the icon
    theme directory alone; otherwise no file changes and the tool is also
    given [--ignore-theme-index].  An [OSError] of the tool is logged and
    not raised; any other error propagates. *)
Theorem update_icon_cache_arguments (E : environment) (w : world) :
  let theme_index := path_join (icon_theme_dir E) "index.theme" in
  let copied :=
    match dict_get system_theme_index (files w) with
    | Some _ => negb (mem theme_index (unwritable w))
    | None => false
    end in
  let args :=
    "gtk-update-icon-cache" :: icon_theme_dir E
      :: (if copied then [] else ["--ignore-theme-index"]) in
  theme_index <> system_theme_index ->
  (dict_get system_theme_index (files w) = None
   \/ exists q r, q = icon_theme_dir E ++ "/" ++ r /\ dict_get q (files w) <> None) ->
  exists w',
    update_icon_cache E w
    = (match subprocess_run E args with
       | Ok _ => Ok tt
       | Raise e => if isinstance_OSError e then Ok tt else Raise e
       end, w')
    /\ log w'
       = (log w ++ match subprocess_run E args with
                   | Ok _ => [subprocess args]
                   | Raise e => if isinstance_OSError e then [info_icon_cache e] else []
                   end)%list
    /\ database w' = database w
    /\ unwritable w' = unwritable w
    /\ (copied = true ->
        dict_get theme_index (files w') = dict_get system_theme_index (files w)
        /\ forall q, q <> theme_index -> dict_get q (files w') = dict_get q (files w))
    /\ (copied = false -> files w' = files w).
Proof.
  intros theme_index copied args Hne Hdir.
  unfold update_icon_cache. fold theme_index.
  assert (Hcopy : exists w1,
             try_except
               (shutil_copyfile system_theme_index theme_index ;;; ret [icon_theme_dir E])
               isinstance_OSError
               (fun _ => ret ([icon_theme_dir E] ++ ["--ignore-theme-index"])%list) w
             = (Ok (icon_theme_dir E :: (if copied then [] else ["--ignore-theme-index"])),
                w1)
             /\ log w1 = log w /\ database w1 = database w
             /\ unwritable w1 = unwritable w
             /\ (copied = true ->
                 dict_get theme_index (files w1) = dict_get system_theme_index (files w)
                 /\ forall q, q <> theme_index ->
                              dict_get q (files w1) = dict_get q (files w))
             /\ (copied = false -> files w1 = files w)).
  { unfold try_except, bind, shutil_copyfile, copied.
    destruct (dict_get system_theme_index (files w)) as [data|] eqn:Hsys.
    - assert (Hparent : parent_exists theme_index (files w) = true).
      { destruct Hdir as [Hnone|(q & r & Hq & Hget)]; [discriminate Hnone|].
        now apply (theme_index_parent E (files w) q r). }
      rewrite Hparent. unfold bind, open_w.
      destruct (mem theme_index (unwritable w)); cbn [negb isinstance_OSError ret].
      + eexists. split; [reflexivity|].
        split; [reflexivity|]. split; [reflexivity|]. split; [reflexivity|].
        split; [intro H; discriminate H|reflexivity].
      + eexists. split; [reflexivity|]. unfold file_write, set_files.
        cbn [snd fst log database unwritable files].
        split; [reflexivity|]. split; [reflexivity|]. split; [reflexivity|].
        split; [|intro H; discriminate H].
        intros _. split.
        * rewrite dict_get_fs_write, String.eqb_refl. reflexivity.
        * intros q Hq. rewrite !dict_get_fs_write.
          destruct (String.eqb_spec theme_index q) as [Heq|_]; [now symmetry in Heq|].
          reflexivity.
    - cbn [isinstance_OSError ret]. eexists. split; [reflexivity|].
      split; [reflexivity|]. split; [reflexivity|]. split; [reflexivity|].
      split; [intro H; discriminate H|reflexivity]. }
  destruct Hcopy as (w1 & Hcopy & Hlog & Hdb & Hun & Hyes & Hno).
  rewrite (bind_ok _ _ _ _ _ Hcopy). fold args.
  unfold try_except, bind, lift, logger.
  destruct (subprocess_run E args) as [[]|e].
  - eexists. split; [reflexivity|]. cbn [log database unwritable files]. rewrite Hlog.
    split; [reflexivity|]. split; [exact Hdb|]. split; [exact Hun|].
    split; [exact Hyes|exact Hno].
  - destruct (isinstance_OSError e).
    + eexists. split; [reflexivity|]. cbn [log database unwritable files]. rewrite Hlog.
      split; [reflexivity|]. split; [exact Hdb|]. split; [exact Hun|].
      split; [exact Hyes|exact Hno].
    + eexists. split; [reflexivity|]. rewrite app_nil_r.
      split; [exact Hlog|]. split; [exact Hdb|]. split; [exact Hun|].
      split; [exact Hyes|exact Hno].
Qed.

Lemma update_icon_cache_arguments_witness :
  let w := example_world []
             [(system_theme_index, "[Icon Theme]");
              ("/share/icons/hicolor/256x256/apps/org.learningequality.Kolibri.Channel.c.png",
               "PNG AAAA")] in
  let theme_index := path_join (icon_theme_dir example_environment) "index.theme" in
  exists w',
    update_icon_cache example_environment w = (Ok tt, w')
    /\ log w' = [subprocess ["gtk-update-icon-cache"; icon_theme_dir example_environment]]
    /\ dict_get theme_index (files w') = Some "[Icon Theme]".
Proof.
  intros w theme_index.
  destruct (update_icon_cache_arguments example_environment w)
    as (w' & Hrun & Hlog & _ & _ & Hcopied & _).
  - vm_compute. discriminate.
  - right.
    exists "/share/icons/hicolor/256x256/apps/org.learningequality.Kolibri.Channel.c.png",
           "256x256/apps/org.learningequality.Kolibri.Channel.c.png".
    split; [reflexivity|vm_compute; discriminate].
  - exists w'. split; [exact Hrun|]. split; [exact Hlog|].
    apply (Hcopied eq_refl).
Defined.

(** ** A desktop file that cannot be read *)

Lemma FromDisk_load_files_raises (E : environment) (file_names : list string)
  (w w' : world) (e : exn) :
  FromDisk_load_files E file_names w = (Raise e, w') ->
  w' = w
  /\ exists n text,
       In n file_names
       /\ dict_get (path_join (applications_dir E) n) (files w) = Some text
       /\ configparser_read E text = Raise e.
Proof.
  induction file_names as [|n rest IH]; intro H; [discriminate H|].
  cbn [FromDisk_load_files] in H. unfold bind at 1, ConfigParser_read in H.
  assert (Hrest : (w' = w
                   /\ exists text,
                        dict_get (path_join (applications_dir E) n) (files w) = Some text
                        /\ configparser_read E text = Raise e)
                  \/ FromDisk_load_files E rest w = (Raise e, w')).
  { destruct (dict_get (path_join (applications_dir E) n) (files w)) as [text|].
    - destruct (configparser_read E text) as [parser|e'] eqn:Hread.
      + right. destruct (dict_get "Desktop Entry" parser); [|exact H].
        unfold bind in H.
        destruct (FromDisk_load_files E rest w) as [[ls|e'] w1]; [discriminate|exact H].
      + left. injection H as <- <-. split; [reflexivity|]. now exists text.
    - right. exact H. }
  destruct Hrest as [(-> & text & Hget & Hread)|Hrest].
  - split; [reflexivity|]. exists n, text. split; [now left|]. now split.
  - destruct (IH Hrest) as (-> & m & text & Hin & Hget & Hread).
    split; [reflexivity|]. exists m, text. split; [now right|]. now split.
Qed.

(** X15.  One desktop file of the applications directory that the reader
    rejects stops the whole pass: [update_channel_launchers] raises an
    error of the reader on a file of the directory, whatever [force] is and
    whatever the records are, and nothing has been logged, removed or
    written. *)
Theorem unreadable_desktop_file_stops_the_pass (E : environment) (force : bool)
  (w : world) (path text : string) (e : exn) :
  is_entry_path E path = true ->
  dict_get path (files w) = Some text ->
  configparser_read E text = Raise e ->
  exists e' path' text',
    update_channel_launchers E force w = (Raise e', w)
    /\ is_entry_path E path' = true
    /\ dict_get path' (files w) = Some text'
    /\ configparser_read E text' = Raise e'.
Proof.
  intros Hentry Hget Hread.
  unfold is_entry_path in Hentry.
  destruct (child_name (applications_dir E) path) as [n|] eqn:Hchild; [|discriminate].
  assert (Hin : In n (children (applications_dir E) (files w))).
  { apply In_children. exists path. split; [exact Hchild|]. congruence. }
  apply child_name_path in Hchild as Hpath.
  assert (Hload : exists e' n' text',
             FromDisk_load_all E w = (Raise e', w)
             /\ In n' (children (applications_dir E) (files w))
             /\ dict_get (path_join (applications_dir E) n') (files w) = Some text'
             /\ configparser_read E text' = Raise e').
  { destruct (FromDisk_load_all E w) as [[launchers|e'] w1] eqn:Hall.
    - apply FromDisk_load_all_inv in Hall as (_ & Hparse & _).
      specialize (Hparse n Hin). unfold file_parses in Hparse.
      rewrite <- Hpath, Hget, Hread in Hparse. discriminate Hparse.
    - unfold FromDisk_load_all, bind, os_path_isdir, os_listdir in Hall.
      destruct (existsb _ (files w)); cbn [negb] in Hall; [|discriminate Hall].
      apply FromDisk_load_files_raises in Hall as (-> & n' & text' & Hn' & Hget' & Hread').
      exists e', n', text'. repeat split; assumption. }
  destruct Hload as (e' & n' & text' & Hall & Hn' & Hget' & Hread').
  exists e', (path_join (applications_dir E) n'), text'.
  split; [|split; [|split; assumption]].
  - unfold update_channel_launchers.
    unfold bind at 1. unfold FromDatabase_load_all at 1. cbn iota.
    now rewrite (bind_raise _ _ _ _ _ Hall).
  - apply In_children in Hn' as (path' & Hc' & _).
    apply child_name_path in Hc' as Hp'. rewrite <- Hp'.
    unfold is_entry_path. now rewrite Hc'.
Qed.

Lemma unreadable_desktop_file_stops_the_pass_witness :
  let c := example_channel "c" "3" "Maths" None in
  let w := example_world [c]
             [("/share/applications/a.desktop", example_desktop_text "c" "3~5");
              ("/share/applications/notes.txt", "no section header")] in
  exists e' path' text',
    update_channel_launchers example_environment true w = (Raise e', w)
    /\ is_entry_path example_environment path' = true
    /\ dict_get path' (files w) = Some text'
    /\ configparser_read example_environment text' = Raise e'.
Proof.
  intros c w.
  apply (unreadable_desktop_file_stops_the_pass example_environment true w
           "/share/applications/notes.txt" "no section header" ConfigParserError);
    reflexivity.
Defined.

(** ** The directory after a pass *)

Lemma launchers_of_a_path_agree (E : environment) (fs : list (string * string))
  (d d' : ChannelLauncher) :
  launcher_on_disk E fs d -> launcher_on_disk E fs d' ->
  desktop_file_path E d = desktop_file_path E d' -> d = d'.
Proof.
  intros (p & t & r & i & _ & Hget & Hread & Hsec & ->)
         (p' & t' & r' & i' & _ & Hget' & Hread' & Hsec' & ->).
  cbn [desktop_file_path]. intros <-.
  rewrite Hget in Hget'. injection Hget' as <-.
  rewrite Hread in Hread'. injection Hread' as <-.
  rewrite Hsec in Hsec'. injection Hsec' as <-. reflexivity.
Qed.

(** X16.  What a pass that returns leaves behind, when the records have
    distinct ids, versions that parse and desktop files that can be written
    and read back, and no launcher of a record sits at another path than
    the record's: the directory loads again; every launcher in it belongs
    to an available record and compares as up to date with it; and every
    available record has a launcher. *)
Theorem pass_synchronises (E : environment) (force : bool) (w0 w1 : world) (r : pyval) :
  update_channel_launchers E force w0 = (Ok r, w1) ->
  NoDup (map ChannelMetadata.id (source w0)) ->
  (forall c, In c (source w0) ->
             version_parses c /\ can_write E w0 c /\ reads_back E c) ->
  in_place E w0 ->
  source w1 = source w0
  /\ FromDisk_load_all E w1 = (Ok (disk_launchers E w1), w1)
  /\ (forall d, In d (disk_launchers E w1) ->
        exists c, In c (source w1)
                  /\ channel_id d = Some (ChannelMetadata.id c)
                  /\ exists v, compare (ChannelLauncher_FromDatabase c) d = Ok v
                               /\ truthy v = false)
  /\ (forall c, In c (source w1) ->
        exists d, In d (disk_launchers E w1)
                  /\ channel_id d = Some (ChannelMetadata.id c)).
Proof.
  intros H Hnodup Hrec Hplace.
  destruct (first_pass_settles E force w0 w1 r H Hnodup Hrec Hplace)
    as (Hdb & Hparse & Hdisk & Hsource).
  assert (Hsrc : source w1 = source w0) by (unfold source; now rewrite Hdb).
  rewrite Hsrc. split; [reflexivity|]. split; [|split].
  - now apply load_all_of_parsing_entries.
  - intros d Hd. apply Hdisk. now apply In_loaded.
  - intros c Hc. destruct (Hsource c Hc) as (d & Hd & Hid).
    exists d. split; [now apply In_loaded|exact Hid].
Qed.

Lemma pass_synchronises_witness :
  let c := example_channel "c" "3" "Maths" (Some "data:image/png;base64,AAAA") in
  let w0 := example_world [c]
              [("/share/applications/org.learningequality.Kolibri.Channel.c.desktop",
                example_desktop_text "c" "2~5");
               ("/share/applications/old.desktop", example_desktop_text "gone" "1~5")] in
  let w1 := snd (update_channel_launchers example_environment false w0) in
  source w1 = source w0
  /\ FromDisk_load_all example_environment w1
     = (Ok (disk_launchers example_environment w1), w1)
  /\ (forall d, In d (disk_launchers example_environment w1) ->
        exists c, In c (source w1)
                  /\ channel_id d = Some (ChannelMetadata.id c)
                  /\ exists v, compare (ChannelLauncher_FromDatabase c) d = Ok v
                               /\ truthy v = false)
  /\ (forall c, In c (source w1) ->
        exists d, In d (disk_launchers example_environment w1)
                  /\ channel_id d = Some (ChannelMetadata.id c)).
Proof.
  intros c w0 w1.
  apply (pass_synchronises example_environment false w0 w1 PyNone).
  - vm_compute. reflexivity.
  - cbn. constructor; [intros []|constructor].
  - intros c' [<-|[]]. split; [|split].
    + exists 3, 5. reflexivity.
    + split; [reflexivity|]. split; [reflexivity|].
      intros icon_name [<-|[<-|[]]]; reflexivity.
    + intros icon_name [<-|[<-|[]]]; do 2 eexists;
        (split; [vm_compute; reflexivity|]); repeat split.
  - intros d c' Hd [<-|[]] Hid.
    vm_compute in Hd. destruct Hd as [<-|[<-|[]]].
    + reflexivity.
    + discriminate Hid.
Defined.

(** X17.  What a pass that returns does to the launchers it found, when the
    records have distinct ids and desktop files that can be written.  A
    launcher whose desktop file is not at the path of any available record
    is removed when no available record has its channel id, and is left as
    it was when one has: launchers of an available channel under another
    file name are never cleaned up. *)
Theorem pass_removes_only_stale_launchers (E : environment) (force : bool)
  (w0 w1 : world) (r : pyval) (d : ChannelLauncher) :
  update_channel_launchers E force w0 = (Ok r, w1) ->
  NoDup (map ChannelMetadata.id (source w0)) ->
  (forall c, In c (source w0) -> can_write E w0 c) ->
  In d (disk_launchers E w0) ->
  (forall c, In c (source w0) ->
             desktop_file_path E d <> desktop_file_path E (ChannelLauncher_FromDatabase c)) ->
  ((forall c, In c (source w0) -> channel_id d <> Some (ChannelMetadata.id c)) ->
   dict_get (desktop_file_path E d) (files w1) = None)
  /\ ((exists c, In c (source w0) /\ channel_id d = Some (ChannelMetadata.id c)) ->
      dict_get (desktop_file_path E d) (files w1)
      = dict_get (desktop_file_path E d) (files w0)).
Proof.
  intros H Hnodup Hcan Hd Hpath.
  destruct (first_pass_summary E force w0 w1 r H Hnodup Hcan) as (_ & _ & _ & Hfiles).
  assert (Hentry : is_entry_path E (desktop_file_path E d) = true).
  { apply In_loaded in Hd as (p & t & q & i & Hp & _ & _ & _ & ->). exact Hp. }
  specialize (Hfiles (desktop_file_path E d) Hentry (fun c Hc _ => Hpath c Hc)).
  set (db := map ChannelLauncher_FromDatabase (source w0)) in *.
  assert (Hstale : existsb (fun d' => is_stale db d'
                                      && String.eqb (desktop_file_path E d')
                                           (desktop_file_path E d))
                     (disk_launchers E w0)
                   = is_stale db d).
  { destruct (is_stale db d) eqn:Hs.
    - apply existsb_exists. exists d. split; [exact Hd|].
      now rewrite Hs, String.eqb_refl.
    - destruct (existsb _ (disk_launchers E w0)) eqn:Hex; [|reflexivity].
      apply existsb_exists in Hex as (d' & Hd' & Hand).
      apply andb_true_iff in Hand as [Hs' Heq]. apply String.eqb_eq in Heq.
      assert (d' = d) as ->.
      { apply (launchers_of_a_path_agree E (files w0)); [| |exact Heq];
          now apply In_loaded. }
      congruence. }
  rewrite Hstale in Hfiles. unfold is_stale in Hfiles.
  split.
  - intro Hno. rewrite Hfiles.
    destruct (any_is_same_channel d db) eqn:Hany; [|reflexivity].
    apply any_is_same_channel_db in Hany as (c & Hc & Hid).
    now destruct (Hno c Hc).
  - intro Hyes. apply any_is_same_channel_db in Hyes. fold db in Hyes.
    now rewrite Hfiles, Hyes.
Qed.

Lemma pass_removes_only_stale_launchers_witness :
  let c := example_channel "c" "3" "Maths" (Some "data:image/png;base64,AAAA") in
  let w0 := example_world [c]
              [("/share/applications/stray.desktop", example_desktop_text "c" "2~5");
               ("/share/applications/old.desktop", example_desktop_text "gone" "1~5")] in
  let w1 := snd (update_channel_launchers example_environment true w0) in
  let stray := example_disk_launcher "/share/applications/stray.desktop" "c" "2~5" in
  let old := example_disk_launcher "/share/applications/old.desktop" "gone" "1~5" in
  dict_get (desktop_file_path example_environment old) (files w1) = None
  /\ dict_get (desktop_file_path example_environment stray) (files w1)
     = dict_get (desktop_file_path example_environment stray) (files w0).
Proof.
  intros c w0 w1 stray old.
  assert (Hrun : update_channel_launchers example_environment true w0 = (Ok PyNone, w1))
    by (vm_compute; reflexivity).
  assert (Hnodup : NoDup (map ChannelMetadata.id (source w0)))
    by (cbn; constructor; [intros []|constructor]).
  assert (Hcan : forall c', In c' (source w0) -> can_write example_environment w0 c').
  { intros c' [<-|[]]. split; [reflexivity|]. split; [reflexivity|].
    intros icon_name [<-|[<-|[]]]; reflexivity. }
  split.
  - apply (proj1 (pass_removes_only_stale_launchers example_environment true w0 w1 PyNone
                    old Hrun Hnodup Hcan
                    ltac:(vm_compute; right; left; reflexivity)
                    ltac:(intros c' [<-|[]]; vm_compute; discriminate))).
    intros c' [<-|[]]. vm_compute. discriminate.
  - apply (proj2 (pass_removes_only_stale_launchers example_environment true w0 w1 PyNone
                    stray Hrun Hnodup Hcan
                    ltac:(vm_compute; left; reflexivity)
                    ltac:(intros c' [<-|[]]; vm_compute; discriminate))).
    exists c. split; [now left|reflexivity].
Defined.

(** ** When a pass returns *)

Lemma save_returns (E : environment) (self : ChannelLauncher) (w : world) :
  exists w', save E self w = (Ok tt, w').
Proof.
  assert (H : fst (save E self w) = Ok tt).
  { unfold save. unfold bind.
    destruct (try_except (write_channel_icon E self) _ _ w) as [[icon_name|e] w1] eqn:Hicon.
    - apply try_write_desktop_file_returns.
    - exfalso. unfold try_except, isinstance_Exception in Hicon.
      destruct (write_channel_icon E self w) as [[n|e'] w']; [discriminate|].
      unfold bind, logger, ret in Hicon. discriminate. }
  destruct (save E self w) as [[[]|e] w']; [now exists w'|discriminate].
Qed.

Lemma any_compare_returns (s : ChannelLauncher) (disk : list ChannelLauncher) :
  (exists a b, version_components (channel_version s) = Ok (a, b)) ->
  (forall d, In d disk -> is_same_channel s d = true ->
             exists a b, version_components (channel_version d) = Ok (a, b)) ->
  exists o, any_compare s disk = Ok o.
Proof.
  intros (a & b & Hs) Hdisk. induction disk as [|d rest IH]; [now exists false|].
  cbn [any_compare]. unfold compare.
  destruct (is_same_channel s d) eqn:Hsame; cbn [negb].
  - rewrite Hs. destruct (Hdisk d (or_introl eq_refl) Hsame) as (x & y & ->).
    destruct (truthy _); [now exists true|].
    apply IH. intros d' Hd'. apply Hdisk. now right.
  - cbn [truthy]. apply IH. intros d' Hd'. apply Hdisk. now right.
Qed.

Lemma for_launchers_from_db_returns (E : environment) (force : bool)
  (disk db : list ChannelLauncher) (did : bool) (w : world) :
  (force = true
   \/ forall s, In s db -> any_is_same_channel s disk = true ->
                exists o, any_compare s disk = Ok o) ->
  exists b w', for_launchers_from_db E force disk db did w = (Ok b, w').
Proof.
  revert did w. induction db as [|s rest IH]; intros did w H; [now exists did, w|].
  assert (Hrest : force = true
                  \/ forall s', In s' rest -> any_is_same_channel s' disk = true ->
                                exists o, any_compare s' disk = Ok o).
  { destruct H as [H|H]; [now left|right]. intros s' Hs'. apply H. now right. }
  assert (Hsaved : forall e, exists b w',
             (logger e ;;; save E s ;;; for_launchers_from_db E force disk rest true) w
             = (Ok b, w')).
  { intro e. unfold bind at 1. unfold logger at 1.
    match goal with |- context [bind (save E s) _ ?w0] =>
      destruct (save_returns E s w0) as (w1 & Hsave);
      rewrite (bind_ok _ _ _ _ _ Hsave) end.
    apply IH. exact Hrest. }
  cbn [for_launchers_from_db].
  destruct (any_is_same_channel s disk) eqn:Hany; cbn [negb]; [|apply Hsaved].
  assert (Hout : exists o, (if force then ret true else lift (any_compare s disk)) w
                           = (Ok o, w)).
  { destruct force; [now exists true|].
    destruct H as [H|H]; [discriminate H|].
    destruct (H s (or_introl eq_refl) Hany) as (o & Ho). exists o.
    unfold lift. now rewrite Ho. }
  destruct Hout as (o & Hout). rewrite (bind_ok _ _ _ _ _ Hout).
  destruct o; [apply Hsaved|]. apply IH. exact Hrest.
Qed.

Lemma for_launchers_from_disk_returns (E : environment)
  (db disk : list ChannelLauncher) (did : bool) (w : world) :
  NoDup (map (desktop_file_path E) disk) ->
  (forall d, In d disk ->
             exists path data,
               d = ChannelLauncher_FromDisk path data
               /\ is_entry_path E path = true
               /\ dict_get path (files w) <> None) ->
  (forall d, In d disk -> is_stale db d = true ->
             remove_denied E (desktop_file_path E d) = false) ->
  exists b w', for_launchers_from_disk E db disk did w = (Ok b, w').
Proof.
  revert did w. induction disk as [|d rest IH]; intros did w Hnodup Hdisk Hallowed;
    [now exists did, w|].
  cbn [map] in Hnodup. apply NoDup_cons_iff in Hnodup as [Hnotin Hnodup].
  assert (Hrest : forall d', In d' rest -> is_stale db d' = true ->
                             remove_denied E (desktop_file_path E d') = false).
  { intros d' Hd'. apply Hallowed. now right. }
  cbn [for_launchers_from_disk].
  pose proof (Hallowed d (or_introl eq_refl)) as Hd. unfold is_stale in Hd.
  destruct (negb (any_is_same_channel d db)).
  - specialize (Hd eq_refl).
    destruct (Hdisk d (or_introl eq_refl)) as (path & data & -> & Hentry & Hfile).
    unfold bind at 1. unfold logger at 1.
    set (w0 := {| database := database w; files := files w;
                  unwritable := unwritable w;
                  log := (log w ++ [info_Removing
                                      (desktop_file_name
                                         (ChannelLauncher_FromDisk path data))])%list |}).
    destruct (delete_disk_launcher_returns E path data w0 Hfile Hd)
      as (w1 & Hdel & _ & _ & _ & Hfiles).
    rewrite (bind_ok _ _ _ _ _ Hdel).
    apply IH; [exact Hnodup| |exact Hrest].
    intros d' Hd'. destruct (Hdisk d' (or_intror Hd')) as (p' & data' & -> & Hentry' & Hfile').
    exists p', data'. split; [reflexivity|]. split; [exact Hentry'|].
    rewrite Hfiles.
    destruct (String.eqb_spec path p') as [->|_].
    + exfalso. apply Hnotin. cbn [desktop_file_path].
      change p' with (desktop_file_path E (ChannelLauncher_FromDisk p' data')).
      now apply in_map.
    + cbn [orb].
      destruct (String.eqb_spec
                  (get_icon_file_path E
                     (LAUNCHER_PREFIX
                      ++ format_str (channel_id (ChannelLauncher_FromDisk path data))
                      ++ ".png")) p') as [Heq|_];
        [|cbn [andb]; exact Hfile'].
      exfalso.
      pose proof (icon_file_not_entry E
                    (channel_id (ChannelLauncher_FromDisk path data))) as Hicon.
      change (get_icon_file_path E
                ((LAUNCHER_PREFIX
                  ++ format_str (channel_id (ChannelLauncher_FromDisk path data)))
                 ++ ".png"))
        with (get_icon_file_path E
                (LAUNCHER_PREFIX
                 ++ format_str (channel_id (ChannelLauncher_FromDisk path data))
                 ++ ".png")) in Hicon.
      rewrite Heq in Hicon. congruence.
  - apply IH; [exact Hnodup| |exact Hrest]. intros d' Hd'. apply Hdisk. now right.
Qed.

Lemma delete_returns_allowed (E : environment) (d : ChannelLauncher) (w w' : world) :
  delete E d w = (Ok tt, w') -> remove_denied E (desktop_file_path E d) = false.
Proof.
  unfold delete, delete_desktop_file. unfold bind at 1. unfold os_remove at 1.
  destruct (dict_get (desktop_file_path E d) (files w)); [|discriminate].
  destruct (remove_denied E (desktop_file_path E d)); [discriminate|reflexivity].
Qed.

Lemma for_launchers_from_disk_allowed (E : environment)
  (db disk : list ChannelLauncher) (did b : bool) (w w' : world) :
  for_launchers_from_disk E db disk did w = (Ok b, w') ->
  forall d, In d disk -> is_stale db d = true ->
            remove_denied E (desktop_file_path E d) = false.
Proof.
  revert did w. induction disk as [|d0 rest IH]; intros did w H d Hd Hstale;
    [destruct Hd|].
  cbn [for_launchers_from_disk] in H. unfold is_stale in Hstale.
  destruct (negb (any_is_same_channel d0 db)) eqn:Hs0.
  - unfold bind at 1 in H. unfold logger at 1 in H.
    unfold bind at 1 in H.
    match type of H with
    | context [delete E d0 ?w0] =>
        destruct (delete E d0 w0) as [[[]|e] w1] eqn:Hdel; [|discriminate H]
    end.
    destruct Hd as [<-|Hd].
    + exact (delete_returns_allowed E d0 _ _ Hdel).
    + exact (IH true w1 H d Hd Hstale).
  - destruct Hd as [<-|Hd]; [congruence|].
    exact (IH did w H d Hd Hstale).
Qed.

Lemma NoDup_loaded_paths (E : environment) (fs : list (string * string))
  (names : list string) :
  NoDup names ->
  (forall n, In n names -> exists p, child_name (applications_dir E) p = Some n) ->
  NoDup (map (desktop_file_path E) (flat_map (launchers_of_file E fs) names)).
Proof.
  induction names as [|n rest IH]; intros Hnodup Hchild; [constructor|].
  apply NoDup_cons_iff in Hnodup as [Hnotin Hnodup].
  assert (IHrest : NoDup (map (desktop_file_path E)
                            (flat_map (launchers_of_file E fs) rest))).
  { apply IH; [exact Hnodup|]. intros n' Hn'. apply Hchild. now right. }
  cbn [flat_map]. unfold launchers_of_file at 1.
  destruct (dict_get (path_join (applications_dir E) n) fs) as [text|]; [|exact IHrest].
  destruct (configparser_read E text) as [parser|e]; [|exact IHrest].
  destruct (dict_get "Desktop Entry" parser) as [items|]; [|exact IHrest].
  cbn [app map desktop_file_path]. constructor; [|exact IHrest].
  intro Hin. apply in_map_iff in Hin as (d & Hpath & Hd).
  apply in_flat_map in Hd as (n' & Hn' & Hd). unfold launchers_of_file in Hd.
  destruct (dict_get (path_join (applications_dir E) n') fs) as [text'|]; [|destruct Hd].
  destruct (configparser_read E text') as [parser'|e]; [|destruct Hd].
  destruct (dict_get "Desktop Entry" parser') as [items'|]; [|destruct Hd].
  destruct Hd as [<-|[]]. cbn [desktop_file_path] in Hpath.
  destruct (Hchild n (or_introl eq_refl)) as (p & Hp).
  destruct (Hchild n' (or_intror Hn')) as (p' & Hp').
  pose proof (child_name_path E p n Hp) as Hpn.
  pose proof (child_name_path E p' n' Hp') as Hpn'.
  assert (Hpp : p = p') by congruence.
  assert (Hnn : n = n') by congruence.
  apply Hnotin. now rewrite Hnn.
Qed.

Lemma update_icon_cache_returns (E : environment) (w : world) :
  (forall args e, subprocess_run E args = Raise e -> isinstance_OSError e = true) ->
  exists w', update_icon_cache E w = (Ok tt, w').
Proof.
  intro Hsub. unfold update_icon_cache.
  destruct (copy_theme_index_returns E w) as (params & w1 & Hcopy & _).
  rewrite (bind_ok _ _ _ _ _ Hcopy).
  unfold try_except, bind, lift.
  destruct (subprocess_run E ("gtk-update-icon-cache" :: params)) as [[]|e] eqn:Hrun.
  - eexists. reflexivity.
  - rewrite (Hsub _ _ Hrun). eexists. reflexivity.
Qed.

(** X18.  When a pass returns.  Take a directory listing without repeated
    names and a cache tool that fails with [OSError] only, and let the pass
    be forced, or else let the versions parse of the available records and
    of the launchers on disk that belong to one.  Then
    [update_channel_launchers] returns [None] exactly when the reader
    accepts every file of the applications directory and the system does
    not refuse to remove the desktop file of a launcher on disk whose
    channel has no available record: no other failure (an icon that cannot
    be composed, a desktop file that cannot be written, an icon that is
    missing, a cache tool that cannot be started) stops it.  The removal
    of an icon file is taken not to be refused. *)
Theorem pass_returns_iff_directory_loads (E : environment) (force : bool) (w : world) :
  NoDup (children (applications_dir E) (files w)) ->
  (forall args e, subprocess_run E args = Raise e -> isinstance_OSError e = true) ->
  (forall d, In d (disk_launchers E w) ->
             remove_denied E (get_icon_file_path E
                                (LAUNCHER_PREFIX ++ format_str (channel_id d) ++ ".png"))
             = false) ->
  (force = true
   \/ ((forall c, In c (source w) -> version_parses c)
       /\ forall d c, In d (disk_launchers E w) -> In c (source w) ->
                      channel_id d = Some (ChannelMetadata.id c) ->
                      exists a b, version_components (channel_version d) = Ok (a, b))) ->
  (exists w', update_channel_launchers E force w = (Ok PyNone, w'))
  <-> ((forall q text, is_entry_path E q = true -> dict_get q (files w) = Some text ->
                       exists parser, configparser_read E text = Ok parser)
       /\ (forall d, In d (disk_launchers E w) ->
                     (forall c, In c (source w) ->
                                channel_id d <> Some (ChannelMetadata.id c)) ->
                     remove_denied E (desktop_file_path E d) = false)).
Proof.
  intros Hnodup Hsub _ Hversions.
  assert (Hdb : FromDatabase_load_all w
                = (Ok (map ChannelLauncher_FromDatabase (source w)), w)) by reflexivity.
  assert (Hstale : forall d,
             is_stale (map ChannelLauncher_FromDatabase (source w)) d = true
             <-> forall c, In c (source w) -> channel_id d <> Some (ChannelMetadata.id c)).
  { intro d. unfold is_stale. rewrite negb_true_iff. split.
    - intros Hnone c Hc Hid.
      assert (Hany : any_is_same_channel d (map ChannelLauncher_FromDatabase (source w))
                     = true) by (apply any_is_same_channel_db; now exists c).
      congruence.
    - intro Hno.
      destruct (any_is_same_channel d _) eqn:Hany; [|reflexivity].
      apply any_is_same_channel_db in Hany as (c & Hc & Hid). now destruct (Hno c Hc). }
  unfold update_channel_launchers. rewrite (bind_ok _ _ _ _ _ Hdb).
  split.
  - intros (w' & Hrun).
    destruct (FromDisk_load_all E w) as [[disk|e] w0] eqn:Hload;
      [|rewrite (bind_raise _ _ _ _ _ Hload) in Hrun; discriminate Hrun].
    split; [now apply (loaded_entries_parse E w w0 disk)|].
    apply FromDisk_load_all_inv in Hload as Hinv. destruct Hinv as (-> & _ & ->).
    rewrite (bind_ok _ _ _ _ _ Hload) in Hrun.
    fold (disk_launchers E w) in Hrun.
    unfold bind at 1 in Hrun. unfold reconcile at 1 in Hrun. unfold bind at 1 in Hrun.
    destruct (for_launchers_from_disk E _ (disk_launchers E w) false w)
      as [[b1|e] w1] eqn:Hfirst; [|discriminate Hrun].
    intros d Hd Hno.
    apply (for_launchers_from_disk_allowed E _ _ _ _ _ _ Hfirst d Hd).
    now apply Hstale.
  - intros (Hparse & Hallowed).
    rewrite (bind_ok _ _ _ _ _ (load_all_of_parsing_entries E w Hparse)).
    set (db := map ChannelLauncher_FromDatabase (source w)) in *.
    set (disk := disk_launchers E w).
    assert (Hfirst : exists b w1, for_launchers_from_disk E db disk false w = (Ok b, w1)).
    { apply for_launchers_from_disk_returns.
      - apply NoDup_loaded_paths; [exact Hnodup|].
        intros n Hn. apply In_children in Hn as (p & Hp & _). now exists p.
      - intros d Hd. apply In_loaded in Hd as (p & t & r & i & Hp & Hget & _ & _ & ->).
        exists p, (dict i). split; [reflexivity|]. split; [exact Hp|congruence].
      - intros d Hd Hs. apply (Hallowed d Hd). now apply Hstale. }
    destruct Hfirst as (b1 & w1 & Hfirst).
    assert (Hsecond : exists b w2, for_launchers_from_db E force disk db b1 w1 = (Ok b, w2)).
    { apply for_launchers_from_db_returns.
      destruct Hversions as [Hforce|[Hdbv Hdiskv]]; [now left|right].
      intros s Hs _. apply in_map_iff in Hs as (c & <- & Hc).
      apply any_compare_returns; [exact (Hdbv c Hc)|].
      intros d Hd Hsame. apply (Hdiskv d c Hd Hc).
      unfold is_same_channel in Hsame. apply option_string_eqb_eq in Hsame.
      now rewrite <- Hsame. }
    destruct Hsecond as (b2 & w2 & Hsecond).
    assert (Hreconcile : reconcile E force db disk w = (Ok b2, w2)).
    { unfold reconcile. now rewrite (bind_ok _ _ _ _ _ Hfirst). }
    rewrite (bind_ok _ _ _ _ _ Hreconcile).
    destruct b2.
    + destruct (update_icon_cache_returns E w2 Hsub) as (w3 & Hcache).
      exists w3. now rewrite (bind_ok _ _ _ _ _ Hcache).
    + now exists w2.
Qed.

Lemma pass_returns_iff_directory_loads_witness :
  let c := example_channel "c" "x" "Maths" (Some "data:image/png;base64,") in
  let w := example_world [c]
             [("/share/applications/stray.desktop", example_desktop_text "c" "2");
              ("/share/applications/old.desktop", example_desktop_text "gone" "1~5")] in
  (exists w', update_channel_launchers example_environment true w = (Ok PyNone, w'))
  <-> ((forall q text,
           is_entry_path example_environment q = true ->
           dict_get q (files w) = Some text ->
           exists parser, configparser_read example_environment text = Ok parser)
       /\ (forall d, In d (disk_launchers example_environment w) ->
                     (forall c, In c (source w) ->
                                channel_id d <> Some (ChannelMetadata.id c)) ->
                     remove_denied example_environment
                       (desktop_file_path example_environment d) = false)).
Proof.
  intros c w.
  apply (pass_returns_iff_directory_loads example_environment true w).
  - vm_compute. constructor; [intros [H|[]]; discriminate H|].
    constructor; [intros []|constructor].
  - intros args e H. discriminate H.
  - intros d _. reflexivity.
  - now left.
Defined.

(** ** Centring images *)

Lemma nearest_float_exact (n : Z) : Z.abs n < 2 ^ 53 -> nearest_float n = n.
Proof.
  intro H. unfold nearest_float.
  assert (He : Z.log2 (Z.abs n) - 52 <= 0).
  { destruct (Z.eq_dec (Z.abs n) 0) as [->|Hne]; [cbn; lia|].
    assert (Z.log2 (Z.abs n) < 53); [|lia].
    apply Z.log2_lt_pow2; lia. }
  apply Z.leb_le in He. now rewrite He.
Qed.

Lemma int_half_exact (n : Z) : Z.abs n < 2 ^ 53 -> int_half n = Some (Z.quot n 2).
Proof.
  intro H. unfold int_half. rewrite (nearest_float_exact n H).
  assert (Hlt : Z.abs n < 2 ^ 1025).
  { apply (Z.lt_trans _ (2 ^ 53)); [exact H|]. apply Z.pow_lt_mono_r; lia. }
  apply Z.leb_gt in Hlt. now rewrite Hlt.
Qed.

Lemma quot_2_centred (d : Z) :
  Z.abs (d - 2 * Z.quot d 2) <= 1
  /\ (0 <= d -> 0 <= Z.quot d 2 /\ Z.quot d 2 <= d - Z.quot d 2 <= Z.quot d 2 + 1).
Proof.
  pose proof (Z.quot_rem' d 2) as Hqr.
  split.
  - pose proof (Z.rem_bound_abs d 2 ltac:(lia)). lia.
  - intro Hd. pose proof (Z.rem_bound_pos d 2 Hd ltac:(lia)).
    pose proof (Z.quot_pos d 2 Hd ltac:(lia)). lia.
Qed.

Lemma paste_center_box (base_image paste_image : Image)
  (kwargs : list (string * Z)) (W H w h : Z) :
  Image_size base_image = (W, H) ->
  Image_size paste_image = (w, h) ->
  Z.abs (W - w) < 2 ^ 53 -> Z.abs (H - h) < 2 ^ 53 ->
  paste_center base_image paste_image kwargs
  = Some (Image_paste base_image paste_image
            [Z.quot (W - w) 2; Z.quot (H - h) 2] kwargs).
Proof.
  intros Hbase Hpaste HW HH. unfold paste_center. rewrite Hbase, Hpaste.
  now rewrite (int_half_exact _ HW), (int_half_exact _ HH).
Qed.

(** X19.  [paste_center] centres to the pixel.  For sizes that differ by
    less than 2^53 in each direction, the box it hands to [paste] leaves
    margins that differ by one pixel at most; when the pasted image fits
    into the base image it lies wholly inside, and an odd pixel goes to the
    right and to the bottom. *)
Theorem paste_center_is_centred (base_image paste_image : Image)
  (kwargs : list (string * Z)) (W H w h : Z) :
  Image_size base_image = (W, H) ->
  Image_size paste_image = (w, h) ->
  Z.abs (W - w) < 2 ^ 53 -> Z.abs (H - h) < 2 ^ 53 ->
  exists x y,
    paste_center base_image paste_image kwargs
    = Some (Image_paste base_image paste_image [x; y] kwargs)
    /\ Z.abs ((W - w - x) - x) <= 1
    /\ Z.abs ((H - h - y) - y) <= 1
    /\ (w <= W -> 0 <= x /\ x + w <= W /\ x <= W - w - x <= x + 1)
    /\ (h <= H -> 0 <= y /\ y + h <= H /\ y <= H - h - y <= y + 1).
Proof.
  intros Hbase Hpaste HW HH.
  exists (Z.quot (W - w) 2), (Z.quot (H - h) 2).
  split; [now apply paste_center_box|].
  destruct (quot_2_centred (W - w)) as [Hx Hx'].
  destruct (quot_2_centred (H - h)) as [Hy Hy'].
  split; [lia|]. split; [lia|]. split; intro Hle.
  - specialize (Hx' ltac:(lia)). lia.
  - specialize (Hy' ltac:(lia)). lia.
Qed.

Lemma paste_center_is_centred_witness :
  let base_image := Image_new "RGBA" (208, 208) [0; 0; 0; 0] in
  let paste_image := Image_loaded (176, 101) in
  exists x y,
    paste_center base_image paste_image []
    = Some (Image_paste base_image paste_image [x; y] [])
    /\ Z.abs ((208 - 176 - x) - x) <= 1
    /\ Z.abs ((208 - 101 - y) - y) <= 1
    /\ (176 <= 208 -> 0 <= x /\ x + 176 <= 208 /\ x <= 208 - 176 - x <= x + 1)
    /\ (101 <= 208 -> 0 <= y /\ y + 101 <= 208 /\ y <= 208 - 101 - y <= y + 1).
Proof.
  intros base_image paste_image.
  apply (paste_center_is_centred base_image paste_image [] 208 208 176 101);
    [reflexivity|reflexivity|vm_compute; reflexivity|vm_compute; reflexivity].
Defined.

(** X20.  [resize_preserving_aspect_ratio] never crops and never distorts
    before it resizes.  For a source image with sides below 2^53, the
    frame is a square whose side is the longer side of the source; the
    source is pasted wholly inside it, flush with it along its longer side
    and centred along the other; and the result has the target size. *)
Theorem resize_preserving_aspect_ratio_frame (source_image : Image)
  (target_size : Z * Z) (kwargs : list (string * Z)) (w h : Z) :
  Image_size source_image = (w, h) ->
  0 <= w < 2 ^ 53 -> 0 <= h < 2 ^ 53 ->
  exists x y,
    let side := Z.max w h in
    let frame_image := Image_new "RGBA" (side, side) [255; 255; 255; 0] in
    resize_preserving_aspect_ratio source_image target_size kwargs
    = Some (Image_resize (Image_paste frame_image source_image [x; y] [])
              target_size kwargs)
    /\ 0 <= x /\ x + w <= side /\ x <= side - w - x <= x + 1
    /\ 0 <= y /\ y + h <= side /\ y <= side - h - y <= y + 1
    /\ (h <= w -> x = 0)
    /\ (w <= h -> y = 0).
Proof.
  intros Hsize Hw Hh.
  exists (Z.quot (Z.max w h - w) 2), (Z.quot (Z.max w h - h) 2).
  cbv zeta. set (side := Z.max w h).
  set (frame_image := Image_new "RGBA" (side, side) [255; 255; 255; 0]).
  unfold resize_preserving_aspect_ratio. rewrite Hsize. cbn [fst snd].
  fold side. fold frame_image.
  rewrite (paste_center_box frame_image source_image [] side side w h eq_refl Hsize);
    [|subst side; lia|subst side; lia].
  split; [reflexivity|].
  destruct (quot_2_centred (side - w)) as [_ Hx].
  destruct (quot_2_centred (side - h)) as [_ Hy].
  specialize (Hx ltac:(subst side; lia)). specialize (Hy ltac:(subst side; lia)).
  assert (Hside : (h <= w -> side = w) /\ (w <= h -> side = h)) by (subst side; lia).
  clearbody side.
  split; [lia|]. split; [lia|]. split; [lia|]. split; [lia|]. split; [lia|].
  split; [lia|]. split; intro Hle.
  - destruct Hside as [Hs _]. now rewrite (Hs Hle), Z.sub_diag.
  - destruct Hside as [_ Hs]. now rewrite (Hs Hle), Z.sub_diag.
Qed.

Lemma resize_preserving_aspect_ratio_frame_witness :
  let source_image := Image_loaded (300, 200) in
  exists x y,
    let side := Z.max 300 200 in
    let frame_image := Image_new "RGBA" (side, side) [255; 255; 255; 0] in
    resize_preserving_aspect_ratio source_image (208, 208) [("resample", 3)]
    = Some (Image_resize (Image_paste frame_image source_image [x; y] [])
              (208, 208) [("resample", 3)])
    /\ 0 <= x /\ x + 300 <= side /\ x <= side - 300 - x <= x + 1
    /\ 0 <= y /\ y + 200 <= side /\ y <= side - 200 - y <= y + 1
    /\ (200 <= 300 -> x = 0)
    /\ (300 <= 200 -> y = 0).
Proof.
  intro source_image.
  apply (resize_preserving_aspect_ratio_frame source_image (208, 208)
           [("resample", 3)] 300 200);
    [reflexivity|vm_compute; split; [discriminate|reflexivity]
    |vm_compute; split; [discriminate|reflexivity]].
Defined.

Lemma resize_preserving_aspect_ratio_size (source_image : Image)
  (target_size : Z * Z) (kwargs : list (string * Z)) (w h : Z) :
  Image_size source_image = (w, h) ->
  0 <= w < 2 ^ 53 -> 0 <= h < 2 ^ 53 ->
  exists thumbnail_image,
    resize_preserving_aspect_ratio source_image target_size kwargs
    = Some thumbnail_image
    /\ Image_size thumbnail_image = target_size.
Proof.
  intros Hsize Hw Hh. unfold resize_preserving_aspect_ratio.
  rewrite Hsize. cbn [fst snd].
  rewrite (paste_center_box
             (Image_new "RGBA" (Z.max w h, Z.max w h) [255; 255; 255; 0])
             source_image [] (Z.max w h) (Z.max w h) w h eq_refl Hsize);
    [|lia|lia].
  eexists. split; reflexivity.
Qed.

(** X21.  The two inner images of a channel icon, for a source image with
    sides below 2^53 of whatever shape.  The fill variant pastes the
    resized source at the origin of the 208 x 208 base, which it covers
    wholly; the tile variant pastes a 176 x 176 thumbnail at (16, 16), so
    that a white border of 16 pixels is left on every side. *)
Theorem icon_inner_images_layout (icon_source_image : Image) (w h : Z) :
  Image_size icon_source_image = (w, h) ->
  0 <= w < 2 ^ 53 -> 0 <= h < 2 ^ 53 ->
  exists fill_thumbnail tile_thumbnail,
    icon_inner_fill_image icon_source_image
    = Some (Image_paste (Image_new "RGBA" (208, 208) [0; 0; 0; 0])
              fill_thumbnail [0; 0] [])
    /\ Image_size fill_thumbnail = (208, 208)
    /\ icon_inner_tile_image icon_source_image
       = Some (Image_paste (Image_new "RGBA" (208, 208) [255; 255; 255; 255])
                 tile_thumbnail [16; 16] [])
    /\ Image_size tile_thumbnail = (176, 176)
    /\ resize_preserving_aspect_ratio icon_source_image (208, 208)
         [("resample", Image_BICUBIC)] = Some fill_thumbnail
    /\ resize_preserving_aspect_ratio icon_source_image (176, 176)
         [("resample", Image_BICUBIC)] = Some tile_thumbnail.
Proof.
  intros Hsize Hw Hh.
  destruct (resize_preserving_aspect_ratio_size icon_source_image (208, 208)
              [("resample", Image_BICUBIC)] w h Hsize Hw Hh) as (fill & Hfill & Hfs).
  destruct (resize_preserving_aspect_ratio_size icon_source_image (176, 176)
              [("resample", Image_BICUBIC)] w h Hsize Hw Hh) as (tile & Htile & Hts).
  exists fill, tile.
  split; [|split; [exact Hfs|split; [|split; [exact Hts|split; assumption]]]].
  - unfold icon_inner_fill_image.
    change icon_inner_size with (208, 208). rewrite Hfill.
    rewrite (paste_center_box (Image_new "RGBA" (208, 208) [0; 0; 0; 0])
               fill [] 208 208 208 208 eq_refl Hfs); [reflexivity| |]; vm_compute;
      reflexivity.
  - unfold icon_inner_tile_image.
    change icon_inner_size with (208, 208).
    change (256 - 80, 256 - 80) with (176, 176). rewrite Htile.
    rewrite (paste_center_box (Image_new "RGBA" (208, 208) [255; 255; 255; 255])
               tile [] 208 208 176 176 eq_refl Hts); [reflexivity| |]; vm_compute;
      reflexivity.
Qed.

Lemma icon_inner_images_layout_witness :
  let icon_source_image := Image_loaded (300, 200) in
  exists fill_thumbnail tile_thumbnail,
    icon_inner_fill_image icon_source_image
    = Some (Image_paste (Image_new "RGBA" (208, 208) [0; 0; 0; 0])
              fill_thumbnail [0; 0] [])
    /\ Image_size fill_thumbnail = (208, 208)
    /\ icon_inner_tile_image icon_source_image
       = Some (Image_paste (Image_new "RGBA" (208, 208) [255; 255; 255; 255])
                 tile_thumbnail [16; 16] [])
    /\ Image_size tile_thumbnail = (176, 176)
    /\ resize_preserving_aspect_ratio icon_source_image (208, 208)
         [("resample", Image_BICUBIC)] = Some fill_thumbnail
    /\ resize_preserving_aspect_ratio icon_source_image (176, 176)
         [("resample", Image_BICUBIC)] = Some tile_thumbnail.
Proof.
  intro icon_source_image.
  apply (icon_inner_images_layout icon_source_image 300 200);
    [reflexivity|vm_compute; split; [discriminate|reflexivity]
    |vm_compute; split; [discriminate|reflexivity]].
Defined.

(** ** Values that configparser rejects *)

Lemma rejected_entry (c : ChannelMetadata.t) (icon_name : option string) :
  forallb before_set (map snd (desktop_entry c None)) = false ->
  forallb before_set (map snd (desktop_entry c icon_name)) = false.
Proof.
  intro H. destruct icon_name as [[|x r]|]; try exact H.
  unfold desktop_entry in *. rewrite map_app, forallb_app.
  rewrite app_nil_r in H. now rewrite H.
Qed.

(** X22.  A record with a value that configparser rejects (a percent sign
    that is neither doubled nor the start of a key, in the name, the
    tagline, the id or the version) gets no desktop file: [save] returns,
    every file of the applications directory is as before, and the
    [ValueError] of [set] is logged as a warning.  The icon is written all
    the same when the thumbnail allows it. *)
Theorem rejected_value_writes_no_desktop_file (E : environment)
  (c : ChannelMetadata.t) (w : world) :
  let self := ChannelLauncher_FromDatabase c in
  forallb before_set (map snd (desktop_entry c None)) = false ->
  (forall icon_name w1, write_desktop_file E self icon_name w1 = (Raise ValueError, w1))
  /\ exists w',
       save E self w = (Ok tt, w')
       /\ (forall q, is_entry_path E q = true ->
                     dict_get q (files w') = dict_get q (files w))
       /\ In (warning_desktop_file (Some (ChannelMetadata.id c)) ValueError) (log w')
       /\ (forall thumbnail mimetype data_b64 data,
              ChannelMetadata.thumbnail c = Some thumbnail ->
              DATA_URI_PATTERN_match thumbnail = Some (mimetype, data_b64) ->
              icon_image_save E mimetype data_b64 = Ok data ->
              mem (get_icon_file_path E
                     (LAUNCHER_PREFIX ++ ChannelMetadata.id c ++ ".png"))
                  (unwritable w) = false ->
              dict_get (get_icon_file_path E
                          (LAUNCHER_PREFIX ++ ChannelMetadata.id c ++ ".png"))
                (files w') = Some data).
Proof.
  intros self Hbad.
  assert (Hwrite : forall icon_name w1,
             write_desktop_file E self icon_name w1 = (Raise ValueError, w1)).
  { intros icon_name w1. subst self. rewrite write_desktop_file_closed_form.
    now rewrite (rejected_entry c icon_name Hbad). }
  split; [exact Hwrite|].
  destruct (save_icon_step E c w) as (icon_name & w1 & Hstep & _ & _ & _ & Hfiles).
  fold self in Hstep.
  exists (snd (logger (warning_desktop_file (channel_id self) ValueError) w1)).
  assert (Hsave : save E self w
                  = logger (warning_desktop_file (channel_id self) ValueError) w1).
  { unfold save. rewrite (bind_ok _ _ _ _ _ Hstep).
    unfold try_except. now rewrite Hwrite. }
  split; [now rewrite Hsave|]. split; [exact Hfiles|]. split.
  - cbn [logger snd log]. apply in_or_app. right. now left.
  - intros thumbnail mimetype data_b64 data Hthumb Hmatch Hdata Hmem.
    cbn [logger snd files].
    assert (Hicon : write_channel_icon E self w
                    = (Ok (Some (LAUNCHER_PREFIX ++ ChannelMetadata.id c)),
                       set_files
                         (fs_write (get_icon_file_path E
                                      (LAUNCHER_PREFIX ++ ChannelMetadata.id c ++ ".png"))
                            data
                            (files
                               (set_files
                                  (fs_write
                                     (get_icon_file_path E
                                        (LAUNCHER_PREFIX ++ ChannelMetadata.id c ++ ".png"))
                                     EmptyString (files w)) w)))
                         (set_files
                            (fs_write
                               (get_icon_file_path E
                                  (LAUNCHER_PREFIX ++ ChannelMetadata.id c ++ ".png"))
                               EmptyString (files w)) w))).
    { subst self. unfold write_channel_icon. cbv zeta. cbn [channel_id format_str].
      change (get_icon_file_path E
                ((LAUNCHER_PREFIX ++ ChannelMetadata.id c) ++ file_extension))
        with (get_icon_file_path E (LAUNCHER_PREFIX ++ ChannelMetadata.id c ++ ".png")).
      unfold bind at 1. unfold lift at 1, channel_icon, ChannelIcon_init.
      rewrite Hthumb, Hmatch. unfold ensure_dir. unfold bind at 1. unfold ret at 1.
      unfold bind at 1. unfold open_w. rewrite Hmem.
      unfold bind at 1. unfold lift, ChannelIcon_write. cbn [fst snd].
      rewrite Hdata. reflexivity. }
    unfold try_except in Hstep. rewrite Hicon in Hstep. injection Hstep as _ <-.
    unfold set_files. cbn [files]. now rewrite dict_get_fs_write, String.eqb_refl.
Qed.

Lemma rejected_value_writes_no_desktop_file_witness :
  let c := example_channel "c" "3" "100% Maths" (Some "data:image/png;base64,AAAA") in
  let w := example_world [c] [] in
  let self := ChannelLauncher_FromDatabase c in
  exists w',
    save example_environment self w = (Ok tt, w')
    /\ (forall q, is_entry_path example_environment q = true ->
                  dict_get q (files w') = dict_get q (files w))
    /\ In (warning_desktop_file (Some (ChannelMetadata.id c)) ValueError) (log w')
    /\ dict_get (get_icon_file_path example_environment
                   (LAUNCHER_PREFIX ++ ChannelMetadata.id c ++ ".png"))
         (files w') = Some "PNG AAAA".
Proof.
  intros c w self.
  destruct (rejected_value_writes_no_desktop_file example_environment c w)
    as (_ & w' & Hsave & Hfiles & Hlog & Hicon); [vm_compute; reflexivity|].
  exists w'. split; [exact Hsave|]. split; [exact Hfiles|]. split; [exact Hlog|].
  apply (Hicon "data:image/png;base64,AAAA" "image/png" "AAAA" "PNG AAAA");
    reflexivity.
Defined.
